(** * gemini_mod: the Gemini API client and its command-line wrapper

    A shallow embedding of the Go packages [gemini] (client.go, types.go) and
    [cmd/gemini] (main.go), and the properties their specification states.

    Conventions of the embedding.
    - A Go [string] and a Go [[]byte] are sequences of bytes: [string].
    - A Go [int] is a [Z]; the code only compares such values and prints
      them, so no wrap-around is ever exercised.
    - A Go [float64] is a binary64 [float].
    - A slice is a [list]; a nil slice and an empty slice are both [[]].
    - A nilable pointer is an [option].
    - The calls the code makes to the outside (the HTTP executor, reading the
      response body, the JSON encoder and decoder) are recorded in a trace of
      events, next to the value or error the call returns. *)

From Stdlib Require Import ZArith List String Ascii Bool Lia.
From Stdlib Require Import Floats.
From Stdlib Require Import DecimalString DecimalZ DecimalPos.
Import ListNotations.

Local Open Scope string_scope.
Local Open Scope Z_scope.

(** ** Bytes and strings, as Go sees them *)

Definition byte (c : ascii) : Z := Z.of_N (N_of_ascii c).

Definition len (s : string) : Z := Z.of_nat (String.length s).

(** [s[i]], with 0 standing for an index out of range (the code below only
    reads indices it has checked). *)
Definition at_ (s : string) (i : nat) : Z :=
  match String.get i s with
  | Some c => byte c
  | None => 0
  end.

(** [s[n:]] *)
Fixpoint drop (n : nat) (s : string) : string :=
  match n, s with
  | O, _ => s
  | S n', String _ t => drop n' t
  | S _, EmptyString => EmptyString
  end.

(** [s[:n]] *)
Definition take (n : nat) (s : string) : string := substring 0 n s.

Fixpoint join (l : list string) : string :=
  match l with
  | [] => ""
  | x :: r => x ++ join r
  end.

(** ** unicode/utf8 *)

Module utf8.

Definition RuneError : Z := 0xFFFD.
Definition RuneSelf : Z := 0x80.
Definition locb : Z := 0x80.
Definition hicb : Z := 0xBF.

(** The [first] table of package utf8, with the accept range of the second
    byte looked up at once. *)
Inductive lead :=
| ascii_byte
| invalid_byte
| multi (size : nat) (lo hi : Z).

Definition first (b : Z) : lead :=
  if b <? 0x80 then ascii_byte
  else if b <? 0xC2 then invalid_byte
  else if b <? 0xE0 then multi 2 locb hicb
  else if b =? 0xE0 then multi 3 0xA0 hicb
  else if b <? 0xED then multi 3 locb hicb
  else if b =? 0xED then multi 3 locb 0x9F
  else if b <? 0xF0 then multi 3 locb hicb
  else if b =? 0xF0 then multi 4 0x90 hicb
  else if b <? 0xF4 then multi 4 locb hicb
  else if b =? 0xF4 then multi 4 locb 0x8F
  else invalid_byte.

Definition mask2 : Z := 0x1F.
Definition mask3 : Z := 0x0F.
Definition mask4 : Z := 0x07.
Definition maskx : Z := 0x3F.

(** utf8.DecodeRuneInString: the first rune of [s] and its width in bytes;
    an invalid or truncated encoding is [RuneError] of width 1. *)
Definition DecodeRuneInString (s : string) : Z * nat :=
  match s with
  | EmptyString => (RuneError, 0%nat)
  | String c0 _ =>
    let s0 := byte c0 in
    match first s0 with
    | ascii_byte => (s0, 1%nat)
    | invalid_byte => (RuneError, 1%nat)
    | multi sz lo hi =>
      if (String.length s <? sz)%nat then (RuneError, 1%nat) else
      let s1 := at_ s 1 in
      if (s1 <? lo) || (hi <? s1) then (RuneError, 1%nat) else
      if (sz <=? 2)%nat then
        (Z.lor (Z.shiftl (Z.land s0 mask2) 6) (Z.land s1 maskx), 2%nat) else
      let s2 := at_ s 2 in
      if (s2 <? locb) || (hicb <? s2) then (RuneError, 1%nat) else
      if (sz <=? 3)%nat then
        (Z.lor (Z.lor (Z.shiftl (Z.land s0 mask3) 12)
                      (Z.shiftl (Z.land s1 maskx) 6))
               (Z.land s2 maskx), 3%nat) else
      let s3 := at_ s 3 in
      if (s3 <? locb) || (hicb <? s3) then (RuneError, 1%nat) else
      (Z.lor (Z.lor (Z.lor (Z.shiftl (Z.land s0 mask4) 18)
                           (Z.shiftl (Z.land s1 maskx) 12))
                    (Z.shiftl (Z.land s2 maskx) 6))
             (Z.land s3 maskx), 4%nat)
    end
  end.

(** The runes of [s] in order, each with the bytes it was decoded from: what
    a [for range s] loop visits. *)
Fixpoint runes_fuel (fuel : nat) (s : string) : list (Z * string) :=
  match fuel with
  | O => []
  | S fuel' =>
    match s with
    | EmptyString => []
    | String _ _ =>
      let '(r, size) := DecodeRuneInString s in
      (r, take size s) :: runes_fuel fuel' (drop size s)
    end
  end.

Definition runes (s : string) : list (Z * string) :=
  runes_fuel (String.length s) s.

(** utf8.ValidString: no byte sequence of [s] decodes to [RuneError] by being
    invalid (the three-byte encoding of U+FFFD itself is valid). *)
Definition ValidString (s : string) : bool :=
  forallb (fun c => negb ((fst c =? RuneError) && (String.length (snd c) =? 1)%nat))
          (runes s).

End utf8.

(** ** unicode *)

Module unicode.

(** unicode.IsSpace: the Latin-1 spaces, then the White_Space table. *)
Definition IsSpace (r : Z) : bool :=
  if r <=? 0xFF then
    ((0x09 <=? r) && (r <=? 0x0D)) || (r =? 0x20) || (r =? 0x85) || (r =? 0xA0)
  else
    (r =? 0x1680) || ((0x2000 <=? r) && (r <=? 0x200A)) ||
    (r =? 0x2028) || (r =? 0x2029) || (r =? 0x202F) || (r =? 0x205F) ||
    (r =? 0x3000).

End unicode.

(** ** strings *)

Module strings.

Fixpoint dropWhile {A} (p : A -> bool) (l : list A) : list A :=
  match l with
  | [] => []
  | x :: r => if p x then dropWhile p r else l
  end.

Definition dropWhileEnd {A} (p : A -> bool) (l : list A) : list A :=
  fold_right (fun x acc =>
                match acc with
                | [] => if p x then [] else [x]
                | _ :: _ => x :: acc
                end) [] l.

(** strings.TrimFunc: [s] without the leading and the trailing runes that
    satisfy [f]. The runes [f] is asked about are those of [s] read from
    the front; Go reads the trailing ones from the back, which meets the same
    boundaries whenever [f] rejects [RuneError], as [unicode.IsSpace] does. *)
Definition TrimFunc (f : Z -> bool) (s : string) : string :=
  join (map snd (dropWhileEnd (fun c => f (fst c))
                   (dropWhile (fun c => f (fst c)) (utf8.runes s)))).

(** strings.TrimSpace *)
Definition TrimSpace (s : string) : string := TrimFunc unicode.IsSpace s.

(** strings.HasPrefix *)
Definition HasPrefix (s pre : string) : bool := String.prefix pre s.

(** strings.Contains *)
Fixpoint Contains (s sub : string) : bool :=
  String.prefix sub s ||
  match s with
  | EmptyString => false
  | String _ t => Contains t sub
  end.

(** strings.Join *)
Fixpoint Join (elems : list string) (sep : string) : string :=
  match elems with
  | [] => ""
  | [x] => x
  | x :: r => x ++ sep ++ Join r sep
  end.

(** strings.Repeat *)
Fixpoint Repeat (s : string) (count : nat) : string :=
  match count with
  | O => ""
  | S n => s ++ Repeat s n
  end.

End strings.

(** ** strconv and fmt, where the code prints integers *)

Module strconv.

(** strconv.Itoa, and the verb [%d] of package fmt. *)
Definition Itoa (z : Z) : string := NilZero.string_of_int (Z.to_int z).

(** strconv.ParseInt(s, 10, 64) *)
Definition ParseInt (s : string) : option Z :=
  match NilZero.int_of_string s with
  | Some d =>
    let z := Z.of_int d in
    if (- 2 ^ 63 <=? z) && (z <? 2 ^ 63) then Some z else None
  | None => None
  end.

End strconv.

(** ** encoding/json, up to the document it writes and reads

    The encoder is followed up to the JSON document it produces, the decoder
    from the JSON document it has parsed: objects keep their members in
    order, a number keeps its literal, a string its decoded content. *)

Module json.

#[warnings="-register-all"]
Inductive JSON :=
| JNull
| JBool (b : bool)
| JNumber (literal : string)
| JString (s : string)
| JArray (elems : list JSON)
| JObject (members : list (string * JSON)).

(** The encoding of U+FFFD. *)
Definition replacement : string :=
  String "239"%char (String "191"%char (String "189"%char "")).

(** The encoder writes a string coerced to valid UTF-8: each invalid byte
    becomes U+FFFD. The decoder does the same to the literals it reads. *)
Definition coerce (s : string) : string :=
  join (map (fun c : Z * string =>
               if (fst c =? utf8.RuneError) && (String.length (snd c) =? 1)%nat
               then replacement else snd c)
            (utf8.runes s)).

(** A float64 the encoder refuses: [math.IsInf(f, 0) || math.IsNaN(f)]. *)
Definition unsupported (f : float) : bool :=
  PrimFloat.is_infinity f || PrimFloat.is_nan f.

(** What [strconv.FormatFloat(f, 'g', -1, 64)] prints for such a value. *)
Definition unsupported_text (f : float) : string :=
  if PrimFloat.is_nan f then "NaN"
  else if PrimFloat.ltb f 0%float then "-Inf" else "+Inf".

(** Member lookup of the decoder: the key as spelled, or the same key in
    another (ASCII) letter case. *)
Definition lower (c : ascii) : ascii :=
  let b := byte c in
  if (0x41 <=? b) && (b <=? 0x5A) then ascii_of_N (Z.to_N (b + 0x20)) else c.

Fixpoint fold_case (s : string) : string :=
  match s with
  | EmptyString => EmptyString
  | String c t => String (lower c) (fold_case t)
  end.

Definition key_is (name key : string) : bool :=
  String.eqb (fold_case name) (fold_case key).

Fixpoint mapM {A B} (f : A -> option B) (l : list A) : option (list B) :=
  match l with
  | [] => Some []
  | x :: r =>
    match f x, mapM f r with
    | Some y, Some ys => Some (y :: ys)
    | _, _ => None
    end
  end.

(** Decoding the members of an object into a struct: in the order of the
    document, each member into the field it names, starting from the value
    the struct holds. *)
Definition into_struct {T} (set : string -> JSON -> T -> option T)
           (members : list (string * JSON)) (old : T) : option T :=
  fold_left (fun acc m =>
               match acc with
               | Some v => set (fst m) (snd m) v
               | None => None
               end) members (Some old).

(** The member of an object with this very key, if there is one. *)
Definition member (key : string) (j : JSON) : option JSON :=
  match j with
  | JObject ms =>
    option_map snd (find (fun m => String.eqb (fst m) key) ms)
  | _ => None
  end.

End json.

(** ** net/http and io, as far as the client touches them *)

Module http.

(** A response body: the bytes the peer delivers, and the error the read
    ends with when it does not end with EOF. *)
Record ReadCloser := {
  content : string;
  failure : option string
}.

(** [io.ReadAll(io.LimitReader(r, n))]: the number of bytes taken from [r],
    and the bytes or the error. Once [n] bytes are read the limited reader
    reports EOF without asking [r] again. *)
Definition ReadAll_LimitReader (r : ReadCloser) (n : Z) : Z * (string + string) :=
  if n <=? len (content r) then (n, inr (take (Z.to_nat n) (content r)))
  else
    match failure r with
    | None => (len (content r), inr (content r))
    | Some e => (len (content r), inl e)
    end.

(** The request the client hands over: [Body] is the document the body bytes
    spell, [GetBody] the document a replay would spell. *)
Record Request := {
  Method : string;
  URL : string;
  Header : list (string * string);
  Body : json.JSON;
  GetBody : option json.JSON
}.

(** [req.Header.Set(key, value)], keys as the source spells them. *)
Definition Header_Set (key value : string) (req : Request) : Request :=
  {| Method := Method req;
     URL := URL req;
     Header := (filter (fun kv => negb (String.eqb (fst kv) key)) (Header req)
                ++ [(key, value)])%list;
     Body := Body req;
     GetBody := GetBody req |}.

Definition Header_Get (key : string) (req : Request) : string :=
  match find (fun kv => String.eqb (fst kv) key) (Header req) with
  | Some kv => snd kv
  | None => ""
  end.

Record Response := {
  StatusCode : Z;
  Response_Body : ReadCloser
}.

(** What [Do] returns: an error, or a response. *)
Inductive Result :=
| Failed (err : string)
| Responded (resp : Response).

End http.

(** ** Package gemini: types.go *)

Module gemini.

Import json.

(** *** Request types *)

Record Part := { Part_Text : string }.

Record Content := { Content_Parts : list Part }.

Record GenerationConfig := {
  MaxOutputTokens : Z;
  Temperature : option float
}.

Inductive GoogleSearch := Build_GoogleSearch.

Record Tool := { Tool_GoogleSearch : option GoogleSearch }.

Record Request := {
  Contents : list Content;
  Request_GenerationConfig : GenerationConfig;
  Tools : list Tool
}.

(** *** Response types *)

Record ResponsePart := { ResponsePart_Text : string }.

Record ResponseContent := {
  ResponseContent_Parts : list ResponsePart;
  Role : string
}.

Record SafetyRating := { Category : string; Probability : string }.

Record Candidate := {
  Candidate_Content : ResponseContent;
  FinishReason : string;
  SafetyRatings : list SafetyRating
}.

Record UsageMetadata := {
  PromptTokenCount : Z;
  CandidatesTokenCount : Z;
  TotalTokenCount : Z
}.

Record Response := {
  Candidates : list Candidate;
  Response_UsageMetadata : UsageMetadata
}.

(** [func (r *Response) Text() string]: the [strings.Builder] is the
    accumulator of the loop. *)
Definition Text (r : Response) : string :=
  match Candidates r with
  | [] => ""
  | c0 :: _ =>
    let parts := ResponseContent_Parts (Candidate_Content c0) in
    match parts with
    | [] => ""
    | [p] => ResponsePart_Text p
    | _ => fold_left (fun b p => b ++ ResponsePart_Text p) parts ""
    end
  end.

(** The accessor as types.go had it before it concatenated the parts: the
    text of the first part only. *)
Definition Text_first_part (r : Response) : string :=
  match Candidates r with
  | [] => ""
  | c0 :: _ =>
    match ResponseContent_Parts (Candidate_Content c0) with
    | [] => ""
    | p :: _ => ResponsePart_Text p
    end
  end.

(** *** The request on the wire: what [json.Marshal] makes of the struct tags

    [contents], [generationConfig], [tools,omitempty]; [parts]; [text];
    [maxOutputTokens,omitempty], [temperature,omitempty] on a pointer;
    [googleSearch,omitempty] on a pointer. *)

Section Marshal.

(** The literal the encoder writes for a finite float64. *)
Variable FormatFloat : float -> string.

Definition Marshal_Part (p : Part) : JSON :=
  JObject [("text", JString (coerce (Part_Text p)))].

Definition Marshal_Content (c : Content) : JSON :=
  JObject [("parts", JArray (map Marshal_Part (Content_Parts c)))].

Definition Marshal_GenerationConfig (g : GenerationConfig) : string + JSON :=
  let tokens :=
    if MaxOutputTokens g =? 0 then []
    else [("maxOutputTokens", JNumber (strconv.Itoa (MaxOutputTokens g)))] in
  match Temperature g with
  | None => inr (JObject tokens)
  | Some t =>
    if unsupported t
    then inl ("json: unsupported value: " ++ unsupported_text t)
    else inr (JObject (tokens ++ [("temperature", JNumber (FormatFloat t))])%list)
  end.

Definition Marshal_Tool (t : Tool) : JSON :=
  match Tool_GoogleSearch t with
  | None => JObject []
  | Some _ => JObject [("googleSearch", JObject [])]
  end.

Definition Marshal (r : Request) : string + JSON :=
  match Marshal_GenerationConfig (Request_GenerationConfig r) with
  | inl e => inl e
  | inr g =>
    inr (JObject
           ([("contents", JArray (map Marshal_Content (Contents r)));
             ("generationConfig", g)]
            ++ match Tools r with
               | [] => []
               | _ :: _ => [("tools", JArray (map Marshal_Tool (Tools r)))]
               end)%list)
  end.

End Marshal.

(** *** And what [json.Unmarshal] makes of a document, into a [Request]

    [None] is any error of the decoder. A [null] leaves a struct, a string
    or a number as it is and sets a pointer or a slice to nil; a member no
    field answers to is skipped; the elements of an array are decoded into
    fresh values. *)

Section Unmarshal.

(** strconv.ParseFloat(literal, 64) *)
Variable ParseFloat : string -> option float.

Definition decode_Part (j : JSON) (old : Part) : option Part :=
  match j with
  | JNull => Some old
  | JObject ms =>
    into_struct (fun k v p =>
      if key_is "text" k then
        match v with
        | JNull => Some p
        | JString s => Some {| Part_Text := coerce s |}
        | _ => None
        end
      else Some p) ms old
  | _ => None
  end.

Definition decode_Parts (j : JSON) : option (list Part) :=
  match j with
  | JNull => Some []
  | JArray l => mapM (fun e => decode_Part e {| Part_Text := "" |}) l
  | _ => None
  end.

Definition decode_Content (j : JSON) (old : Content) : option Content :=
  match j with
  | JNull => Some old
  | JObject ms =>
    into_struct (fun k v c =>
      if key_is "parts" k then
        option_map Build_Content (decode_Parts v)
      else Some c) ms old
  | _ => None
  end.

Definition decode_Contents (j : JSON) : option (list Content) :=
  match j with
  | JNull => Some []
  | JArray l => mapM (fun e => decode_Content e {| Content_Parts := [] |}) l
  | _ => None
  end.

Definition decode_GenerationConfig (j : JSON) (old : GenerationConfig)
  : option GenerationConfig :=
  match j with
  | JNull => Some old
  | JObject ms =>
    into_struct (fun k v g =>
      if key_is "maxOutputTokens" k then
        match v with
        | JNull => Some g
        | JNumber lit =>
          option_map (fun n => {| MaxOutputTokens := n;
                                  Temperature := Temperature g |})
                     (strconv.ParseInt lit)
        | _ => None
        end
      else if key_is "temperature" k then
        match v with
        | JNull => Some {| MaxOutputTokens := MaxOutputTokens g;
                           Temperature := None |}
        | JNumber lit =>
          option_map (fun t => {| MaxOutputTokens := MaxOutputTokens g;
                                  Temperature := Some t |})
                     (ParseFloat lit)
        | _ => None
        end
      else Some g) ms old
  | _ => None
  end.

Definition decode_Tool (j : JSON) (old : Tool) : option Tool :=
  match j with
  | JNull => Some old
  | JObject ms =>
    into_struct (fun k v t =>
      if key_is "googleSearch" k then
        match v with
        | JNull => Some {| Tool_GoogleSearch := None |}
        | JObject _ => Some {| Tool_GoogleSearch := Some Build_GoogleSearch |}
        | _ => None
        end
      else Some t) ms old
  | _ => None
  end.

Definition decode_Tools (j : JSON) : option (list Tool) :=
  match j with
  | JNull => Some []
  | JArray l => mapM (fun e => decode_Tool e {| Tool_GoogleSearch := None |}) l
  | _ => None
  end.

Definition zero_Request : Request :=
  {| Contents := [];
     Request_GenerationConfig := {| MaxOutputTokens := 0; Temperature := None |};
     Tools := [] |}.

(** [var r Request; err := json.Unmarshal(data, &r)] *)
Definition Unmarshal (j : JSON) : option Request :=
  match j with
  | JNull => Some zero_Request
  | JObject ms =>
    into_struct (fun k v r =>
      if key_is "contents" k then
        option_map (fun c => {| Contents := c;
                                Request_GenerationConfig := Request_GenerationConfig r;
                                Tools := Tools r |})
                   (decode_Contents v)
      else if key_is "generationConfig" k then
        option_map (fun g => {| Contents := Contents r;
                                Request_GenerationConfig := g;
                                Tools := Tools r |})
                   (decode_GenerationConfig v (Request_GenerationConfig r))
      else if key_is "tools" k then
        option_map (fun t => {| Contents := Contents r;
                                Request_GenerationConfig := Request_GenerationConfig r;
                                Tools := t |})
                   (decode_Tools v)
      else Some r) ms zero_Request
  | _ => None
  end.

End Unmarshal.

(** ** Package gemini: client.go *)

Definition defaultBaseURL : string :=
  "https://generativelanguage.googleapis.com/v1beta/models".
Definition defaultModel : string := "gemini-3-pro-preview".
(** [30 * time.Second], in nanoseconds *)
Definition defaultTimeout : Z := 30 * 1000000000.
Definition maxResponseBytes : Z := 10 * 1024 * 1024.
Definition maxErrorBodyBytes : Z := 1024.

(** [Doer]: an [http.Client] with its timeout, or any other implementation
    of [Do], given by what it answers to a request. *)
Inductive Doer :=
| http_Client (Timeout : Z)
| Doer_of (Do : http.Request -> http.Result).

Record Client := {
  apiKey : string;
  model : string;
  baseURL : string;
  doer : Doer
}.

(** The library code the client calls and this development does not embed. *)
Record Platform := {
  (** the literal [encoding/json] writes for a finite float64 *)
  FormatFloat : float -> string;
  (** the error of [http.NewRequestWithContext] for a method and a URL *)
  NewRequest_error : string -> string -> option string;
  (** the [Do] of an [http.Client] with this timeout: the network *)
  Transport : Z -> http.Request -> http.Result;
  (** [json.Unmarshal(body, &resp)] for a [Response] *)
  Unmarshal_Response : string -> string + Response;
  (** the verbs [%f] and [%q] of package fmt *)
  Sprintf_f : float -> string;
  Sprintf_q : string -> string
}.

Definition Do (P : Platform) (d : Doer) (req : http.Request) : http.Result :=
  match d with
  | http_Client t => Transport P t req
  | Doer_of f => f req
  end.

(** *** Errors: the [fmt.Errorf] and [errors.New] calls of client.go *)

Inductive error :=
| API_key_empty
| base_URL_not_HTTPS (got : string)
| maxTokens_not_positive (got : Z)
| temperature_negative (got : float)
| marshal_request (cause : string)
| create_request (cause : string)
| do_request (cause : string)
| read_response (cause : string)
| response_exceeds_limit
| HTTP_status (code : Z) (msg : string)
| unmarshal_response (cause : string).

(** [err.Error()] *)
Definition Error (P : Platform) (e : error) : string :=
  match e with
  | API_key_empty => "gemini: API key must not be empty"
  | base_URL_not_HTTPS u => "gemini: base URL must use HTTPS, got " ++ Sprintf_q P u
  | maxTokens_not_positive n =>
      "gemini: maxTokens must be positive, got " ++ strconv.Itoa n
  | temperature_negative t =>
      "gemini: temperature must be non-negative, got " ++ Sprintf_f P t
  | marshal_request c => "gemini: marshal request: " ++ c
  | create_request c => "gemini: create request: " ++ c
  | do_request c => "gemini: do request: " ++ c
  | read_response c => "gemini: read response: " ++ c
  | response_exceeds_limit =>
      "gemini: response exceeds " ++ strconv.Itoa maxResponseBytes ++ " byte limit"
  | HTTP_status code msg =>
      "gemini: HTTP " ++ strconv.Itoa code ++ ": " ++ msg
  | unmarshal_response c => "gemini: unmarshal response: " ++ c
  end.

(** The taxonomy of the specification, and [RequestError] for the two
    errors of making the request, which that taxonomy does not name. *)
Inductive Kind :=
| ConfigurationError
| ValidationError
| RequestError
| TransportError
| SizeLimitError
| HTTPStatusError
| DeserializationError.

Definition kind (e : error) : Kind :=
  match e with
  | API_key_empty | base_URL_not_HTTPS _ => ConfigurationError
  | maxTokens_not_positive _ | temperature_negative _ => ValidationError
  | marshal_request _ | create_request _ => RequestError
  | do_request _ | read_response _ => TransportError
  | response_exceeds_limit => SizeLimitError
  | HTTP_status _ _ => HTTPStatusError
  | unmarshal_response _ => DeserializationError
  end.

(** *** Calls and their trace *)

Inductive Event :=
| json_Marshal (v : Request)
| doer_Do (req : http.Request)
| body_Read (bytes : Z)
| body_Close
| json_Unmarshal (data : string).

(** A computation: the calls it made, and an error or a value. *)
Definition M (A : Type) : Type := list Event * (error + A).

Definition ret {A} (a : A) : M A := ([], inr a).
Definition fail {A} (e : error) : M A := ([], inl e).
Definition emit (ev : Event) : M unit := ([ev], inr tt).

Definition bind {A B} (m : M A) (k : A -> M B) : M B :=
  let (calls, r) := m in
  match r with
  | inl e => (calls, inl e)
  | inr a => let (more, r') := k a in ((calls ++ more)%list, r')
  end.

(** [defer f()]: [f] runs when the rest has returned, however it returned. *)
Definition defer {A} (ev : Event) (rest : M A) : M A :=
  let (calls, r) := rest in ((calls ++ [ev])%list, r).

(** A library call that returns [(value, err)]: [wrap] makes the error. *)
Definition try {A} (wrap : string -> error) (r : string + A) : M A :=
  match r with
  | inl cause => fail (wrap cause)
  | inr a => ret a
  end.

Declare Scope go_scope.
Delimit Scope go_scope with go.
Notation "x <- m ;; k" := (bind m (fun x => k))
  (at level 61, m at next level, right associativity) : go_scope.
Notation "m ;;; k" := (bind m (fun _ => k))
  (at level 61, right associativity) : go_scope.
Local Open Scope go_scope.

(** *** New and its options *)

Inductive Option :=
| WithModel (model : string)
| WithDoer (d : Doer)
| WithBaseURL (url : string).

Definition apply_Option (o : Option) (c : Client) : Client :=
  match o with
  | WithModel m =>
      {| apiKey := apiKey c; model := m; baseURL := baseURL c; doer := doer c |}
  | WithDoer d =>
      {| apiKey := apiKey c; model := model c; baseURL := baseURL c; doer := d |}
  | WithBaseURL u =>
      {| apiKey := apiKey c; model := model c; baseURL := u; doer := doer c |}
  end.

Definition New (apiKey : string) (opts : list Option) : M Client :=
  if String.eqb (strings.TrimSpace apiKey) "" then fail API_key_empty else
  let c := {| apiKey := apiKey;
              model := defaultModel;
              baseURL := defaultBaseURL;
              doer := http_Client defaultTimeout |} in
  let c := fold_left (fun c o => apply_Option o c) opts c in
  if negb (strings.HasPrefix (baseURL c) "https://")
  then fail (base_URL_not_HTTPS (baseURL c))
  else ret c.

(** *** Generate and its options *)

Record generateConfig := {
  maxTokens : Z;
  temperature : float;
  googleSearch : bool
}.

Inductive GenerateOption :=
| WithMaxTokens (n : Z)
| WithTemperature (t : float)
| WithGoogleSearch.

Definition apply_GenerateOption (o : GenerateOption) (g : generateConfig)
  : generateConfig :=
  match o with
  | WithMaxTokens n =>
      {| maxTokens := n; temperature := temperature g;
         googleSearch := googleSearch g |}
  | WithTemperature t =>
      {| maxTokens := maxTokens g; temperature := t;
         googleSearch := googleSearch g |}
  | WithGoogleSearch =>
      {| maxTokens := maxTokens g; temperature := temperature g;
         googleSearch := true |}
  end.

(** The configuration a call resolves to: the defaults, then the options in
    order. *)
Definition resolve (opts : list GenerateOption) : generateConfig :=
  fold_left (fun g o => apply_GenerateOption o g) opts
            {| maxTokens := 32000; temperature := 1%float;
               googleSearch := false |}.

Section WithPlatform.

Variable P : Platform.

Definition doRequest (c : Client) (reqBody : Request) : M Response :=
  emit (json_Marshal reqBody) ;;;
  jsonData <- try marshal_request (Marshal (FormatFloat P) reqBody) ;;
  let url := baseURL c ++ "/" ++ model c ++ ":generateContent" in
  match NewRequest_error P "POST" url with
  | Some cause => fail (create_request cause)
  | None =>
    let req := {| http.Method := "POST"; http.URL := url; http.Header := [];
                  http.Body := jsonData; http.GetBody := None |} in
    let req := http.Header_Set "Content-Type" "application/json" req in
    let req := http.Header_Set "x-goog-api-key" (apiKey c) req in
    let req := {| http.Method := http.Method req; http.URL := http.URL req;
                  http.Header := http.Header req; http.Body := http.Body req;
                  http.GetBody := Some jsonData |} in
    emit (doer_Do req) ;;;
    match Do P (doer c) req with
    | http.Failed cause => fail (do_request cause)
    | http.Responded resp =>
      defer body_Close (
        let read := http.ReadAll_LimitReader (http.Response_Body resp)
                                             (maxResponseBytes + 1) in
        emit (body_Read (fst read)) ;;;
        body <- try read_response (snd read) ;;
        if maxResponseBytes <? len body then fail response_exceeds_limit else
        if 400 <=? http.StatusCode resp then
          let msg := body in
          let msg := if maxErrorBodyBytes <? len msg
                     then take (Z.to_nat maxErrorBodyBytes) msg ++ "...(truncated)"
                     else msg in
          fail (HTTP_status (http.StatusCode resp) msg)
        else
          emit (json_Unmarshal body) ;;;
          try unmarshal_response (Unmarshal_Response P body))
    end
  end.

Definition Generate (c : Client) (prompt : string) (opts : list GenerateOption)
  : M Response :=
  let cfg := resolve opts in
  if maxTokens cfg <=? 0 then fail (maxTokens_not_positive (maxTokens cfg)) else
  if PrimFloat.ltb (temperature cfg) 0%float
  then fail (temperature_negative (temperature cfg)) else
  let reqBody := {| Contents := [ {| Content_Parts := [ {| Part_Text := prompt |} ] |} ];
                    Request_GenerationConfig :=
                      {| MaxOutputTokens := maxTokens cfg;
                         Temperature := Some (temperature cfg) |};
                    Tools := [] |} in
  let reqBody := if googleSearch cfg
                 then {| Contents := Contents reqBody;
                         Request_GenerationConfig := Request_GenerationConfig reqBody;
                         Tools := [ {| Tool_GoogleSearch := Some Build_GoogleSearch |} ] |}
                 else reqBody in
  doRequest c reqBody.

End WithPlatform.

End gemini.

(** ** Package main: cmd/gemini/main.go *)

Module main.

(** [Config], as [chassisconfig.MustLoad] fills it from the environment. *)
Record Config := {
  APIKey : string;
  Model : string;
  MaxTokens : Z;
  Temperature : float;
  Timeout : Z;
  GoogleSearch : bool;
  LogLevel : string
}.

(** The process as [main] finds it, and the chassis-go and library code it
    calls: [os.Args]; what [MustLoad] returns, or the value it panics with
    (a required variable is missing, or a value does not parse); the
    executor [call.New] builds for a timeout; [json.MarshalIndent] of a
    response. *)
Record Process := {
  Args : list string;
  MustLoad : string + Config;
  call_New : Z -> http.Request -> http.Result;
  MarshalIndent : gemini.Response -> string + string
}.

(** What the process does that can be seen from outside, in order. *)
Inductive Action :=
| panics (value : string)
| logs (level message : string)
| to_stderr (text : string)
| to_stdout (text : string)
| calls_New (apiKey : string) (opts : list gemini.Option)
| calls_Generate (c : gemini.Client) (prompt : string)
                 (opts : list gemini.GenerateOption)
| client_does (e : gemini.Event).

Definition newline : string := String "010"%char "".

(** [main]: what the run does, and its exit status (0 when [main] returns,
    1 through [os.Exit(1)], 2 when a panic ends the process). The program is
    taken to be linked with chassis-go 4, so that [chassis.RequireMajor(4)]
    passes; the context with its timeout is part of what [call_New] does. *)
Definition main (P : gemini.Platform) (p : Process) : list Action * Z :=
  match MustLoad p with
  | inl v => ([panics v], 2)
  | inr cfg =>
    let started := [logs "info" "starting"] in
    if (List.length (Args p) <? 2)%nat then
      (started ++ [to_stderr ("usage: gemini <prompt>" ++ newline)], 1)%list
    else
    let prompt := strings.Join (tl (Args p)) " " in
    let configured := [logs "debug" "request config"] in
    let caller := gemini.Doer_of (call_New p (Timeout cfg)) in
    let opts := [gemini.WithModel (Model cfg); gemini.WithDoer caller] in
    let made := gemini.New (APIKey cfg) opts in
    let pre := (started ++ configured ++ [calls_New (APIKey cfg) opts]
                ++ map client_does (fst made))%list in
    match snd made with
    | inl err =>
      (pre ++ [to_stderr ("error: " ++ gemini.Error P err ++ newline)], 1)%list
    | inr client =>
      let genOpts := [gemini.WithMaxTokens (MaxTokens cfg);
                      gemini.WithTemperature (Temperature cfg)] in
      let genOpts := if GoogleSearch cfg
                     then (genOpts ++ [gemini.WithGoogleSearch])%list
                     else genOpts in
      let generated := gemini.Generate P client prompt genOpts in
      let pre := (pre ++ [calls_Generate client prompt genOpts]
                  ++ map client_does (fst generated))%list in
      match snd generated with
      | inl err =>
        (pre ++ [to_stderr ("error: " ++ gemini.Error P err ++ newline)], 1)%list
      | inr resp =>
        match MarshalIndent p resp with
        | inl err =>
          (pre ++ [to_stderr ("error formatting response: " ++ err ++ newline)],
           1)%list
        | inr out => (pre ++ [to_stdout (out ++ newline)], 0)%list
        end
      end
    end
  end.

End main.

(** ** The words of the specification *)

Module spec.

(** An API key that is empty or all white space: every rune of it is a
    Unicode white space. *)
Definition all_whitespace (s : string) : bool :=
  forallb (fun c => unicode.IsSpace (fst c)) (utf8.runes s).

(** The base URL after all options are applied: the default, unless an
    option overrides it, and then the last one that does. *)
Fixpoint last_base_URL (opts : list gemini.Option) (current : string) : string :=
  match opts with
  | [] => current
  | gemini.WithBaseURL u :: rest => last_base_URL rest u
  | _ :: rest => last_base_URL rest current
  end.

Definition base_URL_after (opts : list gemini.Option) : string :=
  last_base_URL opts gemini.defaultBaseURL.

(** The executor was invoked: the trace holds a call of [Do]. *)
Definition is_Do (e : gemini.Event) : bool :=
  match e with
  | gemini.doer_Do _ => true
  | _ => false
  end.

Definition executor_invoked (trace : list gemini.Event) : bool :=
  existsb is_Do trace.

(** The configuration of a call is valid: max tokens > 0, temperature >= 0. *)
Definition valid (cfg : gemini.generateConfig) : Prop :=
  0 < gemini.maxTokens cfg /\ PrimFloat.leb 0%float (gemini.temperature cfg) = true.

(** The request of the single-prompt use: one content, one part, the prompt;
    the generation parameters; the search tool when it is enabled. *)
Definition request_of (cfg : gemini.generateConfig) (prompt : string)
  : gemini.Request :=
  {| gemini.Contents :=
       [ {| gemini.Content_Parts := [ {| gemini.Part_Text := prompt |} ] |} ];
     gemini.Request_GenerationConfig :=
       {| gemini.MaxOutputTokens := gemini.maxTokens cfg;
          gemini.Temperature := Some (gemini.temperature cfg) |};
     gemini.Tools :=
       if gemini.googleSearch cfg
       then [ {| gemini.Tool_GoogleSearch := Some gemini.Build_GoogleSearch |} ]
       else [] |}.

(** The POST to [<baseURL>/<model>:generateContent], with the headers that
    name the content type and carry the API key, and the body to replay. *)
Definition post (c : gemini.Client) (body : json.JSON) : http.Request :=
  {| http.Method := "POST";
     http.URL := gemini.baseURL c ++ "/" ++ gemini.model c ++ ":generateContent";
     http.Header := [("Content-Type", "application/json");
                     ("x-goog-api-key", gemini.apiKey c)];
     http.Body := body;
     http.GetBody := Some body |}.

Definition truncation_marker : string := "...(truncated)".

(** The excerpt of an error body: the first 1024 bytes and the marker when
    the body is longer, the body itself when it is not. *)
Definition excerpt (body : string) : string :=
  if gemini.maxErrorBodyBytes <? len body
  then take (Z.to_nat gemini.maxErrorBodyBytes) body ++ truncation_marker
  else body.

(** What becomes of a response, by the taxonomy of failures: size limit,
    then transport, then HTTP status, then deserialization. *)
Definition received (P : gemini.Platform) (resp : http.Response)
  : gemini.M gemini.Response :=
  let body := http.content (http.Response_Body resp) in
  if gemini.maxResponseBytes <? len body then
    ([gemini.body_Read (gemini.maxResponseBytes + 1); gemini.body_Close],
     inl gemini.response_exceeds_limit)
  else
    match http.failure (http.Response_Body resp) with
    | Some cause =>
      ([gemini.body_Read (len body); gemini.body_Close],
       inl (gemini.read_response cause))
    | None =>
      if 400 <=? http.StatusCode resp then
        ([gemini.body_Read (len body); gemini.body_Close],
         inl (gemini.HTTP_status (http.StatusCode resp) (excerpt body)))
      else
        ([gemini.body_Read (len body); gemini.json_Unmarshal body;
          gemini.body_Close],
         match gemini.Unmarshal_Response P body with
         | inl cause => inl (gemini.unmarshal_response cause)
         | inr r => inr r
         end)
    end.

(** One generate-content round trip, failure by failure. *)
Definition round_trip (P : gemini.Platform) (c : gemini.Client)
           (prompt : string) (opts : list gemini.GenerateOption)
  : gemini.M gemini.Response :=
  let cfg := gemini.resolve opts in
  let r := request_of cfg prompt in
  if gemini.maxTokens cfg <=? 0 then
    ([], inl (gemini.maxTokens_not_positive (gemini.maxTokens cfg)))
  else if PrimFloat.ltb (gemini.temperature cfg) 0%float then
    ([], inl (gemini.temperature_negative (gemini.temperature cfg)))
  else
    match gemini.Marshal (gemini.FormatFloat P) r with
    | inl cause => ([gemini.json_Marshal r], inl (gemini.marshal_request cause))
    | inr body =>
      match gemini.NewRequest_error P "POST" (http.URL (post c body)) with
      | Some cause =>
        ([gemini.json_Marshal r], inl (gemini.create_request cause))
      | None =>
        match gemini.Do P (gemini.doer c) (post c body) with
        | http.Failed cause =>
          ([gemini.json_Marshal r; gemini.doer_Do (post c body)],
           inl (gemini.do_request cause))
        | http.Responded resp =>
          (gemini.json_Marshal r :: gemini.doer_Do (post c body)
             :: fst (received P resp),
           snd (received P resp))
        end
      end
    end.

(** An executor whose answer does not depend on the API key it is sent. *)
Definition key_blind (P : gemini.Platform) (d : gemini.Doer) : Prop :=
  forall (req : http.Request) (key : string),
    gemini.Do P d (http.Header_Set "x-goog-api-key" key req) = gemini.Do P d req.

(** The same client, holding another API key. *)
Definition with_key (key : string) (c : gemini.Client) : gemini.Client :=
  {| gemini.apiKey := key;
     gemini.model := gemini.model c;
     gemini.baseURL := gemini.baseURL c;
     gemini.doer := gemini.doer c |}.

(** A value a Go [int] can hold. *)
Definition int64 (z : Z) : Prop := - 2 ^ 63 <= z < 2 ^ 63.

(** A request as Go can hold it and JSON can spell it: the max tokens are an
    [int], the text of every part is valid UTF-8, and the temperature, when
    there is one, is a finite number. *)
Definition spellable (r : gemini.Request) : Prop :=
  int64 (gemini.MaxOutputTokens (gemini.Request_GenerationConfig r))
  /\ Forall (fun c =>
               Forall (fun p => utf8.ValidString (gemini.Part_Text p) = true)
                      (gemini.Content_Parts c))
            (gemini.Contents r)
  /\ (forall t, gemini.Temperature (gemini.Request_GenerationConfig r) = Some t ->
                json.unsupported t = false).

(** The usage message. *)
Definition usage : string := "usage: gemini <prompt>" ++ main.newline.

(** The action constructs a client, or is a call of one, or a call one
    makes. *)
Definition touches_client (a : main.Action) : bool :=
  match a with
  | main.calls_New _ _ | main.calls_Generate _ _ _ | main.client_does _ => true
  | _ => false
  end.

(** The options of the client and of the call that [main] takes from the
    configuration. *)
Definition client_options (p : main.Process) (cfg : main.Config)
  : list gemini.Option :=
  [gemini.WithModel (main.Model cfg);
   gemini.WithDoer (gemini.Doer_of (main.call_New p (main.Timeout cfg)))].

Definition generate_options (cfg : main.Config) : list gemini.GenerateOption :=
  ([gemini.WithMaxTokens (main.MaxTokens cfg);
    gemini.WithTemperature (main.Temperature cfg)]
   ++ if main.GoogleSearch cfg then [gemini.WithGoogleSearch] else [])%list.

End spec.

(** ** A platform to run the code on

    One implementation of each library call, for running the definitions on
    concrete inputs. The float literal is the one [strconv.FormatFloat]
    writes in its ['b'] format: mantissa, [p], binary exponent. *)

Module sample.

Fixpoint cut (c : ascii) (s : string) : option (string * string) :=
  match s with
  | EmptyString => None
  | String a t =>
    if Ascii.eqb a c then Some ("", t)
    else match cut c t with
         | Some (l, r) => Some (String a l, r)
         | None => None
         end
  end.

Definition format_b (f : float) : string :=
  match Prim2SF f with
  | S754_zero false => "0"
  | S754_zero true => "-0"
  | S754_infinity false => "+Inf"
  | S754_infinity true => "-Inf"
  | S754_nan => "NaN"
  | S754_finite s m e =>
    strconv.Itoa (if s then Zneg m else Zpos m) ++ "p" ++ strconv.Itoa e
  end.

Definition parse_Z (s : string) : option Z :=
  option_map Z.of_int (NilZero.int_of_string s).

Definition parse_b (s : string) : option float :=
  match cut "p" s with
  | None =>
    if String.eqb s "0" then Some (SF2Prim (S754_zero false))
    else if String.eqb s "-0" then Some (SF2Prim (S754_zero true))
    else None
  | Some (m, e) =>
    match parse_Z m, parse_Z e with
    | Some (Zpos p), Some e => Some (SF2Prim (S754_finite false p e))
    | Some (Zneg p), Some e => Some (SF2Prim (S754_finite true p e))
    | _, _ => None
    end
  end.

(** net/url refuses a URL that holds an ASCII control character; this is
    the one rule of [url.Parse] the sample checks. *)
Definition control (c : ascii) : bool := (byte c <? 0x20) || (byte c =? 0x7F).

Fixpoint any (p : ascii -> bool) (s : string) : bool :=
  match s with
  | EmptyString => false
  | String c t => p c || any p t
  end.

Definition NewRequest_error (method url : string) : option string :=
  if any control url
  then Some "net/url: invalid control character in URL"
  else None.

(** No network. *)
Definition Transport (timeout : Z) (req : http.Request) : http.Result :=
  http.Failed "dial tcp: network is unreachable".

Definition zero_Response : gemini.Response :=
  {| gemini.Candidates := [];
     gemini.Response_UsageMetadata :=
       {| gemini.PromptTokenCount := 0;
          gemini.CandidatesTokenCount := 0;
          gemini.TotalTokenCount := 0 |} |}.

(** A decoder that knows one document, the empty object. *)
Definition Unmarshal_Response (body : string) : string + gemini.Response :=
  if String.eqb body "{}" then inr zero_Response
  else if String.eqb body "" then inl "unexpected end of JSON input"
  else inl "invalid character".

Definition quote : string := String "034"%char "".

Definition platform : gemini.Platform :=
  {| gemini.FormatFloat := format_b;
     gemini.NewRequest_error := NewRequest_error;
     gemini.Transport := Transport;
     gemini.Unmarshal_Response := Unmarshal_Response;
     gemini.Sprintf_f := format_b;
     gemini.Sprintf_q := fun s => quote ++ s ++ quote |}.

(** An executor that answers every request with one response. *)
Definition answers (status : Z) (body : string) : gemini.Doer :=
  gemini.Doer_of (fun _ =>
    http.Responded {| http.StatusCode := status;
                      http.Response_Body := {| http.content := body;
                                               http.failure := None |} |}).

(** An executor that refuses the key it is sent, and says which. *)
Definition echoes_key : gemini.Doer :=
  gemini.Doer_of (fun req =>
    http.Responded
      {| http.StatusCode := 403;
         http.Response_Body :=
           {| http.content := "API key not valid: "
                              ++ http.Header_Get "x-goog-api-key" req;
              http.failure := None |} |}).

Definition client (d : gemini.Doer) : gemini.Client :=
  {| gemini.apiKey := "test-key";
     gemini.model := gemini.defaultModel;
     gemini.baseURL := gemini.defaultBaseURL;
     gemini.doer := d |}.

(** The document [Generate] sends for a prompt and options on this
    platform. *)
Definition body_of (prompt : string) (opts : list gemini.GenerateOption)
  : json.JSON :=
  match gemini.Marshal format_b (spec.request_of (gemini.resolve opts) prompt) with
  | inr j => j
  | inl _ => json.JNull
  end.

(** An error body of 2000 bytes. *)
Definition long_error : string := strings.Repeat "E" 2000.

(** A body of 10 MiB and 100 bytes. *)
Definition big_body : string :=
  strings.Repeat "x" (Z.to_nat (gemini.maxResponseBytes + 100)).

(** A process without network, with the environment given by what
    [MustLoad] makes of it. *)
Definition caller (timeout : Z) (req : http.Request) : http.Result :=
  http.Failed "dial tcp: network is unreachable".

Definition indent (r : gemini.Response) : string + string := inr "{}".

Definition process (args : list string) (loaded : string + main.Config)
  : main.Process :=
  {| main.Args := args;
     main.MustLoad := loaded;
     main.call_New := caller;
     main.MarshalIndent := indent |}.

(** The configuration of the defaults, with a key. *)
Definition config : main.Config :=
  {| main.APIKey := "test-key-123";
     main.Model := "gemini-3-pro-preview";
     main.MaxTokens := 32000;
     main.Temperature := 1%float;
     main.Timeout := 30 * 1000000000;
     main.GoogleSearch := true;
     main.LogLevel := "error" |}.

End sample.

(** ** What options amount to, and the calls of one run *)

Module shape.

(** The model, and the executor, that a list of client options leaves: the
    last one given, or else the one to start from. *)
Fixpoint last_model (opts : list gemini.Option) (current : string) : string :=
  match opts with
  | [] => current
  | gemini.WithModel m :: rest => last_model rest m
  | _ :: rest => last_model rest current
  end.

Fixpoint last_doer (opts : list gemini.Option) (current : gemini.Doer)
  : gemini.Doer :=
  match opts with
  | [] => current
  | gemini.WithDoer d :: rest => last_doer rest d
  | _ :: rest => last_doer rest current
  end.

(** The same for the options of a call. *)
Fixpoint last_max_tokens (opts : list gemini.GenerateOption) (current : Z) : Z :=
  match opts with
  | [] => current
  | gemini.WithMaxTokens n :: rest => last_max_tokens rest n
  | _ :: rest => last_max_tokens rest current
  end.

Fixpoint last_temperature (opts : list gemini.GenerateOption) (current : float)
  : float :=
  match opts with
  | [] => current
  | gemini.WithTemperature t :: rest => last_temperature rest t
  | _ :: rest => last_temperature rest current
  end.

Definition asks_search (o : gemini.GenerateOption) : bool :=
  match o with
  | gemini.WithGoogleSearch => true
  | _ => false
  end.

(** The five traces a call of [Generate] can leave. *)
Inductive calls_of_one_run : list gemini.Event -> Prop :=
| stopped_at_validation : calls_of_one_run []
| stopped_at_request (r : gemini.Request) :
    calls_of_one_run [gemini.json_Marshal r]
| stopped_at_executor (r : gemini.Request) (req : http.Request) :
    calls_of_one_run [gemini.json_Marshal r; gemini.doer_Do req]
| stopped_at_response (r : gemini.Request) (req : http.Request) (n : Z) :
    calls_of_one_run [gemini.json_Marshal r; gemini.doer_Do req;
                      gemini.body_Read n; gemini.body_Close]
| decoded (r : gemini.Request) (req : http.Request) (n : Z) (data : string) :
    calls_of_one_run [gemini.json_Marshal r; gemini.doer_Do req;
                      gemini.body_Read n; gemini.json_Unmarshal data;
                      gemini.body_Close].

(** A temperature the validation lets through and the encoder refuses:
    [NaN] or [+Inf]. *)
Definition passes_but_unsupported (t : float) : bool :=
  negb (PrimFloat.ltb t 0%float) && json.unsupported t.

(** The actions of [main] that end it: what it writes to standard output or
    standard error, and a panic; with the exit status each one goes with. *)
Definition exit_status (a : main.Action) : option Z :=
  match a with
  | main.to_stdout _ => Some 0
  | main.to_stderr _ => Some 1
  | main.panics _ => Some 2
  | _ => None
  end.

(** The generation parameters [main] takes from its configuration. *)
Definition configured (cfg : main.Config) : gemini.generateConfig :=
  {| gemini.maxTokens := main.MaxTokens cfg;
     gemini.temperature := main.Temperature cfg;
     gemini.googleSearch := main.GoogleSearch cfg |}.

(** The client [main] makes from its configuration. *)
Definition configured_client (p : main.Process) (cfg : main.Config)
  : gemini.Client :=
  {| gemini.apiKey := main.APIKey cfg;
     gemini.model := main.Model cfg;
     gemini.baseURL := gemini.defaultBaseURL;
     gemini.doer := gemini.Doer_of (main.call_New p (main.Timeout cfg)) |}.

End shape.

(** ** The earlier revision: gemini/client.go and cmd/gemini/main.go as
    they were before validation, the typed response and the size limits *)

Module earlier.

(** *** types.go: [Temperature] is a [float64], and no member is omitted *)

Record GenerationConfig := {
  MaxOutputTokens : Z;
  Temperature : float
}.

Record Request := {
  Contents : list gemini.Content;
  Request_GenerationConfig : GenerationConfig;
  Tools : list gemini.Tool
}.

Section Marshal.

Variable FormatFloat : float -> string.

Definition Marshal_GenerationConfig (g : GenerationConfig) : string + json.JSON :=
  if json.unsupported (Temperature g)
  then inl ("json: unsupported value: " ++ json.unsupported_text (Temperature g))
  else inr (json.JObject
              [("maxOutputTokens", json.JNumber (strconv.Itoa (MaxOutputTokens g)));
               ("temperature", json.JNumber (FormatFloat (Temperature g)))]).

Definition Marshal (r : Request) : string + json.JSON :=
  match Marshal_GenerationConfig (Request_GenerationConfig r) with
  | inl e => inl e
  | inr g =>
    inr (json.JObject
           ([("contents", json.JArray (map gemini.Marshal_Content (Contents r)));
             ("generationConfig", g)]
            ++ match Tools r with
               | [] => []
               | _ :: _ => [("tools", json.JArray (map gemini.Marshal_Tool (Tools r)))]
               end)%list)
  end.

End Marshal.

(** *** client.go *)

(** [New] returns the client; [http.DefaultClient] has no timeout. *)
Definition New (apiKey : string) (opts : list gemini.Option) : gemini.Client :=
  fold_left (fun c o => gemini.apply_Option o c) opts
            {| gemini.apiKey := apiKey;
               gemini.model := gemini.defaultModel;
               gemini.baseURL := gemini.defaultBaseURL;
               gemini.doer := gemini.http_Client 0 |}.

(** The calls of [Generate], in order. *)
Inductive Event :=
| json_Marshal (r : Request)
| doer_Do (req : http.Request)
| body_Read (n : Z)
| body_Close.

(** [io.ReadAll(r)]: the number of bytes taken from [r], and the bytes or
    the error. *)
Definition ReadAll (r : http.ReadCloser) : Z * (string + string) :=
  match http.failure r with
  | None => (len (http.content r), inr (http.content r))
  | Some e => (len (http.content r), inl e)
  end.

(** [Generate] returns the raw bytes of the response. *)
Definition Generate (P : gemini.Platform) (c : gemini.Client) (prompt : string)
           (opts : list gemini.GenerateOption)
  : list Event * (gemini.error + string) :=
  let cfg := gemini.resolve opts in
  let reqBody :=
    {| Contents := [ {| gemini.Content_Parts := [ {| gemini.Part_Text := prompt |} ] |} ];
       Request_GenerationConfig :=
         {| MaxOutputTokens := gemini.maxTokens cfg;
            Temperature := gemini.temperature cfg |};
       Tools := [] |} in
  let reqBody :=
    if gemini.googleSearch cfg
    then {| Contents := Contents reqBody;
            Request_GenerationConfig := Request_GenerationConfig reqBody;
            Tools := [ {| gemini.Tool_GoogleSearch := Some gemini.Build_GoogleSearch |} ] |}
    else reqBody in
  match Marshal (gemini.FormatFloat P) reqBody with
  | inl cause => ([json_Marshal reqBody], inl (gemini.marshal_request cause))
  | inr jsonData =>
    let url := gemini.baseURL c ++ "/" ++ gemini.model c ++ ":generateContent" in
    match gemini.NewRequest_error P "POST" url with
    | Some cause => ([json_Marshal reqBody], inl (gemini.create_request cause))
    | None =>
      let req := {| http.Method := "POST"; http.URL := url; http.Header := [];
                    http.Body := jsonData; http.GetBody := None |} in
      let req := http.Header_Set "Content-Type" "application/json" req in
      let req := http.Header_Set "x-goog-api-key" (gemini.apiKey c) req in
      let req := {| http.Method := http.Method req; http.URL := http.URL req;
                    http.Header := http.Header req; http.Body := http.Body req;
                    http.GetBody := Some jsonData |} in
      match gemini.Do P (gemini.doer c) req with
      | http.Failed cause =>
        ([json_Marshal reqBody; doer_Do req], inl (gemini.do_request cause))
      | http.Responded resp =>
        let read := ReadAll (http.Response_Body resp) in
        ([json_Marshal reqBody; doer_Do req; body_Read (fst read); body_Close],
         match snd read with
         | inl cause => inl (gemini.read_response cause)
         | inr body =>
           if 400 <=? http.StatusCode resp
           then inl (gemini.HTTP_status (http.StatusCode resp) body)
           else inr body
         end)
      end
    end
  end.

(** The request of the later revision that has the same members. *)
Definition later (r : Request) : gemini.Request :=
  {| gemini.Contents := Contents r;
     gemini.Request_GenerationConfig :=
       {| gemini.MaxOutputTokens := MaxOutputTokens (Request_GenerationConfig r);
          gemini.Temperature := Some (Temperature (Request_GenerationConfig r)) |};
     gemini.Tools := Tools r |}.

(** The request [Generate] builds. *)
Definition request_of (cfg : gemini.generateConfig) (prompt : string) : Request :=
  {| Contents := [ {| gemini.Content_Parts := [ {| gemini.Part_Text := prompt |} ] |} ];
     Request_GenerationConfig :=
       {| MaxOutputTokens := gemini.maxTokens cfg;
          Temperature := gemini.temperature cfg |};
     Tools := if gemini.googleSearch cfg
              then [ {| gemini.Tool_GoogleSearch := Some gemini.Build_GoogleSearch |} ]
              else [] |}.

Definition is_Do (e : Event) : bool :=
  match e with
  | doer_Do _ => true
  | _ => false
  end.

End earlier.

(** *** The earlier cmd/gemini/main.go *)

Module earlier_main.

Record Config := {
  APIKey : string;
  Model : string;
  MaxTokens : Z;
  Temperature : float;
  Timeout : Z;
  LogLevel : string
}.

(** The process as [main] finds it: [os.Args]; what [config.MustLoad]
    returns, or the value it panics with; the executor [call.New] builds for
    a timeout; [json.Indent] of the response bytes, [None] when they are no
    JSON document. *)
Record Process := {
  Args : list string;
  MustLoad : string + Config;
  call_New : Z -> http.Request -> http.Result;
  Indent : string -> option string
}.

Inductive Action :=
| panics (value : string)
| logs (level message : string)
| logs_error (message err : string)
| to_stderr (text : string)
| to_stdout (text : string)
| calls_New (apiKey : string) (opts : list gemini.Option)
| calls_Generate (c : gemini.Client) (prompt : string)
                 (opts : list gemini.GenerateOption)
| client_does (e : earlier.Event).

Definition main (P : gemini.Platform) (p : Process) : list Action * Z :=
  if (List.length (Args p) <? 2)%nat then
    ([to_stderr ("Usage: gemini <prompt>" ++ main.newline)], 1)
  else
  match MustLoad p with
  | inl v => ([panics v], 2)
  | inr cfg =>
    let prompt := nth 1 (Args p) "" in
    let caller := gemini.Doer_of (call_New p (Timeout cfg)) in
    let opts := [gemini.WithModel (Model cfg); gemini.WithDoer caller] in
    let client := earlier.New (APIKey cfg) opts in
    let genOpts := [gemini.WithMaxTokens (MaxTokens cfg);
                    gemini.WithTemperature (Temperature cfg);
                    gemini.WithGoogleSearch] in
    let generated := earlier.Generate P client prompt genOpts in
    let pre := ([logs "debug" "request config"; calls_New (APIKey cfg) opts;
                 calls_Generate client prompt genOpts]
                ++ map client_does (fst generated))%list in
    match snd generated with
    | inl err =>
      (pre ++ [logs_error "request failed" (gemini.Error P err)], 1)%list
    | inr body =>
      match Indent p body with
      | None => (pre ++ [to_stdout (body ++ main.newline)], 0)%list
      | Some pretty => (pre ++ [to_stdout (pretty ++ main.newline)], 0)%list
      end
    end
  end.

(** A process for the closed statements: its executor answers 200 with a
    body that is no JSON document. *)
Definition process (args : list string) (loaded : string + Config) : Process :=
  {| Args := args;
     MustLoad := loaded;
     call_New := fun _ _ =>
       http.Responded {| http.StatusCode := 200;
                         http.Response_Body := {| http.content := "not json";
                                                  http.failure := None |} |};
     Indent := fun _ => None |}.

Definition config : Config :=
  {| APIKey := "test-key-123";
     Model := "gemini-3-pro-preview";
     MaxTokens := 32000;
     Temperature := 1%float;
     Timeout := 30 * 1000000000;
     LogLevel := "error" |}.

End earlier_main.

(** * Properties *)

(** ** Strings *)

Lemma append_nil_r (s : string) : s ++ "" = s.
Proof. induction s as [|c s IH]; simpl; [reflexivity | now rewrite IH]. Qed.

Lemma append_assoc (a b c : string) : (a ++ b) ++ c = a ++ (b ++ c).
Proof. induction a as [|x a IH]; simpl; [reflexivity | now rewrite IH]. Qed.

Lemma length_append (a b : string) :
  String.length (a ++ b) = (String.length a + String.length b)%nat.
Proof. induction a as [|x a IH]; simpl; [reflexivity | now rewrite IH]. Qed.

Lemma len_append (a b : string) : len (a ++ b) = len a + len b.
Proof. unfold len. rewrite length_append. lia. Qed.

Lemma len_nonneg (s : string) : 0 <= len s.
Proof. unfold len. lia. Qed.

Lemma take_drop (n : nat) (s : string) : take n s ++ drop n s = s.
Proof.
  unfold take. revert s.
  induction n as [|n IH]; intros [|c s]; simpl; try reflexivity.
  now rewrite IH.
Qed.

Lemma length_take (n : nat) (s : string) :
  String.length (take n s) = Nat.min n (String.length s).
Proof.
  unfold take. revert s.
  induction n as [|n IH]; intros [|c s]; simpl; try reflexivity.
  now rewrite IH.
Qed.

Lemma take_all (n : nat) (s : string) :
  (String.length s <= n)%nat -> take n s = s.
Proof.
  unfold take. revert s.
  induction n as [|n IH]; intros [|c s] H; simpl in *;
    try reflexivity; try lia.
  rewrite IH; [reflexivity | lia].
Qed.

Lemma length_drop (n : nat) (s : string) :
  String.length (drop n s) = (String.length s - n)%nat.
Proof.
  revert s. induction n as [|n IH]; intros [|c s]; simpl; try reflexivity.
  apply IH.
Qed.

Lemma length_Repeat (s : string) (n : nat) :
  String.length (strings.Repeat s n) = (n * String.length s)%nat.
Proof.
  induction n as [|n IH]; simpl; [reflexivity|].
  rewrite length_append, IH. reflexivity.
Qed.

Lemma prefix_length (p s : string) :
  String.prefix p s = true -> (String.length p <= String.length s)%nat.
Proof.
  revert s. induction p as [|c p IH]; intros [|d s] H; simpl in *; try lia.
  destruct (ascii_dec c d); [|discriminate]. apply IH in H. lia.
Qed.

Lemma prefix_append (p s : string) : String.prefix p (p ++ s) = true.
Proof.
  induction p as [|c p IH]; simpl.
  - now destruct s.
  - destruct (ascii_dec c c); [assumption | congruence].
Qed.

(** A string holds only strings that are not longer than itself. *)
Lemma Contains_length (s sub : string) :
  strings.Contains s sub = true -> (String.length sub <= String.length s)%nat.
Proof.
  induction s as [|c s IH]; intros H.
  - change (String.prefix sub "" || false = true) in H.
    rewrite orb_false_r in H. now apply prefix_length in H.
  - change (String.prefix sub (String c s) || strings.Contains s sub = true) in H.
    apply orb_true_iff in H. destruct H as [H|H].
    + apply prefix_length in H. exact H.
    + apply IH in H. simpl. lia.
Qed.

Lemma Contains_here (s sub : string) :
  String.prefix sub s = true -> strings.Contains s sub = true.
Proof.
  intros H. destruct s as [|c s].
  - change (String.prefix sub "" || false = true). now rewrite H.
  - change (String.prefix sub (String c s) || strings.Contains s sub = true).
    now rewrite H.
Qed.

Lemma Contains_prefix (sub t : string) : strings.Contains (sub ++ t) sub = true.
Proof. apply Contains_here, prefix_append. Qed.

(** A string holds every piece it is put together from. *)
Lemma Contains_middle (a sub b : string) :
  strings.Contains (a ++ sub ++ b) sub = true.
Proof.
  induction a as [|c a IH].
  - change ("" ++ sub ++ b) with (sub ++ b). apply Contains_prefix.
  - change (String.prefix sub (String c (a ++ sub ++ b))
            || strings.Contains (a ++ sub ++ b) sub = true).
    rewrite IH. apply orb_true_r.
Qed.

Lemma Contains_suffix (a sub : string) : strings.Contains (a ++ sub) sub = true.
Proof.
  rewrite <- (append_nil_r sub) at 1. apply Contains_middle.
Qed.

(** ** The Response accessor *)

Lemma Builder_writes (parts : list gemini.ResponsePart) (b : string) :
  fold_left (fun b p => b ++ gemini.ResponsePart_Text p) parts b
  = b ++ join (map gemini.ResponsePart_Text parts).
Proof.
  revert b. induction parts as [|p parts IH]; intros b; simpl.
  - now rewrite append_nil_r.
  - rewrite IH. apply append_assoc.
Qed.

(** C6: [Text] is the empty string for a response without candidates; for
    a response with candidates it is what the texts of the parts of the first
    candidate spell when written one after the other, in order and with
    nothing between them, whatever the later candidates hold; so it is the
    empty string when the first candidate has no parts. *)
Theorem Text_joins_parts_of_first_candidate :
  forall (usage : gemini.UsageMetadata) (first : gemini.Candidate)
         (later : list gemini.Candidate),
    gemini.Text {| gemini.Candidates := [];
                   gemini.Response_UsageMetadata := usage |} = ""
    /\ gemini.Text {| gemini.Candidates := first :: later;
                      gemini.Response_UsageMetadata := usage |}
       = join (map gemini.ResponsePart_Text
                   (gemini.ResponseContent_Parts (gemini.Candidate_Content first)))
    /\ gemini.Text {| gemini.Candidates := first :: later;
                      gemini.Response_UsageMetadata := usage |}
       = gemini.Text {| gemini.Candidates := [first];
                        gemini.Response_UsageMetadata := usage |}
    /\ join (map gemini.ResponsePart_Text []) = "".
Proof.
  intros usage first later. repeat split.
  unfold gemini.Text; simpl.
  destruct (gemini.ResponseContent_Parts (gemini.Candidate_Content first))
    as [|p [|q parts]] eqn:E.
  - reflexivity.
  - simpl. now rewrite append_nil_r.
  - rewrite Builder_writes. reflexivity.
Qed.

(** The accessor of the earlier revision agrees with [Text] on a first
    candidate of at most one part, and on no other. *)
Lemma Text_first_part_one_part :
  forall (usage : gemini.UsageMetadata) (c : gemini.Candidate)
         (later : list gemini.Candidate),
    (List.length (gemini.ResponseContent_Parts (gemini.Candidate_Content c)) <= 1)%nat ->
    gemini.Text_first_part {| gemini.Candidates := c :: later;
                              gemini.Response_UsageMetadata := usage |}
    = gemini.Text {| gemini.Candidates := c :: later;
                     gemini.Response_UsageMetadata := usage |}.
Proof.
  intros usage c later H. unfold gemini.Text_first_part, gemini.Text; simpl.
  destruct (gemini.ResponseContent_Parts (gemini.Candidate_Content c))
    as [|p [|q parts]]; simpl in *; try reflexivity; lia.
Qed.

Example Text_two_parts :
  gemini.Text
    {| gemini.Candidates :=
         [ {| gemini.Candidate_Content :=
                {| gemini.ResponseContent_Parts :=
                     [ {| gemini.ResponsePart_Text := "Hello " |};
                       {| gemini.ResponsePart_Text := "world!" |} ];
                   gemini.Role := "model" |};
              gemini.FinishReason := "STOP";
              gemini.SafetyRatings := [] |} ];
       gemini.Response_UsageMetadata := gemini.Response_UsageMetadata sample.zero_Response |}
  = "Hello world!".
Proof. reflexivity. Qed.

(** ** White space and the API key *)

Lemma DecodeRuneInString_width (c : ascii) (t : string) :
  (1 <= snd (utf8.DecodeRuneInString (String c t)) <= 4)%nat.
Proof.
  unfold utf8.DecodeRuneInString.
  destruct (utf8.first (byte c)); cbv zeta;
    repeat match goal with
           | |- context [if ?b then _ else _] => destruct b
           end; simpl; lia.
Qed.

Lemma runes_chunks_nonempty (fuel : nat) (s : string) :
  Forall (fun c : Z * string => snd c <> "") (utf8.runes_fuel fuel s).
Proof.
  revert s. induction fuel as [|fuel IH]; intros s; simpl.
  - constructor.
  - destruct s as [|c t]; [constructor|].
    pose proof (DecodeRuneInString_width c t) as W.
    destruct (utf8.DecodeRuneInString (String c t)) as [r w].
    constructor; [|apply IH].
    simpl in *. destruct w as [|w]; [lia|]. discriminate.
Qed.

Lemma dropWhileEnd_keeps_head {A} (p : A -> bool) (x : A) (l : list A) :
  p x = false -> exists r, strings.dropWhileEnd p (x :: l) = x :: r.
Proof.
  intros H. unfold strings.dropWhileEnd. simpl.
  destruct (fold_right _ _ l); [rewrite H|]; eauto.
Qed.

Lemma trimmed_empty (p : Z * string -> bool) (l : list (Z * string)) :
  Forall (fun c => snd c <> "") l ->
  join (map snd (strings.dropWhileEnd p (strings.dropWhile p l))) = ""
  <-> forallb p l = true.
Proof.
  induction 1 as [|x l Hx Hl IH].
  - simpl. tauto.
  - cbn [strings.dropWhile forallb].
    destruct (p x) eqn:Px; cbn [andb]; [exact IH|].
    split; [|discriminate].
    destruct (dropWhileEnd_keeps_head p x l Px) as [r ->]. simpl.
    destruct (snd x); [congruence | discriminate].
Qed.

(** [strings.TrimSpace] leaves nothing of exactly the strings that hold
    white space only. *)
Lemma TrimSpace_empty (s : string) :
  strings.TrimSpace s = "" <-> spec.all_whitespace s = true.
Proof.
  apply trimmed_empty, runes_chunks_nonempty.
Qed.

Lemma options_keep_apiKey (opts : list gemini.Option) (c : gemini.Client) :
  gemini.apiKey (fold_left (fun c o => gemini.apply_Option o c) opts c)
  = gemini.apiKey c.
Proof.
  revert c. induction opts as [|o opts IH]; intros c; simpl; [reflexivity|].
  rewrite IH. now destruct o.
Qed.

(** Later options win over earlier ones and over the default. *)
Lemma options_set_baseURL (opts : list gemini.Option) (c : gemini.Client) :
  gemini.baseURL (fold_left (fun c o => gemini.apply_Option o c) opts c)
  = spec.last_base_URL opts (gemini.baseURL c).
Proof.
  revert c. induction opts as [|o opts IH]; intros c; simpl; [reflexivity|].
  rewrite IH. now destruct o.
Qed.

(** C1: [New] fails if and only if the API key is empty or holds white
    space only, or the base URL that results from the options does not start
    with [https://]; such a failure is a configuration error; [New] makes no
    call at all, whatever it is given; and with a key that is not blank and
    an https base URL it returns a client that holds that key and that URL. *)
Theorem New_fails_iff_blank_key_or_insecure_base_URL :
  forall (apiKey : string) (opts : list gemini.Option),
    let url := spec.base_URL_after opts in
    ((exists e, snd (gemini.New apiKey opts) = inl e)
     <-> (spec.all_whitespace apiKey = true
          \/ strings.HasPrefix url "https://" = false))
    /\ (forall e, snd (gemini.New apiKey opts) = inl e ->
                  gemini.kind e = gemini.ConfigurationError)
    /\ fst (gemini.New apiKey opts) = []
    /\ (spec.all_whitespace apiKey = false ->
        strings.HasPrefix url "https://" = true ->
        exists c, snd (gemini.New apiKey opts) = inr c
                  /\ gemini.apiKey c = apiKey
                  /\ gemini.baseURL c = url).
Proof.
  intros apiKey opts url. unfold gemini.New.
  rewrite options_set_baseURL. simpl gemini.baseURL.
  fold (spec.base_URL_after opts). fold url.
  destruct (String.eqb_spec (strings.TrimSpace apiKey) "") as [E|E].
  - apply TrimSpace_empty in E. simpl. rewrite E.
    repeat split; eauto; try discriminate. now intros e [= <-].
  - assert (B : spec.all_whitespace apiKey = false).
    { destruct (spec.all_whitespace apiKey) eqn:B; [|reflexivity].
      apply TrimSpace_empty in B. contradiction. }
    rewrite B. destruct (strings.HasPrefix url "https://") eqn:U; simpl.
    + repeat split; try discriminate.
      * intros [e [=]].
      * intros [[=]|[=]].
      * intros _ _. eexists. split; [reflexivity|]. split.
        -- apply options_keep_apiKey.
        -- apply options_set_baseURL.
    + repeat split; eauto; try discriminate. now intros e [= <-].
Qed.

Lemma New_accepts_a_key_and_an_https_base_URL :
  exists c,
    snd (gemini.New "test-key" [gemini.WithBaseURL "https://example.com/api"])
    = inr c
    /\ gemini.apiKey c = "test-key"
    /\ gemini.baseURL c = "https://example.com/api".
Proof.
  apply (proj2 (proj2 (proj2
           (New_fails_iff_blank_key_or_insecure_base_URL
              "test-key" [gemini.WithBaseURL "https://example.com/api"]))));
    reflexivity.
Defined.

Example New_whitespace_key :
  gemini.New (String "032"%char (String "009"%char (String "010"%char ""))) []
  = ([], inl gemini.API_key_empty).
Proof. reflexivity. Qed.

Example New_no_break_space_key :
  gemini.New (String "194"%char (String "160"%char "")) []
  = ([], inl gemini.API_key_empty).
Proof. reflexivity. Qed.

Example New_http_base_URL :
  gemini.New "key" [gemini.WithBaseURL "http://insecure.example.com"]
  = ([], inl (gemini.base_URL_not_HTTPS "http://insecure.example.com")).
Proof. reflexivity. Qed.

Example New_last_option_wins :
  option_map gemini.baseURL
    (match snd (gemini.New "key" [gemini.WithBaseURL "http://a.example";
                                  gemini.WithBaseURL "https://example.com/api"])
     with inr c => Some c | inl _ => None end)
  = Some "https://example.com/api".
Proof. reflexivity. Qed.

(** ** One round trip, failure by failure *)

Ltac run_calls :=
  cbv beta iota zeta delta
    [gemini.bind gemini.try gemini.emit gemini.fail gemini.ret gemini.defer
     fst snd app].

Lemma len_take_limit (s : string) (n : Z) :
  0 <= n -> n <= len s -> len (take (Z.to_nat n) s) = n.
Proof.
  unfold len. intros H0 H. rewrite length_take. lia.
Qed.

Lemma maxResponseBytes_positive : 0 < gemini.maxResponseBytes.
Proof. reflexivity. Qed.

(** What [doRequest] does once the executor has answered. *)
Lemma response_received (P : gemini.Platform) (resp : http.Response) :
  gemini.defer gemini.body_Close
    (let read := http.ReadAll_LimitReader (http.Response_Body resp)
                                          (gemini.maxResponseBytes + 1) in
     gemini.bind (gemini.emit (gemini.body_Read (fst read))) (fun _ =>
     gemini.bind (gemini.try gemini.read_response (snd read)) (fun body =>
     if gemini.maxResponseBytes <? len body
     then gemini.fail gemini.response_exceeds_limit
     else if 400 <=? http.StatusCode resp
     then
       let msg := body in
       let msg := if gemini.maxErrorBodyBytes <? len msg
                  then take (Z.to_nat gemini.maxErrorBodyBytes) msg
                       ++ "...(truncated)"
                  else msg in
       gemini.fail (gemini.HTTP_status (http.StatusCode resp) msg)
     else
       gemini.bind (gemini.emit (gemini.json_Unmarshal body)) (fun _ =>
       gemini.try gemini.unmarshal_response (gemini.Unmarshal_Response P body)))))
  = spec.received P resp.
Proof.
  pose proof maxResponseBytes_positive as Hmax.
  unfold spec.received, http.ReadAll_LimitReader.
  destruct (gemini.maxResponseBytes <? len (http.content (http.Response_Body resp)))
    eqn:Big.
  - apply Z.ltb_lt in Big.
    replace (gemini.maxResponseBytes + 1
             <=? len (http.content (http.Response_Body resp))) with true
      by (symmetry; apply Z.leb_le; lia).
    run_calls.
    rewrite len_take_limit by lia.
    replace (gemini.maxResponseBytes <? gemini.maxResponseBytes + 1) with true
      by (symmetry; apply Z.ltb_lt; lia).
    reflexivity.
  - pose proof Big as Small. apply Z.ltb_ge in Small.
    replace (gemini.maxResponseBytes + 1
             <=? len (http.content (http.Response_Body resp))) with false
      by (symmetry; apply Z.leb_gt; lia).
    destruct (http.failure (http.Response_Body resp)) as [cause|]; run_calls.
    + reflexivity.
    + rewrite Big.
      destruct (400 <=? http.StatusCode resp); [reflexivity|].
      destruct (gemini.Unmarshal_Response P _); reflexivity.
Qed.

Lemma bind_emit {B} (e : gemini.Event) (k : unit -> gemini.M B) :
  gemini.bind (gemini.emit e) k = (e :: fst (k tt), snd (k tt)).
Proof. unfold gemini.bind, gemini.emit. now destruct (k tt). Qed.

Lemma bind_try_value {A B} (w : string -> gemini.error) (a : A)
      (k : A -> gemini.M B) :
  gemini.bind (gemini.try w (inr a)) k = k a.
Proof. unfold gemini.bind, gemini.try, gemini.ret. now destruct (k a). Qed.

Lemma bind_try_error {A B} (w : string -> gemini.error) (cause : string)
      (k : A -> gemini.M B) :
  gemini.bind (gemini.try w (inl cause)) k = ([], inl (w cause)).
Proof. reflexivity. Qed.

Lemma doRequest_round_trip (P : gemini.Platform) (c : gemini.Client)
      (r : gemini.Request) :
  gemini.doRequest P c r
  = match gemini.Marshal (gemini.FormatFloat P) r with
    | inl cause => ([gemini.json_Marshal r], inl (gemini.marshal_request cause))
    | inr body =>
      match gemini.NewRequest_error P "POST" (http.URL (spec.post c body)) with
      | Some cause =>
        ([gemini.json_Marshal r], inl (gemini.create_request cause))
      | None =>
        match gemini.Do P (gemini.doer c) (spec.post c body) with
        | http.Failed cause =>
          ([gemini.json_Marshal r; gemini.doer_Do (spec.post c body)],
           inl (gemini.do_request cause))
        | http.Responded resp =>
          (gemini.json_Marshal r :: gemini.doer_Do (spec.post c body)
             :: fst (spec.received P resp),
           snd (spec.received P resp))
        end
      end
    end.
Proof.
  unfold gemini.doRequest. rewrite bind_emit.
  destruct (gemini.Marshal (gemini.FormatFloat P) r) as [cause|body].
  - rewrite bind_try_error. reflexivity.
  - rewrite bind_try_value. cbv zeta.
    change (http.URL (spec.post c body))
      with (gemini.baseURL c ++ "/" ++ gemini.model c ++ ":generateContent").
    destruct (gemini.NewRequest_error P "POST" _) as [cause|]; [reflexivity|].
    rewrite bind_emit.
    match goal with
    | |- context [gemini.Do P (gemini.doer c) ?req] =>
      change req with (spec.post c body)
    end.
    destruct (gemini.Do P (gemini.doer c) (spec.post c body)) as [cause|resp];
      [reflexivity|].
    rewrite response_received. reflexivity.
Qed.

(** [Generate] is the round trip the specification describes. *)
Lemma Generate_round_trip (P : gemini.Platform) (c : gemini.Client)
      (prompt : string) (opts : list gemini.GenerateOption) :
  gemini.Generate P c prompt opts = spec.round_trip P c prompt opts.
Proof.
  unfold gemini.Generate, spec.round_trip. cbv zeta.
  destruct (gemini.maxTokens (gemini.resolve opts) <=? 0); [reflexivity|].
  destruct (PrimFloat.ltb (gemini.temperature (gemini.resolve opts)) 0);
    [reflexivity|].
  rewrite doRequest_round_trip.
  replace (if gemini.googleSearch (gemini.resolve opts) then _ else _)
    with (spec.request_of (gemini.resolve opts) prompt);
    [reflexivity|].
  unfold spec.request_of.
  destruct (gemini.googleSearch (gemini.resolve opts)); reflexivity.
Qed.

(** ** Validation of the generation parameters *)

(** A temperature that is [>= 0] is not [< 0]. *)
Lemma nonnegative_not_negative (t : float) :
  PrimFloat.leb 0%float t = true -> PrimFloat.ltb t 0%float = false.
Proof.
  rewrite leb_spec, ltb_spec.
  change (Prim2SF 0%float) with (S754_zero false).
  unfold SFleb, SFltb.
  destruct (Prim2SF t) as [s|s| |s m e]; simpl; try destruct s; simpl;
    congruence.
Qed.

Lemma valid_passes_validation (cfg : gemini.generateConfig) :
  spec.valid cfg ->
  (gemini.maxTokens cfg <=? 0) = false
  /\ PrimFloat.ltb (gemini.temperature cfg) 0%float = false.
Proof.
  intros [Hn Ht]. split.
  - apply Z.leb_gt. exact Hn.
  - apply nonnegative_not_negative. exact Ht.
Qed.

(** C2: when the max tokens the call resolves to are [<= 0], or the
    temperature it resolves to is [< 0], [Generate] returns a validation
    error and has made no call: no request was built or serialized, and the
    executor was not invoked. *)
Theorem Generate_rejects_invalid_parameters_before_any_call :
  forall (P : gemini.Platform) (c : gemini.Client) (prompt : string)
         (opts : list gemini.GenerateOption),
    gemini.maxTokens (gemini.resolve opts) <= 0
    \/ PrimFloat.ltb (gemini.temperature (gemini.resolve opts)) 0%float = true ->
    fst (gemini.Generate P c prompt opts) = []
    /\ spec.executor_invoked (fst (gemini.Generate P c prompt opts)) = false
    /\ exists e, snd (gemini.Generate P c prompt opts) = inl e
                 /\ gemini.kind e = gemini.ValidationError.
Proof.
  intros P c prompt opts H. unfold gemini.Generate. cbv zeta.
  destruct (gemini.maxTokens (gemini.resolve opts) <=? 0) eqn:N.
  - simpl. eauto.
  - apply Z.leb_gt in N. destruct H as [H|H]; [lia|].
    rewrite H. simpl. eauto.
Qed.

Lemma Generate_rejects_zero_max_tokens :
  fst (gemini.Generate sample.platform (sample.client (sample.answers 200 "{}"))
                       "test" [gemini.WithMaxTokens 0]) = []
  /\ spec.executor_invoked
       (fst (gemini.Generate sample.platform
                             (sample.client (sample.answers 200 "{}"))
                             "test" [gemini.WithMaxTokens 0])) = false
  /\ exists e,
      snd (gemini.Generate sample.platform
                           (sample.client (sample.answers 200 "{}"))
                           "test" [gemini.WithMaxTokens 0]) = inl e
      /\ gemini.kind e = gemini.ValidationError.
Proof.
  apply Generate_rejects_invalid_parameters_before_any_call.
  left. simpl. lia.
Defined.

Example Generate_rejects_negative_temperature :
  gemini.Generate sample.platform (sample.client (sample.answers 200 "{}"))
                  "test" [gemini.WithTemperature (-0.5)%float]
  = ([], inl (gemini.temperature_negative (-0.5)%float)).
Proof. reflexivity. Qed.

Example Generate_accepts_zero_temperature :
  snd (gemini.Generate sample.platform (sample.client (sample.answers 200 "{}"))
                       "test" [gemini.WithTemperature 0%float])
  = inr sample.zero_Response.
Proof. reflexivity. Qed.

(** ** The request Generate builds *)

(** C3: for every prompt, and options that resolve to valid parameters (the
    default ones do), the first thing [Generate] does is to serialize the
    [Request] it has built, and the contents of that request are exactly one
    entry, which holds exactly one part, whose text is the prompt, byte for
    byte. *)
Theorem Generate_builds_one_content_of_one_part_with_the_prompt :
  forall (P : gemini.Platform) (c : gemini.Client) (prompt : string)
         (opts : list gemini.GenerateOption),
    spec.valid (gemini.resolve opts) ->
    exists (r : gemini.Request) (rest : list gemini.Event),
      fst (gemini.Generate P c prompt opts) = gemini.json_Marshal r :: rest
      /\ gemini.Contents r
         = [ {| gemini.Content_Parts := [ {| gemini.Part_Text := prompt |} ] |} ]
      /\ List.length (gemini.Contents r) = 1%nat
      /\ (forall ct, In ct (gemini.Contents r) ->
                     List.length (gemini.Content_Parts ct) = 1%nat
                     /\ map gemini.Part_Text (gemini.Content_Parts ct) = [prompt]).
Proof.
  intros P c prompt opts V.
  destruct (valid_passes_validation _ V) as [N T].
  rewrite Generate_round_trip. unfold spec.round_trip. cbv zeta.
  rewrite N, T.
  exists (spec.request_of (gemini.resolve opts) prompt).
  assert (Shape :
    gemini.Contents (spec.request_of (gemini.resolve opts) prompt)
    = [ {| gemini.Content_Parts := [ {| gemini.Part_Text := prompt |} ] |} ])
    by reflexivity.
  assert (Parts : forall ct,
    In ct (gemini.Contents (spec.request_of (gemini.resolve opts) prompt)) ->
    List.length (gemini.Content_Parts ct) = 1%nat
    /\ map gemini.Part_Text (gemini.Content_Parts ct) = [prompt]).
  { intros ct [<-|[]]. split; reflexivity. }
  destruct (gemini.Marshal _ _) as [cause|body];
    [|destruct (gemini.NewRequest_error _ _ _) as [cause|];
      [|destruct (gemini.Do _ _ _) as [cause|resp]]];
    (eexists; split; [reflexivity|]; split; [exact Shape|];
     split; [reflexivity | exact Parts]).
Qed.

Lemma Generate_default_options_build_the_prompt :
  exists (r : gemini.Request) (rest : list gemini.Event),
    fst (gemini.Generate sample.platform (sample.client (sample.answers 200 "{}"))
                         "  Hello, <world> & more  " [])
    = gemini.json_Marshal r :: rest
    /\ gemini.Contents r
       = [ {| gemini.Content_Parts :=
                [ {| gemini.Part_Text := "  Hello, <world> & more  " |} ] |} ]
    /\ List.length (gemini.Contents r) = 1%nat
    /\ (forall ct, In ct (gemini.Contents r) ->
                   List.length (gemini.Content_Parts ct) = 1%nat
                   /\ map gemini.Part_Text (gemini.Content_Parts ct)
                      = ["  Hello, <world> & more  "]).
Proof.
  apply Generate_builds_one_content_of_one_part_with_the_prompt.
  split; reflexivity.
Defined.

(** ** What becomes of a response *)

Lemma received_makes_no_request (P : gemini.Platform) (resp : http.Response)
      (req : http.Request) :
  ~ In (gemini.doer_Do req) (fst (spec.received P resp)).
Proof.
  unfold spec.received. cbv zeta.
  destruct (gemini.maxResponseBytes <? _);
    [|destruct (http.failure _); [|destruct (400 <=? _)]];
    simpl; intuition discriminate.
Qed.

(** When the executor was invoked and has answered with a response, the rest
    of the call is what becomes of that response. *)
Lemma Generate_after_response (P : gemini.Platform) (c : gemini.Client)
      (prompt : string) (opts : list gemini.GenerateOption)
      (req : http.Request) (resp : http.Response) :
  In (gemini.doer_Do req) (fst (gemini.Generate P c prompt opts)) ->
  gemini.Do P (gemini.doer c) req = http.Responded resp ->
  gemini.Generate P c prompt opts
  = (gemini.json_Marshal (spec.request_of (gemini.resolve opts) prompt)
       :: gemini.doer_Do req :: fst (spec.received P resp),
     snd (spec.received P resp)).
Proof.
  rewrite Generate_round_trip. unfold spec.round_trip. cbv zeta.
  destruct (gemini.maxTokens (gemini.resolve opts) <=? 0);
    [simpl; tauto|].
  destruct (PrimFloat.ltb _ _); [simpl; tauto|].
  destruct (gemini.Marshal _ _) as [cause|body];
    [simpl; intuition discriminate|].
  destruct (gemini.NewRequest_error _ _ _) as [cause|];
    [simpl; intuition discriminate|].
  destruct (gemini.Do P (gemini.doer c) (spec.post c body)) as [cause|resp'] eqn:D.
  - simpl. intros [H|[H|[]]] A; [discriminate|].
    injection H as <-. congruence.
  - cbn [fst In]. intros [H|[H|H]] A.
    + discriminate.
    + injection H as <-. rewrite D in A. injection A as ->. reflexivity.
    + now apply received_makes_no_request in H.
Qed.

(** C5: when the executor has answered with a response whose body is larger
    than 10 MiB, [Generate] fails with the size-limit error; it has read
    10 MiB and one byte of the body and no more; it has not called the JSON
    decoder; and the status of the response plays no part: trace and error
    are the same whatever the status is. *)
Theorem oversized_response_fails_with_size_limit :
  forall (P : gemini.Platform) (c : gemini.Client) (prompt : string)
         (opts : list gemini.GenerateOption)
         (req : http.Request) (resp : http.Response),
    In (gemini.doer_Do req) (fst (gemini.Generate P c prompt opts)) ->
    gemini.Do P (gemini.doer c) req = http.Responded resp ->
    gemini.maxResponseBytes < len (http.content (http.Response_Body resp)) ->
    snd (gemini.Generate P c prompt opts) = inl gemini.response_exceeds_limit
    /\ gemini.kind gemini.response_exceeds_limit = gemini.SizeLimitError
    /\ gemini.maxResponseBytes = 10 * 1024 * 1024
    /\ (exists r,
         fst (gemini.Generate P c prompt opts)
         = [gemini.json_Marshal r; gemini.doer_Do req;
            gemini.body_Read (gemini.maxResponseBytes + 1); gemini.body_Close])
    /\ (forall n, In (gemini.body_Read n) (fst (gemini.Generate P c prompt opts)) ->
                  n <= gemini.maxResponseBytes + 1)
    /\ (forall data, ~ In (gemini.json_Unmarshal data)
                          (fst (gemini.Generate P c prompt opts))).
Proof.
  intros P c prompt opts req resp Sent Answer Big.
  rewrite (Generate_after_response P c prompt opts req resp Sent Answer).
  unfold spec.received. cbv zeta.
  apply Z.ltb_lt in Big. rewrite Big. cbn [fst snd].
  repeat split.
  - eexists. reflexivity.
  - intros n [H|[H|[H|[H|[]]]]]; try discriminate. injection H as H.
    unfold gemini.maxResponseBytes. lia.
  - intros data [H|[H|[H|[H|[]]]]]; discriminate.
Qed.

(** On the sample platform, a call with the default options reaches the
    executor, whatever the executor then answers. *)
Lemma sample_request_sent (status : Z) (body prompt : string) :
  In (gemini.doer_Do (spec.post (sample.client (sample.answers status body))
                                (sample.body_of prompt [])))
     (fst (gemini.Generate sample.platform
                           (sample.client (sample.answers status body))
                           prompt [])).
Proof.
  rewrite Generate_round_trip. unfold spec.round_trip.
  right. left. reflexivity.
Qed.

Lemma len_big_body : len sample.big_body = gemini.maxResponseBytes + 100.
Proof.
  unfold len, sample.big_body. rewrite length_Repeat.
  change (String.length "x") with 1%nat.
  rewrite Nat.mul_1_r, Z2Nat.id; [reflexivity|].
  unfold gemini.maxResponseBytes. lia.
Qed.

Lemma oversized_body_of_the_test_fails_with_size_limit :
  snd (gemini.Generate sample.platform
                       (sample.client (sample.answers 200 sample.big_body))
                       "test" [])
  = inl gemini.response_exceeds_limit
  /\ gemini.kind gemini.response_exceeds_limit = gemini.SizeLimitError
  /\ gemini.maxResponseBytes = 10 * 1024 * 1024
  /\ (exists r,
       fst (gemini.Generate sample.platform
                            (sample.client (sample.answers 200 sample.big_body))
                            "test" [])
       = [gemini.json_Marshal r;
          gemini.doer_Do (spec.post (sample.client (sample.answers 200 sample.big_body))
                                    (sample.body_of "test" []));
          gemini.body_Read (gemini.maxResponseBytes + 1); gemini.body_Close])
  /\ (forall n,
       In (gemini.body_Read n)
          (fst (gemini.Generate sample.platform
                                (sample.client (sample.answers 200 sample.big_body))
                                "test" [])) ->
       n <= gemini.maxResponseBytes + 1)
  /\ (forall data,
       ~ In (gemini.json_Unmarshal data)
            (fst (gemini.Generate sample.platform
                                  (sample.client (sample.answers 200 sample.big_body))
                                  "test" []))).
Proof.
  apply (oversized_response_fails_with_size_limit
           sample.platform (sample.client (sample.answers 200 sample.big_body))
           "test" []
           (spec.post (sample.client (sample.answers 200 sample.big_body))
                      (sample.body_of "test" []))
           {| http.StatusCode := 200;
              http.Response_Body := {| http.content := sample.big_body;
                                       http.failure := None |} |}).
  - apply sample_request_sent.
  - reflexivity.
  - cbn [http.content http.Response_Body]. rewrite len_big_body. lia.
Defined.

(** ** HTTP status errors *)

Lemma excerpt_short (body : string) :
  len body <= gemini.maxErrorBodyBytes -> spec.excerpt body = body.
Proof.
  intros H. unfold spec.excerpt.
  now replace (gemini.maxErrorBodyBytes <? len body) with false
    by (symmetry; apply Z.ltb_ge; exact H).
Qed.

Lemma excerpt_long (body : string) :
  gemini.maxErrorBodyBytes < len body ->
  spec.excerpt body
  = take (Z.to_nat gemini.maxErrorBodyBytes) body ++ spec.truncation_marker
  /\ len (spec.excerpt body) = gemini.maxErrorBodyBytes + 14.
Proof.
  intros H. unfold spec.excerpt.
  replace (gemini.maxErrorBodyBytes <? len body) with true
    by (symmetry; apply Z.ltb_lt; exact H).
  split; [reflexivity|].
  rewrite len_append, len_take_limit.
  - reflexivity.
  - unfold gemini.maxErrorBodyBytes. lia.
  - lia.
Qed.

Lemma not_Contains_longer (s sub : string) :
  len s < len sub -> strings.Contains s sub = false.
Proof.
  intros H. destruct (strings.Contains s sub) eqn:C; [|reflexivity].
  apply Contains_length in C. unfold len in H. lia.
Qed.

(** The size-limit error comes before the status: a response of status 500
    whose body is larger than 10 MiB yields an error that names neither the
    status nor an excerpt. *)
Lemma oversized_error_body_yields_no_status_error :
  exists e,
    snd (gemini.Generate sample.platform
                         (sample.client (sample.answers 500 sample.big_body))
                         "test" []) = inl e
    /\ gemini.kind e = gemini.SizeLimitError
    /\ gemini.Error sample.platform e
       = "gemini: response exceeds 10485760 byte limit"
    /\ strings.Contains (gemini.Error sample.platform e) (strconv.Itoa 500)
       = false
    /\ strings.Contains (gemini.Error sample.platform e) spec.truncation_marker
       = false.
Proof.
  exists gemini.response_exceeds_limit.
  rewrite (Generate_after_response
             sample.platform (sample.client (sample.answers 500 sample.big_body))
             "test" []
             (spec.post (sample.client (sample.answers 500 sample.big_body))
                        (sample.body_of "test" []))
             {| http.StatusCode := 500;
                http.Response_Body := {| http.content := sample.big_body;
                                         http.failure := None |} |}
             (sample_request_sent 500 sample.big_body "test") eq_refl).
  unfold spec.received. cbv zeta. cbn [http.content http.Response_Body].
  replace (gemini.maxResponseBytes <? len sample.big_body) with true
    by (symmetry; apply Z.ltb_lt; rewrite len_big_body; lia).
  repeat split.
Qed.

(** So does a failed read of the body. *)
Example failed_read_yields_no_status_error :
  snd (gemini.Generate sample.platform
         (sample.client
            (gemini.Doer_of (fun _ =>
               http.Responded
                 {| http.StatusCode := 500;
                    http.Response_Body :=
                      {| http.content := "partial";
                         http.failure := Some "unexpected EOF" |} |})))
         "test" [])
  = inl (gemini.read_response "unexpected EOF").
Proof. reflexivity. Qed.

(** C4, as the code has it: when the executor has answered with a response
    whose body could be read to its end and is not larger than 10 MiB,
    [Generate] fails with an HTTP status error if and only if the status is
    [>= 400]; the message of that error is [gemini: HTTP <status>: <excerpt>],
    so it holds the status code and the excerpt, which is the body when the
    body has at most 1024 bytes, and its first 1024 bytes followed by the
    marker [...(truncated)] when it has more. For a status 500 and a body of
    2000 bytes the message holds the marker, is shorter than 2000 bytes, and
    does not hold the body. *)
Theorem HTTP_status_error_carries_status_and_excerpt :
  forall (P : gemini.Platform) (c : gemini.Client) (prompt : string)
         (opts : list gemini.GenerateOption)
         (req : http.Request) (resp : http.Response),
    In (gemini.doer_Do req) (fst (gemini.Generate P c prompt opts)) ->
    gemini.Do P (gemini.doer c) req = http.Responded resp ->
    http.failure (http.Response_Body resp) = None ->
    len (http.content (http.Response_Body resp)) <= gemini.maxResponseBytes ->
    let body := http.content (http.Response_Body resp) in
    let status := http.StatusCode resp in
    let text := "gemini: HTTP " ++ strconv.Itoa status ++ ": " ++ spec.excerpt body in
    ((exists e, snd (gemini.Generate P c prompt opts) = inl e
                /\ gemini.kind e = gemini.HTTPStatusError)
     <-> 400 <= status)
    /\ (400 <= status ->
        exists e, snd (gemini.Generate P c prompt opts) = inl e
                  /\ gemini.Error P e = text
                  /\ strings.Contains text (strconv.Itoa status) = true
                  /\ strings.Contains text (spec.excerpt body) = true)
    /\ (len body <= 1024 -> spec.excerpt body = body)
    /\ (1024 < len body ->
        spec.excerpt body = take 1024 body ++ "...(truncated)"
        /\ strings.Contains text "...(truncated)" = true)
    /\ (status = 500 -> len body = 2000 ->
        strings.Contains text "...(truncated)" = true
        /\ len text < 2000
        /\ strings.Contains text body = false).
Proof.
  intros P c prompt opts req resp Sent Answer Read Small body status text.
  rewrite (Generate_after_response P c prompt opts req resp Sent Answer).
  unfold spec.received. cbv zeta. fold body. fold status.
  replace (gemini.maxResponseBytes <? len body) with false
    by (symmetry; apply Z.ltb_ge; exact Small).
  rewrite Read.
  assert (Marker : 1024 < len body ->
            spec.excerpt body = take 1024 body ++ "...(truncated)"
            /\ strings.Contains text "...(truncated)" = true).
  { intros L. destruct (excerpt_long body L) as [E _]. split; [exact E|].
    unfold text. rewrite E. unfold spec.truncation_marker.
    rewrite <- !append_assoc. apply Contains_suffix. }
  split; [|split; [|split; [|split]]].
  - destruct (400 <=? status) eqn:S; cbn [snd].
    + apply Z.leb_le in S. split; [intros _; exact S|]. intros _.
      eexists. split; reflexivity.
    + apply Z.leb_gt in S. split; [|lia].
      intros [e [E K]].
      destruct (gemini.Unmarshal_Response P body);
        [injection E as <-; discriminate K | discriminate E].
  - intros S. apply Z.leb_le in S. rewrite S. cbn [snd].
    eexists. split; [reflexivity|]. split; [reflexivity|]. split.
    + unfold text. apply Contains_middle.
    + unfold text. rewrite <- !append_assoc. apply Contains_suffix.
  - apply excerpt_short.
  - exact Marker.
  - intros S L. assert (L' : 1024 < len body) by lia.
    destruct (Marker L') as [_ M]. split; [exact M|].
    destruct (excerpt_long body L') as [_ E].
    assert (T : len text = 1056).
    { unfold text. rewrite S, !len_append, E. reflexivity. }
    split; [lia|]. apply not_Contains_longer. lia.
Qed.

Lemma error_body_of_2000_bytes_is_truncated :
  exists e,
    snd (gemini.Generate sample.platform
                         (sample.client
                            (sample.answers 500 sample.long_error))
                         "test" []) = inl e
    /\ strings.Contains (gemini.Error sample.platform e) (strconv.Itoa 500) = true
    /\ strings.Contains (gemini.Error sample.platform e) "...(truncated)" = true
    /\ len (gemini.Error sample.platform e) < 2000
    /\ strings.Contains (gemini.Error sample.platform e)
                        sample.long_error = false.
Proof.
  destruct (HTTP_status_error_carries_status_and_excerpt
              sample.platform
              (sample.client (sample.answers 500 sample.long_error))
              "test" []
              (spec.post (sample.client
                            (sample.answers 500 sample.long_error))
                         (sample.body_of "test" []))
              {| http.StatusCode := 500;
                 http.Response_Body :=
                   {| http.content := sample.long_error;
                      http.failure := None |} |}
              (sample_request_sent 500 sample.long_error "test")
              eq_refl eq_refl)
    as [_ [Fails [_ [_ Long]]]].
  - vm_compute. discriminate.
  - destruct Fails as [e [E [T [S _]]]]; [cbn [http.StatusCode]; lia|].
    destruct Long as [M [L N]]; [reflexivity | vm_compute; reflexivity |].
    exists e. rewrite T.
    split; [exact E | split; [exact S | split; [exact M | split; [exact L | exact N]]]].
Defined.

(** ** The API key and the text of errors *)

(** An executor that repeats the key it was sent has it repeated in the
    text of the error: the excerpt of the error body is not searched for the
    key. *)
Lemma error_text_repeats_key_echoed_by_executor :
  exists c e,
    gemini.New "test-key" [gemini.WithDoer sample.echoes_key] = ([], inr c)
    /\ gemini.apiKey c = "test-key"
    /\ snd (gemini.Generate sample.platform c "hello" []) = inl e
    /\ gemini.Error sample.platform e
       = "gemini: HTTP 403: API key not valid: test-key"
    /\ strings.Contains (gemini.Error sample.platform e) (gemini.apiKey c) = true.
Proof.
  eexists. eexists.
  split; [reflexivity|]. split; [reflexivity|].
  split; [vm_compute; reflexivity|].
  split; reflexivity.
Qed.

Lemma options_commute_with_key (opts : list gemini.Option) (key : string)
      (c : gemini.Client) :
  fold_left (fun c o => gemini.apply_Option o c) opts (spec.with_key key c)
  = spec.with_key key (fold_left (fun c o => gemini.apply_Option o c) opts c).
Proof.
  revert c. induction opts as [|o opts IH]; intros c; simpl; [reflexivity|].
  rewrite <- IH. now destruct o.
Qed.

(** Two clients made from the same options differ in their key only. *)
Lemma New_with_another_key (key1 key2 : string) (opts : list gemini.Option)
      (c1 c2 : gemini.Client) :
  snd (gemini.New key1 opts) = inr c1 ->
  snd (gemini.New key2 opts) = inr c2 ->
  c1 = spec.with_key key1 c2.
Proof.
  unfold gemini.New.
  destruct (String.eqb (strings.TrimSpace key1) ""); [discriminate|].
  destruct (String.eqb (strings.TrimSpace key2) ""); [discriminate|].
  cbv zeta.
  destruct (negb _); [discriminate|]. destruct (negb _); [discriminate|].
  intros [= <-] [= <-].
  rewrite <- options_commute_with_key. reflexivity.
Qed.

Lemma post_with_key (key : string) (c : gemini.Client) (body : json.JSON) :
  spec.post (spec.with_key key c) body
  = http.Header_Set "x-goog-api-key" key (spec.post c body).
Proof. reflexivity. Qed.

Lemma Generate_with_another_key (P : gemini.Platform) (c : gemini.Client)
      (key prompt : string) (opts : list gemini.GenerateOption) :
  spec.key_blind P (gemini.doer c) ->
  snd (gemini.Generate P (spec.with_key key c) prompt opts)
  = snd (gemini.Generate P c prompt opts).
Proof.
  intros Blind. rewrite !Generate_round_trip. unfold spec.round_trip. cbv zeta.
  destruct (gemini.maxTokens (gemini.resolve opts) <=? 0); [reflexivity|].
  destruct (PrimFloat.ltb _ _); [reflexivity|].
  destruct (gemini.Marshal _ _) as [cause|body]; [reflexivity|].
  change (http.URL (spec.post (spec.with_key key c) body))
    with (http.URL (spec.post c body)).
  destruct (gemini.NewRequest_error _ _ _) as [cause|]; [reflexivity|].
  rewrite post_with_key.
  change (gemini.doer (spec.with_key key c)) with (gemini.doer c).
  rewrite Blind.
  destruct (gemini.Do P (gemini.doer c) (spec.post c body)); reflexivity.
Qed.

(** C8, as the code has it: the client never writes the API key into an
    error of its own accord. An error of [New] is the fixed text about the
    key, or the text about the base URL, made of the base URL the options
    leave. For two clients made from the same options with two keys, and an
    executor whose answer does not depend on the key it is sent, [Generate]
    returns the same response or the same error, hence the same error text:
    the text is made of the generation parameters, the status, the excerpt of
    the response body and the error texts of the executor and of the
    libraries, and holds the key only where those hold it. *)
Theorem error_text_does_not_depend_on_the_API_key :
  forall (P : gemini.Platform) (key1 key2 : string)
         (copts : list gemini.Option) (c1 c2 : gemini.Client)
         (prompt : string) (gopts : list gemini.GenerateOption),
    snd (gemini.New key1 copts) = inr c1 ->
    snd (gemini.New key2 copts) = inr c2 ->
    spec.key_blind P (gemini.doer c2) ->
    snd (gemini.Generate P c1 prompt gopts) = snd (gemini.Generate P c2 prompt gopts)
    /\ (forall e, snd (gemini.Generate P c1 prompt gopts) = inl e ->
                  exists e', snd (gemini.Generate P c2 prompt gopts) = inl e'
                             /\ gemini.Error P e = gemini.Error P e')
    /\ (forall key opts e,
          snd (gemini.New key opts) = inl e ->
          gemini.Error P e = "gemini: API key must not be empty"
          \/ gemini.Error P e
             = "gemini: base URL must use HTTPS, got "
               ++ gemini.Sprintf_q P (spec.base_URL_after opts)).
Proof.
  intros P key1 key2 copts c1 c2 prompt gopts N1 N2 Blind.
  rewrite (New_with_another_key key1 key2 copts c1 c2 N1 N2).
  rewrite (Generate_with_another_key P c2 key1 prompt gopts Blind).
  split; [reflexivity|]. split.
  - intros e E. exists e. split; [exact E | reflexivity].
  - intros key opts e. unfold gemini.New.
    destruct (String.eqb _ _); [intros [= <-]; left; reflexivity|].
    cbv zeta. rewrite options_set_baseURL.
    destruct (negb _); [intros [= <-]; right; reflexivity | discriminate].
Qed.

Lemma rate_limit_error_is_the_same_for_two_keys :
  snd (gemini.Generate sample.platform
         (spec.with_key "key-one" (sample.client (sample.answers 429 "rate limited")))
         "test" [])
  = snd (gemini.Generate sample.platform
           (spec.with_key "key-two" (sample.client (sample.answers 429 "rate limited")))
           "test" []).
Proof.
  apply (error_text_does_not_depend_on_the_API_key
           sample.platform "key-one" "key-two"
           [gemini.WithDoer (sample.answers 429 "rate limited")]
           (spec.with_key "key-one" (sample.client (sample.answers 429 "rate limited")))
           (spec.with_key "key-two" (sample.client (sample.answers 429 "rate limited")))
           "test" []).
  - reflexivity.
  - reflexivity.
  - intros req key. reflexivity.
Defined.

(** ** The prompt *)

Lemma runes_fuel_join (fuel : nat) (s : string) :
  (String.length s <= fuel)%nat ->
  join (map snd (utf8.runes_fuel fuel s)) = s.
Proof.
  revert s. induction fuel as [|fuel IH]; intros s L.
  - destruct s; [reflexivity | simpl in L; lia].
  - destruct s as [|c t]; [reflexivity|].
    cbn [utf8.runes_fuel].
    pose proof (DecodeRuneInString_width c t) as W.
    destruct (utf8.DecodeRuneInString (String c t)) as [r w].
    cbn [map snd join] in *. rewrite IH.
    + apply take_drop.
    + rewrite length_drop.
      change (String.length (String c t)) with (S (String.length t)) in *. lia.
Qed.

(** The bytes of the runes of a string are the string. *)
Lemma runes_join (s : string) : join (map snd (utf8.runes s)) = s.
Proof. apply runes_fuel_join. lia. Qed.

(** The encoder leaves valid UTF-8 as it is. *)
Lemma coerce_valid (s : string) :
  utf8.ValidString s = true -> json.coerce s = s.
Proof.
  unfold utf8.ValidString, json.coerce. intros V.
  rewrite <- (runes_join s) at 2. f_equal.
  apply map_ext_in. intros c In_c.
  rewrite forallb_forall in V. specialize (V c In_c).
  apply negb_true_iff in V. now rewrite V.
Qed.

(** The document of a request of the single-prompt use. *)
Lemma Marshal_request_of (f : float -> string) (cfg : gemini.generateConfig)
      (prompt : string) :
  gemini.Marshal f (spec.request_of cfg prompt)
  = match gemini.Marshal_GenerationConfig f
            {| gemini.MaxOutputTokens := gemini.maxTokens cfg;
               gemini.Temperature := Some (gemini.temperature cfg) |} with
    | inl cause => inl cause
    | inr g =>
      inr (json.JObject
             ([("contents",
                json.JArray
                  [json.JObject
                     [("parts",
                       json.JArray
                         [json.JObject
                            [("text", json.JString (json.coerce prompt))]])]]);
               ("generationConfig", g)]
              ++ if gemini.googleSearch cfg
                 then [("tools",
                        json.JArray
                          [json.JObject [("googleSearch", json.JObject [])]])]
                 else [])%list)
    end.
Proof.
  unfold gemini.Marshal, spec.request_of.
  cbn [gemini.Request_GenerationConfig gemini.Contents gemini.Tools].
  destruct (gemini.Marshal_GenerationConfig f _); [reflexivity|].
  destruct (gemini.googleSearch cfg); reflexivity.
Qed.

(** The encoder fails on a [Request] only for a temperature that is not
    finite. *)
Lemma Marshal_GenerationConfig_finite (f : float -> string) (n : Z) (t : float) :
  json.unsupported t = false ->
  exists g, gemini.Marshal_GenerationConfig f
              {| gemini.MaxOutputTokens := n; gemini.Temperature := Some t |}
            = inr g.
Proof.
  intros F. unfold gemini.Marshal_GenerationConfig.
  cbn [gemini.Temperature]. rewrite F. eauto.
Qed.

(** A temperature of [+Inf] is [>= 0], so the parameters are valid, yet the
    request cannot be serialized: the call ends in a marshal error and the
    executor is never invoked. *)
Lemma infinite_temperature_is_valid_but_never_sent :
  spec.valid (gemini.resolve [gemini.WithTemperature infinity])
  /\ snd (gemini.Generate sample.platform
                          (sample.client (sample.answers 200 "{}")) "hello"
                          [gemini.WithTemperature infinity])
     = inl (gemini.marshal_request "json: unsupported value: +Inf")
  /\ spec.executor_invoked
       (fst (gemini.Generate sample.platform
                             (sample.client (sample.answers 200 "{}")) "hello"
                             [gemini.WithTemperature infinity]))
     = false.
Proof.
  split; [split; reflexivity|]. split; reflexivity.
Qed.

(** A model name that holds a control character makes a URL that
    [http.NewRequestWithContext] refuses: the call ends before the executor,
    with valid parameters and whatever the prompt. *)
Example control_character_in_model_is_never_sent :
  gemini.Generate sample.platform
    {| gemini.apiKey := "test-key";
       gemini.model := String "010"%char "";
       gemini.baseURL := gemini.defaultBaseURL;
       gemini.doer := sample.answers 200 "{}" |}
    "hello" []
  = ([gemini.json_Marshal (spec.request_of (gemini.resolve []) "hello")],
     inl (gemini.create_request "net/url: invalid control character in URL")).
Proof. reflexivity. Qed.

(** C10, as the code has it: [Generate] does not look at the prompt before
    it serializes the request. Whether a call reaches the executor does not
    depend on the prompt, and a call that fails before it fails with the same
    error for every prompt. With valid parameters whose temperature is
    finite, and a base URL and model that make a URL [http.NewRequest]
    accepts, for every prompt, the empty one and those of white space
    included, the request that holds the prompt byte for byte is serialized
    and handed to the executor, once; the document sent spells the prompt
    coerced to valid UTF-8, which is the prompt itself when it is valid
    UTF-8. *)
Theorem Generate_does_not_validate_the_prompt :
  forall (P : gemini.Platform) (c : gemini.Client)
         (opts : list gemini.GenerateOption),
    (forall p1 p2,
        spec.executor_invoked (fst (gemini.Generate P c p1 opts))
        = spec.executor_invoked (fst (gemini.Generate P c p2 opts)))
    /\ (forall p1 p2 e,
           spec.executor_invoked (fst (gemini.Generate P c p1 opts)) = false ->
           snd (gemini.Generate P c p1 opts) = inl e ->
           snd (gemini.Generate P c p2 opts) = inl e)
    /\ (forall prompt,
           spec.valid (gemini.resolve opts) ->
           json.unsupported (gemini.temperature (gemini.resolve opts)) = false ->
           gemini.NewRequest_error P "POST"
             (gemini.baseURL c ++ "/" ++ gemini.model c ++ ":generateContent")
           = None ->
           exists body g rest,
             gemini.Marshal (gemini.FormatFloat P)
                            (spec.request_of (gemini.resolve opts) prompt)
             = inr body
             /\ fst (gemini.Generate P c prompt opts)
                = gemini.json_Marshal (spec.request_of (gemini.resolve opts) prompt)
                    :: gemini.doer_Do (spec.post c body) :: rest
             /\ spec.executor_invoked rest = false
             /\ gemini.Contents (spec.request_of (gemini.resolve opts) prompt)
                = [ {| gemini.Content_Parts :=
                         [ {| gemini.Part_Text := prompt |} ] |} ]
             /\ body
                = json.JObject
                    ([("contents",
                       json.JArray
                         [json.JObject
                            [("parts",
                              json.JArray
                                [json.JObject
                                   [("text",
                                     json.JString (json.coerce prompt))]])]]);
                      ("generationConfig", g)]
                     ++ if gemini.googleSearch (gemini.resolve opts)
                        then [("tools",
                               json.JArray
                                 [json.JObject
                                    [("googleSearch", json.JObject [])]])]
                        else [])%list
             /\ (utf8.ValidString prompt = true -> json.coerce prompt = prompt)).
Proof.
  intros P c opts.
  assert (Early : forall p,
    gemini.Generate P c p opts = spec.round_trip P c p opts)
    by (intros; apply Generate_round_trip).
  split; [|split].
  - intros p1 p2. rewrite !Early. unfold spec.round_trip. cbv zeta.
    destruct (gemini.maxTokens (gemini.resolve opts) <=? 0); [reflexivity|].
    destruct (PrimFloat.ltb _ _); [reflexivity|].
    rewrite !Marshal_request_of.
    destruct (gemini.Marshal_GenerationConfig _ _) as [cause|g]; [reflexivity|].
    change (http.URL (spec.post c ?b))
      with (gemini.baseURL c ++ "/" ++ gemini.model c ++ ":generateContent").
    destruct (gemini.NewRequest_error _ _ _); [reflexivity|].
    destruct (gemini.Do _ _ _), (gemini.Do _ _ _); reflexivity.
  - intros p1 p2 e. rewrite !Early. unfold spec.round_trip. cbv zeta.
    destruct (gemini.maxTokens (gemini.resolve opts) <=? 0); [tauto|].
    destruct (PrimFloat.ltb _ _); [tauto|].
    rewrite !Marshal_request_of.
    destruct (gemini.Marshal_GenerationConfig _ _) as [cause|g]; [tauto|].
    change (http.URL (spec.post c ?b))
      with (gemini.baseURL c ++ "/" ++ gemini.model c ++ ":generateContent").
    destruct (gemini.NewRequest_error _ _ _); [tauto|].
    destruct (gemini.Do P (gemini.doer c) (spec.post c _));
      simpl; discriminate.
  - intros prompt V F U.
    destruct (valid_passes_validation _ V) as [N T].
    rewrite Early. unfold spec.round_trip. cbv zeta. rewrite N, T.
    rewrite Marshal_request_of.
    destruct (Marshal_GenerationConfig_finite
                (gemini.FormatFloat P) (gemini.maxTokens (gemini.resolve opts))
                (gemini.temperature (gemini.resolve opts)) F) as [g ->].
    change (http.URL (spec.post c ?b))
      with (gemini.baseURL c ++ "/" ++ gemini.model c ++ ":generateContent").
    rewrite U.
    eexists. exists g.
    destruct (gemini.Do P (gemini.doer c) _) as [cause|resp] eqn:D.
    + exists []. repeat split. apply coerce_valid.
    + exists (fst (spec.received P resp)).
      split; [reflexivity|]. split; [reflexivity|]. split.
      * unfold spec.executor_invoked.
        destruct (existsb spec.is_Do (fst (spec.received P resp))) eqn:X;
          [|reflexivity].
        apply existsb_exists in X. destruct X as [ev [I D']].
        destruct ev; try discriminate.
        now apply received_makes_no_request in I.
      * split; [reflexivity|]. split; [reflexivity|]. apply coerce_valid.
Qed.

Lemma empty_prompt_is_handed_to_the_executor :
  exists body g rest,
    gemini.Marshal (gemini.FormatFloat sample.platform)
                   (spec.request_of (gemini.resolve []) "")
    = inr body
    /\ fst (gemini.Generate sample.platform
                            (sample.client (sample.answers 200 "{}")) "" [])
       = gemini.json_Marshal (spec.request_of (gemini.resolve []) "")
           :: gemini.doer_Do (spec.post (sample.client (sample.answers 200 "{}"))
                                        body)
           :: rest
    /\ spec.executor_invoked rest = false
    /\ gemini.Contents (spec.request_of (gemini.resolve []) "")
       = [ {| gemini.Content_Parts := [ {| gemini.Part_Text := "" |} ] |} ]
    /\ body
       = json.JObject
           ([("contents",
              json.JArray
                [json.JObject
                   [("parts",
                     json.JArray
                       [json.JObject
                          [("text", json.JString (json.coerce ""))]])]]);
             ("generationConfig", g)]
            ++ if gemini.googleSearch (gemini.resolve [])
               then [("tools",
                      json.JArray
                        [json.JObject [("googleSearch", json.JObject [])]])]
               else [])%list
    /\ (utf8.ValidString "" = true -> json.coerce "" = "").
Proof.
  apply (proj2 (proj2
           (Generate_does_not_validate_the_prompt
              sample.platform (sample.client (sample.answers 200 "{}")) []))).
  - split; reflexivity.
  - reflexivity.
  - reflexivity.
Defined.

Example Generate_sends_the_empty_prompt :
  fst (gemini.Generate sample.platform (sample.client (sample.answers 200 "{}"))
                       "" [])
  = [gemini.json_Marshal (spec.request_of (gemini.resolve []) "");
     gemini.doer_Do (spec.post (sample.client (sample.answers 200 "{}"))
                               (sample.body_of "" []));
     gemini.body_Read 2; gemini.json_Unmarshal "{}"; gemini.body_Close].
Proof. reflexivity. Qed.

Example Generate_sends_a_prompt_of_white_space :
  exists rest,
    fst (gemini.Generate sample.platform
                         (sample.client (sample.answers 200 "{}")) "   " [])
    = gemini.json_Marshal (spec.request_of (gemini.resolve []) "   ")
        :: gemini.doer_Do (spec.post (sample.client (sample.answers 200 "{}"))
                                     (sample.body_of "   " []))
        :: rest.
Proof. eexists. reflexivity. Qed.

(** ** The request, to JSON and back *)

Lemma Itoa_parses (z : Z) :
  NilZero.int_of_string (strconv.Itoa z) = Some (Z.to_int z).
Proof.
  unfold strconv.Itoa. apply NilZero.isi; destruct z; simpl; try discriminate;
    intros [= H]; now apply Unsigned.to_uint_nonnil in H.
Qed.

Lemma ParseInt_Itoa (z : Z) : spec.int64 z -> strconv.ParseInt (strconv.Itoa z) = Some z.
Proof.
  intros [Lo Hi]. unfold strconv.ParseInt. rewrite Itoa_parses, DecimalZ.of_to.
  replace (- 2 ^ 63 <=? z) with true by (symmetry; apply Z.leb_le; exact Lo).
  replace (z <? 2 ^ 63) with true by (symmetry; apply Z.ltb_lt; exact Hi).
  reflexivity.
Qed.

Section RoundTrip.

Variable FormatFloat : float -> string.
Variable ParseFloat : string -> option float.

(** [strconv] reads back the finite float64 it has written. *)
Hypothesis Parse_Format :
  forall f, json.unsupported f = false -> ParseFloat (FormatFloat f) = Some f.

Lemma Part_round_trip (p old : gemini.Part) :
  utf8.ValidString (gemini.Part_Text p) = true ->
  gemini.decode_Part (gemini.Marshal_Part p) old = Some p.
Proof.
  intros V. destruct p as [text]. cbn [gemini.Part_Text] in V.
  unfold gemini.Marshal_Part, gemini.decode_Part, json.into_struct.
  cbn [fold_left fst snd gemini.Part_Text].
  change (json.key_is "text" "text") with true. cbv iota.
  rewrite !(coerce_valid text V). reflexivity.
Qed.

Lemma Parts_round_trip (l : list gemini.Part) :
  Forall (fun p => utf8.ValidString (gemini.Part_Text p) = true) l ->
  gemini.decode_Parts (json.JArray (map gemini.Marshal_Part l)) = Some l.
Proof.
  intros V. cbn [gemini.decode_Parts].
  induction V as [|p l Vp Vl IH]; [reflexivity|].
  cbn [map json.mapM]. rewrite (Part_round_trip p _ Vp), IH. reflexivity.
Qed.

Lemma Content_round_trip (c old : gemini.Content) :
  Forall (fun p => utf8.ValidString (gemini.Part_Text p) = true)
         (gemini.Content_Parts c) ->
  gemini.decode_Content (gemini.Marshal_Content c) old = Some c.
Proof.
  intros V. destruct c as [parts]. cbn in V.
  unfold gemini.Marshal_Content, gemini.decode_Content, json.into_struct.
  cbn [fold_left fst snd gemini.Content_Parts].
  change (json.key_is "parts" "parts") with true. cbv iota.
  rewrite (Parts_round_trip parts V). reflexivity.
Qed.

Lemma Contents_round_trip (l : list gemini.Content) :
  Forall (fun c =>
            Forall (fun p => utf8.ValidString (gemini.Part_Text p) = true)
                   (gemini.Content_Parts c)) l ->
  gemini.decode_Contents (json.JArray (map gemini.Marshal_Content l))
  = Some l.
Proof.
  intros V. cbn [gemini.decode_Contents].
  induction V as [|c l Vc Vl IH]; [reflexivity|].
  cbn [map json.mapM]. rewrite (Content_round_trip c _ Vc), IH. reflexivity.
Qed.

Lemma Tool_round_trip (t : gemini.Tool) :
  gemini.decode_Tool (gemini.Marshal_Tool t) {| gemini.Tool_GoogleSearch := None |}
  = Some t.
Proof. destruct t as [[[]|]]; reflexivity. Qed.

Lemma Tools_round_trip (l : list gemini.Tool) :
  gemini.decode_Tools (json.JArray (map gemini.Marshal_Tool l)) = Some l.
Proof.
  cbn [gemini.decode_Tools].
  induction l as [|t l IH]; [reflexivity|].
  cbn [map json.mapM]. rewrite Tool_round_trip, IH. reflexivity.
Qed.

Lemma GenerationConfig_round_trip (g : gemini.GenerationConfig) :
  spec.int64 (gemini.MaxOutputTokens g) ->
  (forall t, gemini.Temperature g = Some t -> json.unsupported t = false) ->
  exists doc,
    gemini.Marshal_GenerationConfig FormatFloat g = inr doc
    /\ gemini.decode_GenerationConfig ParseFloat doc
         {| gemini.MaxOutputTokens := 0; gemini.Temperature := None |}
       = Some g.
Proof.
  destruct g as [n [t|]]; cbn [gemini.MaxOutputTokens gemini.Temperature];
    intros R F; unfold gemini.Marshal_GenerationConfig;
    cbn [gemini.MaxOutputTokens gemini.Temperature].
  - rewrite (F t eq_refl).
    destruct (Z.eqb_spec n 0) as [->|N]; eexists; (split; [reflexivity|]);
      unfold gemini.decode_GenerationConfig, json.into_struct;
      cbn [app fold_left fst snd];
      change (json.key_is "maxOutputTokens" "maxOutputTokens") with true;
      change (json.key_is "maxOutputTokens" "temperature") with false;
      change (json.key_is "temperature" "temperature") with true;
      cbv iota; try rewrite (ParseInt_Itoa n R);
      cbn [option_map gemini.MaxOutputTokens gemini.Temperature];
      rewrite (Parse_Format t (F t eq_refl)); reflexivity.
  - destruct (Z.eqb_spec n 0) as [->|N]; eexists; (split; [reflexivity|]);
      unfold gemini.decode_GenerationConfig, json.into_struct;
      cbn [app fold_left fst snd];
      change (json.key_is "maxOutputTokens" "maxOutputTokens") with true;
      cbv iota; try rewrite (ParseInt_Itoa n R); reflexivity.
Qed.

Lemma Request_round_trip (r : gemini.Request) :
  spec.spellable r ->
  exists doc,
    gemini.Marshal FormatFloat r = inr doc
    /\ gemini.Unmarshal ParseFloat doc = Some r.
Proof.
  intros [R [V F]]. destruct r as [contents g tools].
  cbn [gemini.Request_GenerationConfig gemini.Contents] in *.
  destruct (GenerationConfig_round_trip g R F) as [gdoc [GM GU]].
  unfold gemini.Marshal.
  cbn [gemini.Request_GenerationConfig gemini.Contents gemini.Tools].
  rewrite GM. eexists. split; [reflexivity|].
  unfold gemini.Unmarshal, json.into_struct, gemini.zero_Request.
  destruct tools as [|t tools];
    cbn [app fold_left fst snd];
    change (json.key_is "contents" "contents") with true;
    change (json.key_is "contents" "generationConfig") with false;
    change (json.key_is "generationConfig" "generationConfig") with true;
    change (json.key_is "contents" "tools") with false;
    change (json.key_is "generationConfig" "tools") with false;
    change (json.key_is "tools" "tools") with true;
    cbv iota;
    cbn [gemini.Request_GenerationConfig gemini.Contents gemini.Tools];
    rewrite (Contents_round_trip contents V);
    cbn [option_map gemini.Request_GenerationConfig gemini.Contents gemini.Tools];
    rewrite GU;
    cbn [option_map gemini.Request_GenerationConfig gemini.Contents gemini.Tools];
    [reflexivity|].
  rewrite (Tools_round_trip (t :: tools)). reflexivity.
Qed.

End RoundTrip.

(** The sample float literal reads back: an instance of what the round trip
    asks of [strconv]. *)
Lemma cut_digits (d : Decimal.uint) (rest : string) :
  sample.cut "p" (NilEmpty.string_of_uint d ++ String "p" rest)
  = Some (NilEmpty.string_of_uint d, rest).
Proof.
  induction d; cbn [NilEmpty.string_of_uint append sample.cut];
    try (rewrite IHd); reflexivity.
Qed.

Lemma cut_Itoa (z : Z) (rest : string) :
  sample.cut "p" (strconv.Itoa z ++ String "p" rest)
  = Some (strconv.Itoa z, rest).
Proof.
  assert (U : forall d, sample.cut "p" (NilZero.string_of_uint d ++ String "p" rest)
                        = Some (NilZero.string_of_uint d, rest)).
  { intros [|d|d|d|d|d|d|d|d|d|d]; [reflexivity| | | | | | | | | |];
      unfold NilZero.string_of_uint; apply cut_digits. }
  unfold strconv.Itoa.
  destruct (Z.to_int z) as [d|d]; cbn [NilZero.string_of_int]; [apply U|].
  cbn [append sample.cut]. rewrite U. reflexivity.
Qed.

Lemma parse_Z_Itoa (z : Z) : sample.parse_Z (strconv.Itoa z) = Some z.
Proof.
  unfold sample.parse_Z. rewrite Itoa_parses. cbn [option_map].
  now rewrite DecimalZ.of_to.
Qed.

Lemma parse_b_format_b (f : float) :
  json.unsupported f = false -> sample.parse_b (sample.format_b f) = Some f.
Proof.
  intros F. pose proof (SF2Prim_Prim2SF f) as Back.
  unfold sample.format_b.
  destruct (Prim2SF f) as [s|s| |s m e].
  - rewrite <- Back. now destruct s.
  - rewrite <- Back in F. destruct s; vm_compute in F; discriminate F.
  - rewrite <- Back in F. vm_compute in F. discriminate F.
  - unfold sample.parse_b.
    change ("p" ++ strconv.Itoa e) with (String "p" (strconv.Itoa e)).
    rewrite cut_Itoa, !parse_Z_Itoa. rewrite <- Back. now destruct s.
Qed.

Lemma member_generationConfig (f : float -> string) (r : gemini.Request)
      (doc : json.JSON) :
  gemini.Marshal f r = inr doc ->
  exists g, gemini.Marshal_GenerationConfig f (gemini.Request_GenerationConfig r)
            = inr g
            /\ json.member "generationConfig" doc = Some g.
Proof.
  unfold gemini.Marshal.
  destruct (gemini.Marshal_GenerationConfig f _) as [cause|g]; [discriminate|].
  intros [= <-]. exists g. split; reflexivity.
Qed.

Lemma member_temperature (f : float -> string) (n : Z) (t : float)
      (g : json.JSON) :
  gemini.Marshal_GenerationConfig f
    {| gemini.MaxOutputTokens := n; gemini.Temperature := Some t |} = inr g ->
  json.member "temperature" g = Some (json.JNumber (f t)).
Proof.
  unfold gemini.Marshal_GenerationConfig.
  cbn [gemini.MaxOutputTokens gemini.Temperature].
  destruct (json.unsupported t); [discriminate|].
  intros [= <-]. destruct (n =? 0); reflexivity.
Qed.

(** A request whose max tokens are 1 and whose temperature is [+Inf] has
    valid generation parameters, and no serialized form at all. *)
Lemma infinite_temperature_has_no_serialized_form :
  let r := spec.request_of
             (gemini.resolve [gemini.WithMaxTokens 1;
                              gemini.WithTemperature infinity]) "hello" in
  0 < gemini.MaxOutputTokens (gemini.Request_GenerationConfig r)
  /\ gemini.Temperature (gemini.Request_GenerationConfig r) = Some infinity
  /\ PrimFloat.leb 0%float infinity = true
  /\ (forall f, gemini.Marshal f r = inl "json: unsupported value: +Inf").
Proof.
  cbv zeta. split; [reflexivity|]. split; [reflexivity|].
  split; [reflexivity|]. intros f. reflexivity.
Qed.

(** A text that is not valid UTF-8 comes back as U+FFFD. *)
Example invalid_UTF8_text_does_not_round_trip :
  let r := spec.request_of (gemini.resolve []) (String "255"%char "") in
  exists doc,
    gemini.Marshal sample.format_b r = inr doc
    /\ gemini.Unmarshal sample.parse_b doc
       = Some (spec.request_of (gemini.resolve []) json.replacement)
    /\ gemini.Unmarshal sample.parse_b doc <> Some r.
Proof.
  cbv zeta. eexists. split; [reflexivity|]. split; [reflexivity|].
  vm_compute. discriminate.
Qed.

(** C7, as the code has it: a [Request] whose temperature, when there is
    one, is finite, whose max tokens are a Go [int] and whose texts are valid
    UTF-8 has a serialized form, and deserializing that form gives the
    request back (slices compared by their elements), as long as [strconv]
    reads back the float literal it writes. When the request has a
    temperature, [0.0] included, the [generationConfig] object of the
    serialized form has a [temperature] member with the literal of that
    number. *)
Theorem Request_round_trips_through_JSON :
  forall (FormatFloat : float -> string) (ParseFloat : string -> option float),
    (forall f, json.unsupported f = false ->
               ParseFloat (FormatFloat f) = Some f) ->
    forall r : gemini.Request,
      spec.spellable r ->
      (exists doc, gemini.Marshal FormatFloat r = inr doc
                   /\ gemini.Unmarshal ParseFloat doc = Some r)
      /\ (forall t doc,
             gemini.Temperature (gemini.Request_GenerationConfig r) = Some t ->
             gemini.Marshal FormatFloat r = inr doc ->
             exists g, json.member "generationConfig" doc = Some g
                       /\ json.member "temperature" g
                          = Some (json.JNumber (FormatFloat t))).
Proof.
  intros FormatFloat ParseFloat Back r S. split.
  - apply Request_round_trip; assumption.
  - intros t doc T M.
    destruct (member_generationConfig _ _ _ M) as [g [G Mg]].
    exists g. split; [exact Mg|].
    destruct r as [contents [n temp] tools]. cbn in T, G. subst temp.
    exact (member_temperature _ _ _ _ G).
Qed.

Lemma request_with_temperature_zero_round_trips :
  let r := spec.request_of (gemini.resolve [gemini.WithTemperature 0%float])
                           "test" in
  (exists doc, gemini.Marshal sample.format_b r = inr doc
               /\ gemini.Unmarshal sample.parse_b doc = Some r)
  /\ (forall t doc,
         gemini.Temperature (gemini.Request_GenerationConfig r) = Some t ->
         gemini.Marshal sample.format_b r = inr doc ->
         exists g, json.member "generationConfig" doc = Some g
                   /\ json.member "temperature" g
                      = Some (json.JNumber (sample.format_b t))).
Proof.
  cbv zeta.
  apply (Request_round_trips_through_JSON sample.format_b sample.parse_b
                                          parse_b_format_b).
  split; [|split].
  - split; [vm_compute; discriminate | reflexivity].
  - repeat constructor.
  - intros t [= <-]. reflexivity.
Defined.

Example temperature_zero_is_serialized :
  gemini.Marshal_GenerationConfig sample.format_b
    {| gemini.MaxOutputTokens := 0; gemini.Temperature := Some 0%float |}
  = inr (json.JObject [("temperature", json.JNumber "0")]).
Proof. reflexivity. Qed.

Example zero_GenerationConfig_is_the_empty_object :
  gemini.Marshal_GenerationConfig sample.format_b
    {| gemini.MaxOutputTokens := 0; gemini.Temperature := None |}
  = inr (json.JObject []).
Proof. reflexivity. Qed.

(** ** The command line *)

(** [main] loads the configuration before it looks at the arguments: without
    an argument and without the required API key in the environment, the run
    ends in the panic of [MustLoad], and no usage message is printed. *)
Lemma no_usage_message_when_the_configuration_does_not_load :
  let p := sample.process ["gemini"] (inl "config: required variable GEMINI_API_KEY is not set") in
  (List.length (main.Args p) < 2)%nat
  /\ main.main sample.platform p
     = ([main.panics "config: required variable GEMINI_API_KEY is not set"], 2)
  /\ ~ In (main.to_stderr spec.usage) (fst (main.main sample.platform p)).
Proof.
  cbv zeta. split; [simpl; lia|]. split; [reflexivity|].
  intros [H|[]]. discriminate H.
Qed.

Lemma lifted_calls_are_no_Generate (calls : list gemini.Event)
      (c : gemini.Client) (prompt : string) (opts : list gemini.GenerateOption) :
  ~ In (main.calls_Generate c prompt opts) (map main.client_does calls).
Proof.
  intros H. apply in_map_iff in H. destruct H as [e [E _]]. discriminate E.
Qed.

Lemma the_one_call_of_Generate (pre last : list main.Action)
      (calls : list gemini.Event) (c : gemini.Client) (prompt : string)
      (opts : list gemini.GenerateOption) :
  (forall c' p' o', ~ In (main.calls_Generate c' p' o') pre) ->
  (forall c' p' o', ~ In (main.calls_Generate c' p' o') last) ->
  In (main.calls_Generate c prompt opts)
     ((pre ++ [main.calls_Generate c prompt opts] ++ map main.client_does calls)
      ++ last)%list
  /\ (forall c' p' o',
         In (main.calls_Generate c' p' o')
            ((pre ++ [main.calls_Generate c prompt opts]
              ++ map main.client_does calls) ++ last)%list ->
         p' = prompt).
Proof.
  intros Pre Last. split.
  - apply in_or_app. left. apply in_or_app. right. left. reflexivity.
  - intros c' p' o' I.
    apply in_app_or in I. destruct I as [I|I]; [|now apply Last in I].
    apply in_app_or in I. destruct I as [I|I]; [now apply Pre in I|].
    destruct I as [I|I]; [now injection I as _ <- _|].
    now apply lifted_calls_are_no_Generate in I.
Qed.

(** C9, as the code has it: [main] first loads the configuration. When that
    succeeds and no argument is given, [main] prints the usage message to
    standard error and exits with status 1, having constructed no client and
    made no call. When arguments are given and the client can be
    constructed, [Generate] is called once, with the prompt that is all the
    arguments after the program name, joined by single spaces. Without an
    argument the exit status is never 0 and no client is constructed nor any
    call made, whether the configuration loads or not. *)
Theorem main_joins_the_arguments_and_prints_usage_without_any :
  forall (P : gemini.Platform) (p : main.Process) (cfg : main.Config),
    main.MustLoad p = inr cfg ->
    ((List.length (main.Args p) < 2)%nat ->
     main.main P p
     = ([main.logs "info" "starting"; main.to_stderr spec.usage], 1))
    /\ ((2 <= List.length (main.Args p))%nat ->
        forall c,
          snd (gemini.New (main.APIKey cfg) (spec.client_options p cfg)) = inr c ->
          In (main.calls_Generate c (strings.Join (tl (main.Args p)) " ")
                                  (spec.generate_options cfg))
             (fst (main.main P p))
          /\ (forall c' prompt opts,
                 In (main.calls_Generate c' prompt opts) (fst (main.main P p)) ->
                 prompt = strings.Join (tl (main.Args p)) " "))
    /\ (forall q : main.Process,
           (List.length (main.Args q) < 2)%nat ->
           snd (main.main P q) <> 0
           /\ forallb (fun a => negb (spec.touches_client a)) (fst (main.main P q))
              = true).
Proof.
  intros P p cfg Loaded. split; [|split].
  - intros Few. apply Nat.ltb_lt in Few.
    unfold main.main. rewrite Loaded, Few. reflexivity.
  - intros Some_args c Made.
    assert (Few : (List.length (main.Args p) <? 2)%nat = false)
      by (apply Nat.ltb_ge; exact Some_args).
    unfold main.main. rewrite Loaded, Few. cbv zeta.
    fold (spec.client_options p cfg).
    replace (if main.GoogleSearch cfg then _ else _)
      with (spec.generate_options cfg)
      by (unfold spec.generate_options; now destruct (main.GoogleSearch cfg)).
    rewrite Made.
    assert (Pre : forall c' p' o',
      ~ In (main.calls_Generate c' p' o')
           ([main.logs "info" "starting"] ++ [main.logs "debug" "request config"]
            ++ [main.calls_New (main.APIKey cfg) (spec.client_options p cfg)]
            ++ map main.client_does
                 (fst (gemini.New (main.APIKey cfg) (spec.client_options p cfg))))%list).
    { intros c' p' o' [I|[I|[I|I]]]; try discriminate I.
      now apply lifted_calls_are_no_Generate in I. }
    destruct (snd (gemini.Generate P c _ _)) as [err|resp];
      [|destruct (main.MarshalIndent p resp) as [err|out]];
      cbn [fst]; apply the_one_call_of_Generate; try exact Pre;
      intros c' p' o' [I|[]]; discriminate I.
  - intros q Few. apply Nat.ltb_lt in Few. unfold main.main.
    destruct (main.MustLoad q) as [v|cfg'].
    + split; [discriminate | reflexivity].
    + rewrite Few. split; [discriminate | reflexivity].
Qed.

Lemma main_joins_three_arguments :
  let p := sample.process ["gemini"; "hello"; "big"; "world"] (inr sample.config) in
  ((List.length (main.Args p) < 2)%nat ->
   main.main sample.platform p
   = ([main.logs "info" "starting"; main.to_stderr spec.usage], 1))
  /\ ((2 <= List.length (main.Args p))%nat ->
      forall c,
        snd (gemini.New (main.APIKey sample.config)
                        (spec.client_options p sample.config)) = inr c ->
        In (main.calls_Generate c (strings.Join (tl (main.Args p)) " ")
                                (spec.generate_options sample.config))
           (fst (main.main sample.platform p))
        /\ (forall c' prompt opts,
               In (main.calls_Generate c' prompt opts)
                  (fst (main.main sample.platform p)) ->
               prompt = strings.Join (tl (main.Args p)) " "))
  /\ (forall q : main.Process,
         (List.length (main.Args q) < 2)%nat ->
         snd (main.main sample.platform q) <> 0
         /\ forallb (fun a => negb (spec.touches_client a))
                    (fst (main.main sample.platform q))
            = true).
Proof.
  cbv zeta.
  apply (main_joins_the_arguments_and_prints_usage_without_any
           sample.platform
           (sample.process ["gemini"; "hello"; "big"; "world"] (inr sample.config))
           sample.config).
  reflexivity.
Defined.

Example main_prompt_of_three_arguments :
  strings.Join (tl ["gemini"; "hello"; "big"; "world"]) " " = "hello big world".
Proof. reflexivity. Qed.

Example main_without_argument :
  main.main sample.platform (sample.process ["gemini"] (inr sample.config))
  = ([main.logs "info" "starting";
      main.to_stderr ("usage: gemini <prompt>" ++ main.newline)], 1).
Proof. reflexivity. Qed.

Example main_with_arguments_offline :
  snd (main.main sample.platform
         (sample.process ["gemini"; "hello"; "world"] (inr sample.config)))
  = 1
  /\ In (main.to_stderr
           ("error: gemini: do request: dial tcp: network is unreachable"
            ++ main.newline))
        (fst (main.main sample.platform
                (sample.process ["gemini"; "hello"; "world"] (inr sample.config)))).
Proof.
  split; [reflexivity|]. vm_compute. tauto.
Qed.

(** * Further properties of the client *)

(** ** Options *)

Lemma options_set_model (opts : list gemini.Option) (c : gemini.Client) :
  gemini.model (fold_left (fun c o => gemini.apply_Option o c) opts c)
  = shape.last_model opts (gemini.model c).
Proof.
  revert c. induction opts as [|o opts IH]; intros c; simpl; [reflexivity|].
  rewrite IH. now destruct o.
Qed.

Lemma options_set_doer (opts : list gemini.Option) (c : gemini.Client) :
  gemini.doer (fold_left (fun c o => gemini.apply_Option o c) opts c)
  = shape.last_doer opts (gemini.doer c).
Proof.
  revert c. induction opts as [|o opts IH]; intros c; simpl; [reflexivity|].
  rewrite IH. now destruct o.
Qed.

(** What a successful [New] has checked, and what it returns. *)
Lemma New_made (key : string) (opts : list gemini.Option) (c : gemini.Client) :
  snd (gemini.New key opts) = inr c ->
  spec.all_whitespace key = false
  /\ strings.HasPrefix (gemini.baseURL c) "https://" = true
  /\ c = fold_left (fun c o => gemini.apply_Option o c) opts
           {| gemini.apiKey := key;
              gemini.model := gemini.defaultModel;
              gemini.baseURL := gemini.defaultBaseURL;
              gemini.doer := gemini.http_Client gemini.defaultTimeout |}.
Proof.
  unfold gemini.New.
  destruct (String.eqb_spec (strings.TrimSpace key) "") as [E|E];
    [discriminate|].
  cbv zeta.
  destruct (strings.HasPrefix _ "https://") eqn:U; [|discriminate].
  intros [= <-]. split; [|split; [exact U | reflexivity]].
  destruct (spec.all_whitespace key) eqn:B; [|reflexivity].
  apply TrimSpace_empty in B. contradiction.
Qed.

(** X1: Every client [New] returns holds the key it was given, which is not
    blank, and an https base URL; its model, base URL and executor are those
    of the last option that sets them, and the defaults
    ([gemini-3-pro-preview], the Google endpoint, an [http.Client] with a
    timeout of 30 s) where no option does. No option changes the key. *)
Theorem New_client_holds_key_and_last_options :
  forall (key : string) (opts : list gemini.Option) (c : gemini.Client),
    snd (gemini.New key opts) = inr c ->
    gemini.apiKey c = key
    /\ spec.all_whitespace key = false
    /\ gemini.model c = shape.last_model opts gemini.defaultModel
    /\ gemini.baseURL c = spec.last_base_URL opts gemini.defaultBaseURL
    /\ strings.HasPrefix (gemini.baseURL c) "https://" = true
    /\ gemini.doer c
       = shape.last_doer opts (gemini.http_Client gemini.defaultTimeout).
Proof.
  intros key opts c Made.
  destruct (New_made key opts c Made) as [B [U E]].
  split; [|split; [exact B|]].
  - rewrite E. apply options_keep_apiKey.
  - split; [|split; [|split; [exact U|]]]; rewrite E.
    + apply options_set_model.
    + apply options_set_baseURL.
    + apply options_set_doer.
Qed.

Lemma New_with_options_of_the_test :
  let c := {| gemini.apiKey := "key";
              gemini.model := "custom-model";
              gemini.baseURL := "https://example.com/api";
              gemini.doer := sample.answers 200 "{}" |} in
  gemini.apiKey c = "key"
  /\ spec.all_whitespace "key" = false
  /\ gemini.model c
     = shape.last_model [gemini.WithModel "first-model";
                         gemini.WithModel "custom-model";
                         gemini.WithDoer (sample.answers 200 "{}");
                         gemini.WithBaseURL "https://example.com/api"]
                        gemini.defaultModel
  /\ gemini.baseURL c
     = spec.last_base_URL [gemini.WithModel "first-model";
                           gemini.WithModel "custom-model";
                           gemini.WithDoer (sample.answers 200 "{}");
                           gemini.WithBaseURL "https://example.com/api"]
                          gemini.defaultBaseURL
  /\ strings.HasPrefix (gemini.baseURL c) "https://" = true
  /\ gemini.doer c
     = shape.last_doer [gemini.WithModel "first-model";
                        gemini.WithModel "custom-model";
                        gemini.WithDoer (sample.answers 200 "{}");
                        gemini.WithBaseURL "https://example.com/api"]
                       (gemini.http_Client gemini.defaultTimeout).
Proof.
  cbv zeta.
  apply (New_client_holds_key_and_last_options
           "key"
           [gemini.WithModel "first-model"; gemini.WithModel "custom-model";
            gemini.WithDoer (sample.answers 200 "{}");
            gemini.WithBaseURL "https://example.com/api"]).
  reflexivity.
Defined.

Lemma resolve_from (opts : list gemini.GenerateOption) (g : gemini.generateConfig) :
  let r := fold_left (fun g o => gemini.apply_GenerateOption o g) opts g in
  gemini.maxTokens r = shape.last_max_tokens opts (gemini.maxTokens g)
  /\ gemini.temperature r = shape.last_temperature opts (gemini.temperature g)
  /\ gemini.googleSearch r = gemini.googleSearch g || existsb shape.asks_search opts.
Proof.
  revert g. induction opts as [|o opts IH]; intros g; cbn [fold_left].
  - cbn. rewrite orb_false_r. repeat split.
  - cbv zeta in IH |- *.
    destruct (IH (gemini.apply_GenerateOption o g)) as [N [T S]].
    rewrite N, T, S.
    destruct o; cbn; repeat split; destruct (gemini.googleSearch g); reflexivity.
Qed.

(** X2: The parameters a call resolves to: the max tokens and the temperature
    of the last option that sets them, 32000 and 1.0 where none does; the
    search tool is enabled exactly when some option enables it, and no option
    disables it again. *)
Theorem resolve_takes_the_last_of_each_option :
  forall opts : list gemini.GenerateOption,
    gemini.maxTokens (gemini.resolve opts) = shape.last_max_tokens opts 32000
    /\ gemini.temperature (gemini.resolve opts)
       = shape.last_temperature opts 1%float
    /\ gemini.googleSearch (gemini.resolve opts)
       = existsb shape.asks_search opts.
Proof.
  intros opts. exact (resolve_from opts _).
Qed.

Example resolve_later_option_wins :
  gemini.resolve [gemini.WithMaxTokens 1024; gemini.WithGoogleSearch;
                  gemini.WithTemperature 0.5%float; gemini.WithMaxTokens 8192]
  = {| gemini.maxTokens := 8192; gemini.temperature := 0.5%float;
       gemini.googleSearch := true |}.
Proof. reflexivity. Qed.

(** ** The request on the wire *)

(** What it takes for the executor to be invoked, and with what. *)
Lemma Generate_sent (P : gemini.Platform) (c : gemini.Client)
      (prompt : string) (opts : list gemini.GenerateOption)
      (req : http.Request) :
  In (gemini.doer_Do req) (fst (gemini.Generate P c prompt opts)) ->
  exists body,
    gemini.Marshal (gemini.FormatFloat P)
                   (spec.request_of (gemini.resolve opts) prompt) = inr body
    /\ req = spec.post c body
    /\ (gemini.maxTokens (gemini.resolve opts) <=? 0) = false
    /\ PrimFloat.ltb (gemini.temperature (gemini.resolve opts)) 0%float = false
    /\ gemini.NewRequest_error P "POST" (http.URL req) = None.
Proof.
  rewrite Generate_round_trip. unfold spec.round_trip. cbv zeta.
  destruct (gemini.maxTokens (gemini.resolve opts) <=? 0); [simpl; tauto|].
  destruct (PrimFloat.ltb _ _); [simpl; tauto|].
  destruct (gemini.Marshal _ _) as [cause|body];
    [simpl; intuition discriminate|].
  destruct (gemini.NewRequest_error P "POST" _) as [cause|] eqn:U;
    [simpl; intuition discriminate|].
  assert (Sent : forall calls,
            In (gemini.doer_Do req)
               (gemini.json_Marshal (spec.request_of (gemini.resolve opts) prompt)
                  :: gemini.doer_Do (spec.post c body) :: calls) ->
            ~ In (gemini.doer_Do req) calls ->
            req = spec.post c body).
  { intros calls [H|[H|H]] No; [discriminate | now injection H | contradiction]. }
  intros H. exists body.
  assert (E : req = spec.post c body).
  { destruct (gemini.Do P (gemini.doer c) (spec.post c body)) as [cause|resp].
    - apply (Sent [] H). intros [].
    - apply (Sent _ H). apply received_makes_no_request. }
  subst req. repeat split; assumption.
Qed.

(** X3: Whenever the executor is invoked, it is handed a POST to
    [<baseURL>/<model>:generateContent], with the two headers
    [Content-Type: application/json] and [x-goog-api-key: <the key of the
    client>], a body that is the serialized request, and a [GetBody] that
    replays that very body. *)
Theorem request_is_a_POST_with_key_and_replayable_body :
  forall (P : gemini.Platform) (c : gemini.Client) (prompt : string)
         (opts : list gemini.GenerateOption) (req : http.Request),
    In (gemini.doer_Do req) (fst (gemini.Generate P c prompt opts)) ->
    http.Method req = "POST"
    /\ http.URL req
       = gemini.baseURL c ++ "/" ++ gemini.model c ++ ":generateContent"
    /\ http.Header req = [("Content-Type", "application/json");
                          ("x-goog-api-key", gemini.apiKey c)]
    /\ http.Header_Get "Content-Type" req = "application/json"
    /\ http.Header_Get "x-goog-api-key" req = gemini.apiKey c
    /\ gemini.Marshal (gemini.FormatFloat P)
                      (spec.request_of (gemini.resolve opts) prompt)
       = inr (http.Body req)
    /\ http.GetBody req = Some (http.Body req).
Proof.
  intros P c prompt opts req H.
  destruct (Generate_sent P c prompt opts req H) as [body [M [-> _]]].
  repeat split. exact M.
Qed.

Lemma request_of_the_test_is_a_POST :
  let c := {| gemini.apiKey := "my-api-key";
              gemini.model := "test-model";
              gemini.baseURL := "https://api.test";
              gemini.doer := sample.answers 200 "{}" |} in
  let req := spec.post c (sample.body_of "hello" [gemini.WithGoogleSearch]) in
  http.Method req = "POST"
  /\ http.URL req = "https://api.test/test-model:generateContent"
  /\ http.Header req = [("Content-Type", "application/json");
                        ("x-goog-api-key", "my-api-key")]
  /\ http.Header_Get "Content-Type" req = "application/json"
  /\ http.Header_Get "x-goog-api-key" req = "my-api-key"
  /\ gemini.Marshal sample.format_b
       (spec.request_of (gemini.resolve [gemini.WithGoogleSearch]) "hello")
     = inr (http.Body req)
  /\ http.GetBody req = Some (http.Body req).
Proof.
  cbv zeta.
  apply (request_is_a_POST_with_key_and_replayable_body
           sample.platform
           {| gemini.apiKey := "my-api-key";
              gemini.model := "test-model";
              gemini.baseURL := "https://api.test";
              gemini.doer := sample.answers 200 "{}" |}
           "hello" [gemini.WithGoogleSearch]).
  rewrite Generate_round_trip. right. left. reflexivity.
Defined.

Example empty_model_leaves_an_empty_segment :
  http.URL (spec.post {| gemini.apiKey := "key"; gemini.model := "";
                         gemini.baseURL := gemini.defaultBaseURL;
                         gemini.doer := sample.answers 200 "{}" |}
                      json.JNull)
  = "https://generativelanguage.googleapis.com/v1beta/models/:generateContent".
Proof. reflexivity. Qed.

Lemma prefix_append_more (p s t : string) :
  String.prefix p s = true -> String.prefix p (s ++ t) = true.
Proof.
  revert s. induction p as [|a p IH]; intros s H.
  - now destruct (s ++ t).
  - destruct s as [|b s]; [discriminate H|].
    cbn [append String.prefix] in *.
    destruct (ascii_dec a b); [now apply IH | discriminate H].
Qed.

(** X4: A client that [New] has returned sends its requests to an https URL
    only, and with the key that was given to [New]. *)
Theorem constructed_client_sends_to_https_with_its_key :
  forall (P : gemini.Platform) (key : string) (copts : list gemini.Option)
         (c : gemini.Client) (prompt : string)
         (gopts : list gemini.GenerateOption) (req : http.Request),
    snd (gemini.New key copts) = inr c ->
    In (gemini.doer_Do req) (fst (gemini.Generate P c prompt gopts)) ->
    strings.HasPrefix (http.URL req) "https://" = true
    /\ http.Header_Get "x-goog-api-key" req = key
    /\ spec.all_whitespace (http.Header_Get "x-goog-api-key" req) = false.
Proof.
  intros P key copts c prompt gopts req Made Sent.
  destruct (New_made key copts c Made) as [B [U E]].
  destruct (Generate_sent P c prompt gopts req Sent) as [body [_ [-> _]]].
  assert (K : gemini.apiKey c = key)
    by (rewrite E; apply options_keep_apiKey).
  change (http.Header_Get "x-goog-api-key" (spec.post c body))
    with (gemini.apiKey c).
  rewrite K. split; [|split; [reflexivity | exact B]].
  unfold strings.HasPrefix in *. cbn [http.URL spec.post].
  now apply prefix_append_more.
Qed.

Lemma client_of_the_test_sends_to_https_with_its_key :
  let req := spec.post {| gemini.apiKey := "my-api-key";
                          gemini.model := "test-model";
                          gemini.baseURL := "https://api.test";
                          gemini.doer := sample.answers 200 "{}" |}
                       (sample.body_of "hello" []) in
  strings.HasPrefix (http.URL req) "https://" = true
  /\ http.Header_Get "x-goog-api-key" req = "my-api-key"
  /\ spec.all_whitespace (http.Header_Get "x-goog-api-key" req) = false.
Proof.
  cbv zeta.
  apply (constructed_client_sends_to_https_with_its_key
           sample.platform "my-api-key"
           [gemini.WithDoer (sample.answers 200 "{}");
            gemini.WithModel "test-model";
            gemini.WithBaseURL "https://api.test"]
           {| gemini.apiKey := "my-api-key";
              gemini.model := "test-model";
              gemini.baseURL := "https://api.test";
              gemini.doer := sample.answers 200 "{}" |}
           "hello" []).
  - reflexivity.
  - rewrite Generate_round_trip. right. left. reflexivity.
Defined.

(** ** The calls of one run *)

(** Every way a run can go. *)
Ltac every_run P c prompt opts :=
  rewrite ?Generate_round_trip; unfold spec.round_trip; cbv zeta;
  destruct (gemini.maxTokens (gemini.resolve opts) <=? 0) eqn:?Tokens;
  [|destruct (PrimFloat.ltb (gemini.temperature (gemini.resolve opts)) 0%float)
      eqn:?Temp;
    [|destruct (gemini.Marshal (gemini.FormatFloat P)
                  (spec.request_of (gemini.resolve opts) prompt))
        as [?cause|?body] eqn:?Doc;
      [|destruct (gemini.NewRequest_error P "POST" (http.URL (spec.post c body)))
          as [?cause|] eqn:?Url;
        [|destruct (gemini.Do P (gemini.doer c) (spec.post c body))
            as [?cause|?resp] eqn:?Answer;
          [|unfold spec.received; cbv zeta;
            destruct (gemini.maxResponseBytes
                      <? len (http.content (http.Response_Body resp))) eqn:?Big;
            [|destruct (http.failure (http.Response_Body resp))
                as [?cause|] eqn:?Read;
              [|destruct (400 <=? http.StatusCode resp) eqn:?Status;
                [|destruct (gemini.Unmarshal_Response P
                              (http.content (http.Response_Body resp)))
                    as [?cause|?r] eqn:?Decoded]]]]]]]];
  cbn [fst snd].

(** X5: A call of [Generate] makes its calls in one order and each at most once:
    serialize, invoke the executor, read the body, decode, close the body;
    it stops after any of them, and never invokes the executor a second
    time. *)
Theorem Generate_calls_in_order_and_executor_at_most_once :
  forall (P : gemini.Platform) (c : gemini.Client) (prompt : string)
         (opts : list gemini.GenerateOption),
    shape.calls_of_one_run (fst (gemini.Generate P c prompt opts))
    /\ (List.length (filter spec.is_Do (fst (gemini.Generate P c prompt opts)))
        <= 1)%nat.
Proof.
  intros P c prompt opts. every_run P c prompt opts;
    (split; [constructor | simpl; lia]).
Qed.

(** X6: The body of a response is closed whenever the executor has returned a
    response, and only then; closing it is the last call of the run, it
    happens once, and the body was read before. *)
Theorem response_body_is_always_closed :
  forall (P : gemini.Platform) (c : gemini.Client) (prompt : string)
         (opts : list gemini.GenerateOption),
    (In gemini.body_Close (fst (gemini.Generate P c prompt opts))
     <-> exists req resp,
          In (gemini.doer_Do req) (fst (gemini.Generate P c prompt opts))
          /\ gemini.Do P (gemini.doer c) req = http.Responded resp)
    /\ (In gemini.body_Close (fst (gemini.Generate P c prompt opts)) ->
        exists before n,
          fst (gemini.Generate P c prompt opts) = (before ++ [gemini.body_Close])%list
          /\ ~ In gemini.body_Close before
          /\ In (gemini.body_Read n) before).
Proof.
  intros P c prompt opts. split.
  - split.
    + every_run P c prompt opts; intros H;
        try (simpl in H; intuition discriminate);
        exists (spec.post c body), resp; (split; [right; left; reflexivity|]);
        exact Answer.
    + intros [req [resp [Sent Answer]]].
      rewrite (Generate_after_response P c prompt opts req resp Sent Answer).
      unfold spec.received. cbv zeta.
      destruct (gemini.maxResponseBytes <? _);
        [|destruct (http.failure _); [|destruct (400 <=? _)]];
        simpl; tauto.
  - every_run P c prompt opts; intros H;
      try (simpl in H; intuition discriminate).
    + exists [gemini.json_Marshal (spec.request_of (gemini.resolve opts) prompt);
              gemini.doer_Do (spec.post c body);
              gemini.body_Read (gemini.maxResponseBytes + 1)],
             (gemini.maxResponseBytes + 1).
      split; [reflexivity|]. split; simpl; intuition discriminate.
    + exists [gemini.json_Marshal (spec.request_of (gemini.resolve opts) prompt);
              gemini.doer_Do (spec.post c body);
              gemini.body_Read (len (http.content (http.Response_Body resp)))],
             (len (http.content (http.Response_Body resp))).
      split; [reflexivity|]. split; simpl; intuition discriminate.
    + exists [gemini.json_Marshal (spec.request_of (gemini.resolve opts) prompt);
              gemini.doer_Do (spec.post c body);
              gemini.body_Read (len (http.content (http.Response_Body resp)))],
             (len (http.content (http.Response_Body resp))).
      split; [reflexivity|]. split; simpl; intuition discriminate.
    + exists [gemini.json_Marshal (spec.request_of (gemini.resolve opts) prompt);
              gemini.doer_Do (spec.post c body);
              gemini.body_Read (len (http.content (http.Response_Body resp)));
              gemini.json_Unmarshal (http.content (http.Response_Body resp))],
             (len (http.content (http.Response_Body resp))).
      split; [reflexivity|]. split; simpl; intuition discriminate.
    + exists [gemini.json_Marshal (spec.request_of (gemini.resolve opts) prompt);
              gemini.doer_Do (spec.post c body);
              gemini.body_Read (len (http.content (http.Response_Body resp)));
              gemini.json_Unmarshal (http.content (http.Response_Body resp))],
             (len (http.content (http.Response_Body resp))).
      split; [reflexivity|]. split; simpl; intuition discriminate.
Qed.

(** ** Failures and success *)

(** X7: When the executor fails, [Generate] fails with the error of the
    executor wrapped as [gemini: do request: <cause>]; nothing is read,
    decoded or closed. *)
Theorem executor_failure_is_wrapped :
  forall (P : gemini.Platform) (c : gemini.Client) (prompt : string)
         (opts : list gemini.GenerateOption)
         (req : http.Request) (cause : string),
    In (gemini.doer_Do req) (fst (gemini.Generate P c prompt opts)) ->
    gemini.Do P (gemini.doer c) req = http.Failed cause ->
    gemini.Generate P c prompt opts
    = ([gemini.json_Marshal (spec.request_of (gemini.resolve opts) prompt);
        gemini.doer_Do req],
       inl (gemini.do_request cause))
    /\ gemini.Error P (gemini.do_request cause) = "gemini: do request: " ++ cause
    /\ strings.Contains (gemini.Error P (gemini.do_request cause)) cause = true
    /\ gemini.kind (gemini.do_request cause) = gemini.TransportError.
Proof.
  intros P c prompt opts req cause Sent Failed.
  destruct (Generate_sent P c prompt opts req Sent)
    as [body [Doc [-> [Tokens [Temp Url]]]]].
  split; [|split; [reflexivity | split; [apply Contains_suffix | reflexivity]]].
  rewrite Generate_round_trip. unfold spec.round_trip. cbv zeta.
  rewrite Tokens, Temp, Doc, Url, Failed. reflexivity.
Qed.

Lemma unexpected_EOF_of_the_executor_is_wrapped :
  gemini.Generate sample.platform
    (sample.client (gemini.Doer_of (fun _ => http.Failed "unexpected EOF")))
    "test" []
  = ([gemini.json_Marshal (spec.request_of (gemini.resolve []) "test");
      gemini.doer_Do
        (spec.post (sample.client
                      (gemini.Doer_of (fun _ => http.Failed "unexpected EOF")))
                   (sample.body_of "test" []))],
     inl (gemini.do_request "unexpected EOF"))
  /\ gemini.Error sample.platform (gemini.do_request "unexpected EOF")
     = "gemini: do request: " ++ "unexpected EOF"
  /\ strings.Contains
       (gemini.Error sample.platform (gemini.do_request "unexpected EOF"))
       "unexpected EOF" = true
  /\ gemini.kind (gemini.do_request "unexpected EOF") = gemini.TransportError.
Proof.
  apply (executor_failure_is_wrapped
           sample.platform
           (sample.client (gemini.Doer_of (fun _ => http.Failed "unexpected EOF")))
           "test" []).
  - rewrite Generate_round_trip. right. left. reflexivity.
  - reflexivity.
Defined.

(** X8: [Generate] returns a response exactly when the executor was invoked and
    has answered with a status below 400 and a body that could be read to its
    end, is not larger than 10 MiB, and decodes; the response is then what
    the decoder makes of that body. *)
Theorem Generate_succeeds_exactly_on_a_decodable_response_below_400 :
  forall (P : gemini.Platform) (c : gemini.Client) (prompt : string)
         (opts : list gemini.GenerateOption) (r : gemini.Response),
    snd (gemini.Generate P c prompt opts) = inr r
    <-> exists req resp,
         In (gemini.doer_Do req) (fst (gemini.Generate P c prompt opts))
         /\ gemini.Do P (gemini.doer c) req = http.Responded resp
         /\ http.StatusCode resp < 400
         /\ len (http.content (http.Response_Body resp)) <= gemini.maxResponseBytes
         /\ http.failure (http.Response_Body resp) = None
         /\ gemini.Unmarshal_Response P (http.content (http.Response_Body resp))
            = inr r.
Proof.
  intros P c prompt opts r. split.
  - every_run P c prompt opts; intros H; try discriminate H.
    injection H as <-.
    exists (spec.post c body), resp.
    apply Z.ltb_ge in Big. apply Z.leb_gt in Status.
    repeat split; try assumption. right. left. reflexivity.
  - intros [req [resp [Sent [Answer [Status [Small [Read Decoded]]]]]]].
    rewrite (Generate_after_response P c prompt opts req resp Sent Answer).
    unfold spec.received. cbv zeta.
    replace (gemini.maxResponseBytes <? _) with false
      by (symmetry; apply Z.ltb_ge; exact Small).
    rewrite Read.
    replace (400 <=? http.StatusCode resp) with false
      by (symmetry; apply Z.leb_gt; exact Status).
    cbn [snd]. rewrite Decoded. reflexivity.
Qed.

(** X9: No run reads more than 10 MiB and one byte of a body, and no run hands
    the decoder a body of more than 10 MiB, or the body of a response whose
    status is 400 or more. *)
Theorem reads_are_bounded_and_errors_are_not_decoded :
  forall (P : gemini.Platform) (c : gemini.Client) (prompt : string)
         (opts : list gemini.GenerateOption),
    (forall n, In (gemini.body_Read n) (fst (gemini.Generate P c prompt opts)) ->
               0 <= n <= gemini.maxResponseBytes + 1)
    /\ (forall data,
           In (gemini.json_Unmarshal data) (fst (gemini.Generate P c prompt opts)) ->
           len data <= gemini.maxResponseBytes
           /\ exists req resp,
               In (gemini.doer_Do req) (fst (gemini.Generate P c prompt opts))
               /\ gemini.Do P (gemini.doer c) req = http.Responded resp
               /\ data = http.content (http.Response_Body resp)
               /\ http.StatusCode resp < 400).
Proof.
  intros P c prompt opts. pose proof maxResponseBytes_positive as Pos. split.
  - intros n. every_run P c prompt opts; intros H; simpl in H;
      repeat (destruct H as [H|H]; try discriminate H); try contradiction;
      injection H as <-;
      try apply Z.ltb_ge in Big;
      pose proof (len_nonneg (http.content (http.Response_Body resp)));
      unfold gemini.maxResponseBytes in *; lia.
  - intros data. every_run P c prompt opts; intros H; simpl in H;
      repeat (destruct H as [H|H]; try discriminate H); try contradiction;
      injection H as <-;
      apply Z.ltb_ge in Big; apply Z.leb_gt in Status;
      (split; [exact Big|]);
      exists (spec.post c body), resp;
      (split; [right; left; reflexivity|]);
      repeat split; assumption.
Qed.

Lemma excerpt_bounded (body : string) :
  len (spec.excerpt body) <= gemini.maxErrorBodyBytes + 14.
Proof.
  destruct (Z.ltb_spec gemini.maxErrorBodyBytes (len body)) as [L|S].
  - destruct (excerpt_long body L) as [_ ->]. lia.
  - rewrite (excerpt_short body S). lia.
Qed.

(** X10: Whatever the peer sends, the message of an HTTP status error holds at
    most 1038 bytes of it after the status: the error text is bounded, and
    the status it names is that of the response, which is 400 or more. *)
Theorem HTTP_status_error_is_bounded :
  forall (P : gemini.Platform) (c : gemini.Client) (prompt : string)
         (opts : list gemini.GenerateOption) (code : Z) (msg : string),
    snd (gemini.Generate P c prompt opts) = inl (gemini.HTTP_status code msg) ->
    400 <= code
    /\ len msg <= 1024 + 14
    /\ len (gemini.Error P (gemini.HTTP_status code msg))
       <= 15 + len (strconv.Itoa code) + 1024 + 14
    /\ exists req resp,
        In (gemini.doer_Do req) (fst (gemini.Generate P c prompt opts))
        /\ gemini.Do P (gemini.doer c) req = http.Responded resp
        /\ code = http.StatusCode resp
        /\ msg = spec.excerpt (http.content (http.Response_Body resp)).
Proof.
  intros P c prompt opts code msg.
  every_run P c prompt opts; intros H; try discriminate H.
  injection H as <- <-. apply Z.leb_le in Status.
  pose proof (excerpt_bounded (http.content (http.Response_Body resp))) as B.
  change gemini.maxErrorBodyBytes with 1024 in B.
  split; [exact Status|]. split; [exact B|]. split.
  - cbn [gemini.Error]. rewrite !len_append.
    change (len "gemini: HTTP ") with 13. change (len ": ") with 2. lia.
  - exists (spec.post c body), resp.
    split; [right; left; reflexivity|]. repeat split. exact Answer.
Qed.

Lemma rate_limit_error_is_bounded :
  400 <= 429
  /\ len "rate limited" <= 1024 + 14
  /\ len (gemini.Error sample.platform (gemini.HTTP_status 429 "rate limited"))
     <= 15 + len (strconv.Itoa 429) + 1024 + 14
  /\ exists req resp,
      In (gemini.doer_Do req)
         (fst (gemini.Generate sample.platform
                 (sample.client (sample.answers 429 "rate limited")) "test" []))
      /\ gemini.Do sample.platform
           (gemini.doer (sample.client (sample.answers 429 "rate limited"))) req
         = http.Responded resp
      /\ 429 = http.StatusCode resp
      /\ "rate limited" = spec.excerpt (http.content (http.Response_Body resp)).
Proof.
  apply (HTTP_status_error_is_bounded
           sample.platform (sample.client (sample.answers 429 "rate limited"))
           "test" []).
  reflexivity.
Defined.

Lemma received_is_no_marshal_error (P : gemini.Platform) (resp : http.Response)
      (cause : string) :
  snd (spec.received P resp) <> inl (gemini.marshal_request cause).
Proof.
  unfold spec.received. cbv zeta.
  destruct (gemini.maxResponseBytes <? _);
    [|destruct (http.failure _);
      [|destruct (400 <=? _); [|destruct (gemini.Unmarshal_Response P _)]]];
    discriminate.
Qed.

(** X11: [Generate] fails with a marshal error exactly when the max tokens are
    positive and the temperature is one the check [< 0] lets through and the
    encoder refuses, [NaN] or [+Inf]; the error names the value, and the
    executor is not invoked. A [NaN] temperature is not a validation
    error. *)
Theorem marshal_error_exactly_for_temperature_NaN_or_infinite :
  forall (P : gemini.Platform) (c : gemini.Client) (prompt : string)
         (opts : list gemini.GenerateOption),
    let t := gemini.temperature (gemini.resolve opts) in
    ((exists cause,
         snd (gemini.Generate P c prompt opts) = inl (gemini.marshal_request cause))
     <-> (0 < gemini.maxTokens (gemini.resolve opts)
          /\ shape.passes_but_unsupported t = true))
    /\ (forall cause,
           snd (gemini.Generate P c prompt opts) = inl (gemini.marshal_request cause) ->
           cause = "json: unsupported value: " ++ json.unsupported_text t
           /\ spec.executor_invoked (fst (gemini.Generate P c prompt opts)) = false)
    /\ shape.passes_but_unsupported nan = true
    /\ shape.passes_but_unsupported infinity = true
    /\ shape.passes_but_unsupported neg_infinity = false.
Proof.
  intros P c prompt opts t.
  assert (Doc_fails : forall cause,
    gemini.Marshal (gemini.FormatFloat P)
                   (spec.request_of (gemini.resolve opts) prompt) = inl cause
    <-> json.unsupported t = true
        /\ cause = "json: unsupported value: " ++ json.unsupported_text t).
  { intros cause. rewrite Marshal_request_of.
    unfold gemini.Marshal_GenerationConfig.
    cbn [gemini.MaxOutputTokens gemini.Temperature]. fold t.
    destruct (json.unsupported t).
    - split; [intros [= <-]; split; reflexivity | intros [_ ->]; reflexivity].
    - split; [discriminate | intros [[=] _]]. }
  assert (Later : forall body cause,
    snd (match gemini.NewRequest_error P "POST" (http.URL (spec.post c body)) with
         | Some cause =>
           ([gemini.json_Marshal (spec.request_of (gemini.resolve opts) prompt)],
            inl (gemini.create_request cause))
         | None =>
           match gemini.Do P (gemini.doer c) (spec.post c body) with
           | http.Failed cause =>
             ([gemini.json_Marshal (spec.request_of (gemini.resolve opts) prompt);
               gemini.doer_Do (spec.post c body)],
              inl (gemini.do_request cause))
           | http.Responded resp =>
             (gemini.json_Marshal (spec.request_of (gemini.resolve opts) prompt)
                :: gemini.doer_Do (spec.post c body) :: fst (spec.received P resp),
              snd (spec.received P resp))
           end
         end) <> @inl gemini.error gemini.Response (gemini.marshal_request cause)).
  { intros body cause.
    destruct (gemini.NewRequest_error P "POST" _); [discriminate|].
    destruct (gemini.Do P (gemini.doer c) _); [discriminate|].
    apply received_is_no_marshal_error. }
  unfold shape.passes_but_unsupported.
  rewrite Generate_round_trip. unfold spec.round_trip. cbv zeta. fold t.
  split; [|split; [|repeat split]].
  - destruct (gemini.maxTokens (gemini.resolve opts) <=? 0) eqn:Tokens.
    + apply Z.leb_le in Tokens.
      split; [intros [cause [=]] | intros [L _]; lia].
    + apply Z.leb_gt in Tokens.
      destruct (PrimFloat.ltb t 0) eqn:Temp; cbn [negb andb].
      * split; [intros [cause [=]] | intros [_ [=]]].
      * destruct (gemini.Marshal _ _) as [cause|body] eqn:Doc.
        -- destruct (proj1 (Doc_fails cause) eq_refl) as [U _].
           split; [intros _; split; assumption
                  | intros _; exists cause; reflexivity].
        -- split.
           ++ intros [cause H]. now apply Later in H.
           ++ intros [_ U].
              pose proof (proj2 (Doc_fails _) (conj U eq_refl)) as Bad.
              discriminate Bad.
  - intros cause.
    destruct (gemini.maxTokens (gemini.resolve opts) <=? 0); [discriminate|].
    destruct (PrimFloat.ltb t 0); [discriminate|].
    destruct (gemini.Marshal _ _) as [cause'|body] eqn:Doc.
    + intros [= <-]. destruct (proj1 (Doc_fails cause') eq_refl) as [_ ->].
      split; reflexivity.
    + intros H. now apply Later in H.
Qed.

Example NaN_temperature_is_a_marshal_error :
  gemini.Generate sample.platform (sample.client (sample.answers 200 "{}"))
                  "test" [gemini.WithTemperature nan]
  = ([gemini.json_Marshal
        (spec.request_of (gemini.resolve [gemini.WithTemperature nan]) "test")],
     inl (gemini.marshal_request "json: unsupported value: NaN")).
Proof. reflexivity. Qed.

(** ** The document of a request *)

(** X12: The document handed to the executor has the prompt (coerced to valid
    UTF-8) as the one text of the one content, the max tokens and the
    temperature of the call in [generationConfig], and a [tools] member
    exactly when some option enables the search tool, which then is the one
    tool [googleSearch] without fields. *)
Theorem body_spells_prompt_parameters_and_search_tool :
  forall (P : gemini.Platform) (c : gemini.Client) (prompt : string)
         (opts : list gemini.GenerateOption) (req : http.Request),
    In (gemini.doer_Do req) (fst (gemini.Generate P c prompt opts)) ->
    json.member "contents" (http.Body req)
    = Some (json.JArray
              [json.JObject
                 [("parts",
                   json.JArray
                     [json.JObject
                        [("text", json.JString (json.coerce prompt))]])]])
    /\ (exists g,
          json.member "generationConfig" (http.Body req) = Some g
          /\ json.member "maxOutputTokens" g
             = Some (json.JNumber
                       (strconv.Itoa (shape.last_max_tokens opts 32000)))
          /\ json.member "temperature" g
             = Some (json.JNumber
                       (gemini.FormatFloat P
                          (shape.last_temperature opts 1%float))))
    /\ json.member "tools" (http.Body req)
       = if existsb shape.asks_search opts
         then Some (json.JArray
                      [json.JObject [("googleSearch", json.JObject [])]])
         else None.
Proof.
  intros P c prompt opts req Sent.
  destruct (Generate_sent P c prompt opts req Sent)
    as [body [Doc [-> [Tokens _]]]].
  destruct (resolve_from opts {| gemini.maxTokens := 32000;
                                 gemini.temperature := 1%float;
                                 gemini.googleSearch := false |})
    as [N [T S]].
  cbv zeta in N, T, S. fold (gemini.resolve opts) in N, T, S.
  cbn [gemini.maxTokens gemini.temperature gemini.googleSearch orb] in N, T, S.
  rewrite <- N, <- T, <- S.
  rewrite Marshal_request_of in Doc.
  unfold gemini.Marshal_GenerationConfig in Doc.
  cbn [gemini.MaxOutputTokens gemini.Temperature] in Doc.
  destruct (json.unsupported _); [discriminate Doc|].
  assert (Z0 : (gemini.maxTokens (gemini.resolve opts) =? 0) = false)
    by (apply Z.eqb_neq; apply Z.leb_gt in Tokens; lia).
  rewrite Z0 in Doc. injection Doc as <-.
  cbn [spec.post http.Body].
  split; [reflexivity|]. split.
  - eexists. split; [reflexivity|]. split; reflexivity.
  - destruct (gemini.googleSearch (gemini.resolve opts)); reflexivity.
Qed.

Lemma body_of_the_test_spells_the_search_tool :
  let req := spec.post (sample.client (sample.answers 200 "{}"))
                       (sample.body_of "hello"
                          [gemini.WithMaxTokens 1024; gemini.WithGoogleSearch]) in
  json.member "contents" (http.Body req)
  = Some (json.JArray
            [json.JObject
               [("parts",
                 json.JArray
                   [json.JObject
                      [("text", json.JString (json.coerce "hello"))]])]])
  /\ (exists g,
        json.member "generationConfig" (http.Body req) = Some g
        /\ json.member "maxOutputTokens" g
           = Some (json.JNumber
                     (strconv.Itoa
                        (shape.last_max_tokens
                           [gemini.WithMaxTokens 1024; gemini.WithGoogleSearch]
                           32000)))
        /\ json.member "temperature" g
           = Some (json.JNumber
                     (gemini.FormatFloat sample.platform
                        (shape.last_temperature
                           [gemini.WithMaxTokens 1024; gemini.WithGoogleSearch]
                           1%float))))
  /\ json.member "tools" (http.Body req)
     = if existsb shape.asks_search
                  [gemini.WithMaxTokens 1024; gemini.WithGoogleSearch]
       then Some (json.JArray
                    [json.JObject [("googleSearch", json.JObject [])]])
       else None.
Proof.
  cbv zeta.
  apply (body_spells_prompt_parameters_and_search_tool
           sample.platform (sample.client (sample.answers 200 "{}")) "hello"
           [gemini.WithMaxTokens 1024; gemini.WithGoogleSearch]).
  rewrite Generate_round_trip. right. left. reflexivity.
Defined.

(** X13: In the document of a [GenerationConfig], [maxOutputTokens] is left out
    exactly when it is 0 and [temperature] exactly when the pointer is nil:
    a temperature that is set is written, 0.0 too, and the zero value is the
    empty object. *)
Theorem GenerationConfig_omits_exactly_what_is_unset :
  forall (f : float -> string) (g : gemini.GenerationConfig) (doc : json.JSON),
    gemini.Marshal_GenerationConfig f g = inr doc ->
    (json.member "maxOutputTokens" doc = None <-> gemini.MaxOutputTokens g = 0)
    /\ (json.member "temperature" doc = None <-> gemini.Temperature g = None)
    /\ (forall t, gemini.Temperature g = Some t ->
                  json.member "temperature" doc = Some (json.JNumber (f t)))
    /\ (gemini.MaxOutputTokens g <> 0 ->
        json.member "maxOutputTokens" doc
        = Some (json.JNumber (strconv.Itoa (gemini.MaxOutputTokens g))))
    /\ (doc = json.JObject []
        <-> gemini.MaxOutputTokens g = 0 /\ gemini.Temperature g = None).
Proof.
  intros f [n temp] doc. unfold gemini.Marshal_GenerationConfig.
  cbn [gemini.MaxOutputTokens gemini.Temperature].
  destruct temp as [t|]; [destruct (json.unsupported t); [discriminate|]|];
    intros [= <-]; destruct (Z.eqb_spec n 0) as [->|N]; cbn;
    repeat split; try discriminate; try congruence; try tauto;
    try (intros [? ?]; congruence); try (now intros ? [= ->]).
Qed.

Lemma GenerationConfig_of_zero_temperature_keeps_it :
  (json.member "maxOutputTokens"
     (json.JObject [("temperature", json.JNumber (sample.format_b 0%float))])
   = None <-> 0 = 0)
  /\ (json.member "temperature"
        (json.JObject [("temperature", json.JNumber (sample.format_b 0%float))])
      = None <-> Some 0%float = None)
  /\ (forall t, Some 0%float = Some t ->
                json.member "temperature"
                  (json.JObject
                     [("temperature", json.JNumber (sample.format_b 0%float))])
                = Some (json.JNumber (sample.format_b t)))
  /\ (0 <> 0 ->
      json.member "maxOutputTokens"
        (json.JObject [("temperature", json.JNumber (sample.format_b 0%float))])
      = Some (json.JNumber (strconv.Itoa 0)))
  /\ (json.JObject [("temperature", json.JNumber (sample.format_b 0%float))]
      = json.JObject []
      <-> 0 = 0 /\ Some 0%float = None).
Proof.
  apply (GenerationConfig_omits_exactly_what_is_unset
           sample.format_b
           {| gemini.MaxOutputTokens := 0; gemini.Temperature := Some 0%float |}).
  reflexivity.
Defined.

(** X14: The body a retry layer obtains from [GetBody] decodes to the request of
    the call: for a prompt that is valid UTF-8, it gives back the prompt and
    the parameters, as long as [strconv] reads back the float literal it
    writes. *)
Theorem replayed_body_decodes_to_the_request :
  forall (P : gemini.Platform) (ParseFloat : string -> option float)
         (c : gemini.Client) (prompt : string)
         (opts : list gemini.GenerateOption) (req : http.Request),
    (forall f, json.unsupported f = false ->
               ParseFloat (gemini.FormatFloat P f) = Some f) ->
    In (gemini.doer_Do req) (fst (gemini.Generate P c prompt opts)) ->
    utf8.ValidString prompt = true ->
    spec.int64 (gemini.maxTokens (gemini.resolve opts)) ->
    exists doc r,
      http.GetBody req = Some doc
      /\ gemini.Unmarshal ParseFloat doc = Some r
      /\ gemini.Contents r
         = [ {| gemini.Content_Parts := [ {| gemini.Part_Text := prompt |} ] |} ]
      /\ gemini.MaxOutputTokens (gemini.Request_GenerationConfig r)
         = gemini.maxTokens (gemini.resolve opts)
      /\ gemini.Temperature (gemini.Request_GenerationConfig r)
         = Some (gemini.temperature (gemini.resolve opts)).
Proof.
  intros P ParseFloat c prompt opts req Back Sent Valid Range.
  destruct (Generate_sent P c prompt opts req Sent) as [body [Doc [-> _]]].
  assert (Finite : json.unsupported (gemini.temperature (gemini.resolve opts))
                   = false).
  { rewrite Marshal_request_of in Doc.
    unfold gemini.Marshal_GenerationConfig in Doc.
    cbn [gemini.MaxOutputTokens gemini.Temperature] in Doc.
    destruct (json.unsupported _); [discriminate Doc | reflexivity]. }
  destruct (Request_round_trip (gemini.FormatFloat P) ParseFloat Back
              (spec.request_of (gemini.resolve opts) prompt))
    as [doc [Doc' Decoded]].
  { split; [exact Range|]. split.
    - repeat constructor. exact Valid.
    - intros t [= <-]. exact Finite. }
  rewrite Doc in Doc'. injection Doc' as <-.
  exists body, (spec.request_of (gemini.resolve opts) prompt).
  repeat split. exact Decoded.
Qed.

Lemma replayed_body_of_the_test_decodes_to_the_prompt :
  exists doc r,
    http.GetBody (spec.post (sample.client (sample.answers 200 "{}"))
                            (sample.body_of "test" []))
    = Some doc
    /\ gemini.Unmarshal sample.parse_b doc = Some r
    /\ gemini.Contents r
       = [ {| gemini.Content_Parts := [ {| gemini.Part_Text := "test" |} ] |} ]
    /\ gemini.MaxOutputTokens (gemini.Request_GenerationConfig r)
       = gemini.maxTokens (gemini.resolve [])
    /\ gemini.Temperature (gemini.Request_GenerationConfig r)
       = Some (gemini.temperature (gemini.resolve [])).
Proof.
  apply (replayed_body_decodes_to_the_request
           sample.platform sample.parse_b
           (sample.client (sample.answers 200 "{}")) "test" []).
  - exact parse_b_format_b.
  - rewrite Generate_round_trip. right. left. reflexivity.
  - reflexivity.
  - split; [vm_compute; discriminate | reflexivity].
Defined.

(** ** The two revisions of the accessor *)

(** X15: What the accessor of the earlier revision returns, the text of the
    first part of the first candidate, is the beginning of what [Text]
    returns; the two differ exactly when a later part of that candidate has
    text. *)
Theorem Text_begins_with_the_first_part :
  forall r : gemini.Response,
    String.prefix (gemini.Text_first_part r) (gemini.Text r) = true
    /\ (gemini.Text_first_part r = gemini.Text r
        <-> match gemini.Candidates r with
            | [] => True
            | c :: _ =>
              join (map gemini.ResponsePart_Text
                        (tl (gemini.ResponseContent_Parts
                               (gemini.Candidate_Content c)))) = ""
            end).
Proof.
  intros [[|c later] usage]; unfold gemini.Text_first_part, gemini.Text;
    cbn [gemini.Candidates].
  - split; [reflexivity | tauto].
  - destruct (gemini.ResponseContent_Parts (gemini.Candidate_Content c))
      as [|p [|q parts]]; cbn [tl map join].
    + split; [reflexivity | tauto].
    + split; [|tauto]. rewrite <- (append_nil_r (gemini.ResponsePart_Text p)) at 2.
      apply prefix_append.
    + rewrite Builder_writes. cbn [map join append].
      split; [apply prefix_append|].
      split.
      * intros E.
        rewrite <- (append_nil_r (gemini.ResponsePart_Text p)) in E at 1.
        revert E. generalize (gemini.ResponsePart_Text q
                              ++ join (map gemini.ResponsePart_Text parts)).
        induction (gemini.ResponsePart_Text p) as [|a s IH]; intros rest E.
        -- now symmetry.
        -- injection E as E. now apply IH.
      * intros ->. now rewrite append_nil_r.
Qed.

(** * Further properties of the command line *)

(** How [main] goes on once the configuration is loaded and arguments are
    given. *)
Lemma main_with_arguments (P : gemini.Platform) (p : main.Process)
      (cfg : main.Config) :
  main.MustLoad p = inr cfg ->
  (2 <= List.length (main.Args p))%nat ->
  let prompt := strings.Join (tl (main.Args p)) " " in
  let made := gemini.New (main.APIKey cfg) (spec.client_options p cfg) in
  let pre := ([main.logs "info" "starting"; main.logs "debug" "request config";
               main.calls_New (main.APIKey cfg) (spec.client_options p cfg)]
              ++ map main.client_does (fst made))%list in
  main.main P p
  = match snd made with
    | inl err =>
      ((pre ++ [main.to_stderr ("error: " ++ gemini.Error P err ++ main.newline)])%list,
       1)
    | inr client =>
      let generated := gemini.Generate P client prompt (spec.generate_options cfg) in
      let pre := (pre ++ [main.calls_Generate client prompt
                                              (spec.generate_options cfg)]
                  ++ map main.client_does (fst generated))%list in
      match snd generated with
      | inl err =>
        ((pre ++ [main.to_stderr
                    ("error: " ++ gemini.Error P err ++ main.newline)])%list, 1)
      | inr resp =>
        match main.MarshalIndent p resp with
        | inl err =>
          ((pre ++ [main.to_stderr
                      ("error formatting response: " ++ err ++ main.newline)])%list,
           1)
        | inr out => ((pre ++ [main.to_stdout (out ++ main.newline)])%list, 0)
        end
      end
    end.
Proof.
  intros Loaded Some_args. cbv zeta.
  assert (Few : (List.length (main.Args p) <? 2)%nat = false)
    by (apply Nat.ltb_ge; exact Some_args).
  unfold main.main. rewrite Loaded, Few. cbv zeta.
  fold (spec.client_options p cfg).
  replace (if main.GoogleSearch cfg then _ else _)
    with (spec.generate_options cfg)
    by (unfold spec.generate_options; now destruct (main.GoogleSearch cfg)).
  reflexivity.
Qed.

(** In [main] the client is made with the model and the executor of the
    configuration and the default base URL, so [New] fails there for a blank
    API key only. *)
Lemma New_in_main (p : main.Process) (cfg : main.Config) :
  gemini.New (main.APIKey cfg) (spec.client_options p cfg)
  = if spec.all_whitespace (main.APIKey cfg)
    then ([], inl gemini.API_key_empty)
    else ([], inr {| gemini.apiKey := main.APIKey cfg;
                     gemini.model := main.Model cfg;
                     gemini.baseURL := gemini.defaultBaseURL;
                     gemini.doer :=
                       gemini.Doer_of (main.call_New p (main.Timeout cfg)) |}).
Proof.
  unfold gemini.New.
  destruct (String.eqb_spec (strings.TrimSpace (main.APIKey cfg)) "") as [E|E].
  - apply TrimSpace_empty in E. now rewrite E.
  - destruct (spec.all_whitespace (main.APIKey cfg)) eqn:B.
    + apply TrimSpace_empty in B. contradiction.
    + reflexivity.
Qed.

(** X16: With arguments and a loaded configuration, [main] calls [Generate]
    exactly when the API key of the configuration is not blank; with a blank
    key it reports [gemini: API key must not be empty] on standard error and
    exits with status 1 without any call of the client. The client it makes
    otherwise has the key, the model and the retrying executor of the
    configuration. *)
Theorem main_stops_at_a_blank_key_and_calls_Generate_otherwise :
  forall (P : gemini.Platform) (p : main.Process) (cfg : main.Config),
    main.MustLoad p = inr cfg ->
    (2 <= List.length (main.Args p))%nat ->
    (spec.all_whitespace (main.APIKey cfg) = true ->
     main.main P p
     = ([main.logs "info" "starting"; main.logs "debug" "request config";
         main.calls_New (main.APIKey cfg) (spec.client_options p cfg);
         main.to_stderr ("error: gemini: API key must not be empty"
                         ++ main.newline)], 1))
    /\ (spec.all_whitespace (main.APIKey cfg) = false ->
        In (main.calls_Generate
              {| gemini.apiKey := main.APIKey cfg;
                 gemini.model := main.Model cfg;
                 gemini.baseURL := gemini.defaultBaseURL;
                 gemini.doer :=
                   gemini.Doer_of (main.call_New p (main.Timeout cfg)) |}
              (strings.Join (tl (main.Args p)) " ")
              (spec.generate_options cfg))
           (fst (main.main P p))).
Proof.
  intros P p cfg Loaded Some_args.
  rewrite (main_with_arguments P p cfg Loaded Some_args). cbv zeta.
  rewrite New_in_main. split; intros B; rewrite B; cbn [fst snd map app].
  - reflexivity.
  - destruct (snd (gemini.Generate P _ _ _)) as [err|resp];
      [|destruct (main.MarshalIndent p resp)];
      cbn [fst]; right; right; right; left; reflexivity.
Qed.

Lemma main_stops_at_a_key_of_spaces :
  let cfg := {| main.APIKey := "   ";
                main.Model := "gemini-3-pro-preview";
                main.MaxTokens := 32000;
                main.Temperature := 1%float;
                main.Timeout := 30 * 1000000000;
                main.GoogleSearch := true;
                main.LogLevel := "error" |} in
  let p := sample.process ["gemini"; "hello"] (inr cfg) in
  (spec.all_whitespace (main.APIKey cfg) = true ->
   main.main sample.platform p
   = ([main.logs "info" "starting"; main.logs "debug" "request config";
       main.calls_New (main.APIKey cfg) (spec.client_options p cfg);
       main.to_stderr ("error: gemini: API key must not be empty"
                       ++ main.newline)], 1))
  /\ (spec.all_whitespace (main.APIKey cfg) = false ->
      In (main.calls_Generate
            {| gemini.apiKey := main.APIKey cfg;
               gemini.model := main.Model cfg;
               gemini.baseURL := gemini.defaultBaseURL;
               gemini.doer :=
                 gemini.Doer_of (main.call_New p (main.Timeout cfg)) |}
            (strings.Join (tl (main.Args p)) " ")
            (spec.generate_options cfg))
         (fst (main.main sample.platform p))).
Proof.
  cbv zeta.
  apply (main_stops_at_a_blank_key_and_calls_Generate_otherwise
           sample.platform
           (sample.process ["gemini"; "hello"]
              (inr {| main.APIKey := "   ";
                      main.Model := "gemini-3-pro-preview";
                      main.MaxTokens := 32000;
                      main.Temperature := 1%float;
                      main.Timeout := 30 * 1000000000;
                      main.GoogleSearch := true;
                      main.LogLevel := "error" |}))
           _ eq_refl).
  simpl. lia.
Defined.

Lemma client_events_end_nothing (calls : list gemini.Event) :
  forallb (fun a => match shape.exit_status a with None => true | Some _ => false end)
          (map main.client_does calls) = true.
Proof. induction calls as [|e calls IH]; [reflexivity | exact IH]. Qed.

(** X17: [main] ends with the one thing it writes: every run is some actions that
    write nothing, and then one line on standard output with exit status 0,
    or one on standard error with exit status 1, or a panic with status 2.
    When the status is 0 the line is the indented response of a call of
    [Generate] that succeeded, followed by a newline. *)
Theorem main_writes_once_at_its_end_and_exits_accordingly :
  forall (P : gemini.Platform) (p : main.Process),
    exists (before : list main.Action) (last : main.Action),
      fst (main.main P p) = (before ++ [last])%list
      /\ forallb (fun a => match shape.exit_status a with
                           | None => true
                           | Some _ => false
                           end) before = true
      /\ shape.exit_status last = Some (snd (main.main P p))
      /\ (snd (main.main P p) = 0 ->
          exists c prompt opts resp out,
            In (main.calls_Generate c prompt opts) before
            /\ snd (gemini.Generate P c prompt opts) = inr resp
            /\ main.MarshalIndent p resp = inr out
            /\ last = main.to_stdout (out ++ main.newline)).
Proof.
  intros P p. unfold main.main.
  destruct (main.MustLoad p) as [v|cfg].
  { exists [], (main.panics v). repeat split. discriminate. }
  destruct (List.length (main.Args p) <? 2)%nat.
  { exists [main.logs "info" "starting"],
           (main.to_stderr ("usage: gemini <prompt>" ++ main.newline)).
    repeat split. discriminate. }
  cbv zeta.
  set (opts := [gemini.WithModel (main.Model cfg); gemini.WithDoer _]).
  set (genOpts := if main.GoogleSearch cfg then _ else _).
  set (prompt := strings.Join _ _).
  destruct (snd (gemini.New (main.APIKey cfg) opts)) as [err|c].
  { cbn [fst snd]. eexists _, _. split; [reflexivity|].
    cbn [app forallb shape.exit_status andb].
    rewrite client_events_end_nothing.
    repeat split. discriminate. }
  destruct (snd (gemini.Generate P c prompt genOpts)) as [err|resp] eqn:G;
    [|destruct (main.MarshalIndent p resp) as [err|out] eqn:I];
    cbn [fst snd]; eexists _, _; (split; [reflexivity|]);
    cbn [app forallb shape.exit_status andb];
    rewrite forallb_app, client_events_end_nothing;
    cbn [app forallb shape.exit_status andb];
    rewrite ?forallb_app, ?client_events_end_nothing;
    (split; [reflexivity|]); (split; [reflexivity|]); try discriminate.
  intros _. exists c, prompt, genOpts, resp, out.
  split; [|repeat split; assumption].
  right. right. right. apply in_or_app. right. left. reflexivity.
Qed.

(** The options [main] passes to [Generate] resolve to the parameters of its
    configuration. *)
Lemma resolve_in_main (cfg : main.Config) :
  gemini.resolve (spec.generate_options cfg) = shape.configured cfg.
Proof.
  unfold spec.generate_options, shape.configured.
  destruct (main.GoogleSearch cfg); reflexivity.
Qed.

(** What [main] does with a loaded configuration, arguments and a key that
    is not blank, up to the call of [Generate]. *)
Lemma main_with_a_key (P : gemini.Platform) (p : main.Process)
      (cfg : main.Config) :
  main.MustLoad p = inr cfg ->
  (2 <= List.length (main.Args p))%nat ->
  spec.all_whitespace (main.APIKey cfg) = false ->
  let prompt := strings.Join (tl (main.Args p)) " " in
  let c := shape.configured_client p cfg in
  let generated := gemini.Generate P c prompt (spec.generate_options cfg) in
  let pre := ([main.logs "info" "starting"; main.logs "debug" "request config";
               main.calls_New (main.APIKey cfg) (spec.client_options p cfg);
               main.calls_Generate c prompt (spec.generate_options cfg)]
              ++ map main.client_does (fst generated))%list in
  main.main P p
  = match snd generated with
    | inl err =>
      ((pre ++ [main.to_stderr
                  ("error: " ++ gemini.Error P err ++ main.newline)])%list, 1)
    | inr resp =>
      match main.MarshalIndent p resp with
      | inl err =>
        ((pre ++ [main.to_stderr
                    ("error formatting response: " ++ err ++ main.newline)])%list,
         1)
      | inr out => ((pre ++ [main.to_stdout (out ++ main.newline)])%list, 0)
      end
    end.
Proof.
  intros Loaded Some_args Key. cbv zeta.
  rewrite (main_with_arguments P p cfg Loaded Some_args). cbv zeta.
  rewrite New_in_main, Key. cbn [fst snd map app].
  fold (shape.configured_client p cfg). reflexivity.
Qed.

(** X18: The parameters of the configuration are validated by [Generate] as any
    others: with max tokens [<= 0] in the configuration, [main] makes the
    client, calls [Generate], which calls nothing, reports
    [gemini: maxTokens must be positive, got N] on standard error and exits
    with status 1. *)
Theorem main_reports_configured_max_tokens_that_are_not_positive :
  forall (P : gemini.Platform) (p : main.Process) (cfg : main.Config),
    main.MustLoad p = inr cfg ->
    (2 <= List.length (main.Args p))%nat ->
    spec.all_whitespace (main.APIKey cfg) = false ->
    main.MaxTokens cfg <= 0 ->
    main.main P p
    = ([main.logs "info" "starting"; main.logs "debug" "request config";
        main.calls_New (main.APIKey cfg) (spec.client_options p cfg);
        main.calls_Generate (shape.configured_client p cfg)
                            (strings.Join (tl (main.Args p)) " ")
                            (spec.generate_options cfg);
        main.to_stderr ("error: gemini: maxTokens must be positive, got "
                        ++ strconv.Itoa (main.MaxTokens cfg) ++ main.newline)],
       1).
Proof.
  intros P p cfg Loaded Some_args Key Tokens.
  rewrite (main_with_a_key P p cfg Loaded Some_args Key). cbv zeta.
  rewrite Generate_round_trip. unfold spec.round_trip. cbv zeta.
  rewrite resolve_in_main. cbn [shape.configured gemini.maxTokens].
  apply Z.leb_le in Tokens. rewrite Tokens.
  cbn [fst snd map app gemini.Error]. now rewrite append_assoc.
Qed.

Lemma main_reports_max_tokens_of_zero :
  main.main sample.platform
    (sample.process ["gemini"; "hello"]
       (inr {| main.APIKey := "test-key-123";
               main.Model := "gemini-3-pro-preview";
               main.MaxTokens := 0;
               main.Temperature := 1%float;
               main.Timeout := 30 * 1000000000;
               main.GoogleSearch := false;
               main.LogLevel := "error" |}))
  = ([main.logs "info" "starting"; main.logs "debug" "request config";
      main.calls_New "test-key-123"
        [gemini.WithModel "gemini-3-pro-preview";
         gemini.WithDoer (gemini.Doer_of (sample.caller (30 * 1000000000)))];
      main.calls_Generate
        {| gemini.apiKey := "test-key-123";
           gemini.model := "gemini-3-pro-preview";
           gemini.baseURL := gemini.defaultBaseURL;
           gemini.doer := gemini.Doer_of (sample.caller (30 * 1000000000)) |}
        "hello"
        [gemini.WithMaxTokens 0; gemini.WithTemperature 1%float];
      main.to_stderr ("error: gemini: maxTokens must be positive, got 0"
                      ++ main.newline)],
     1).
Proof.
  apply (main_reports_configured_max_tokens_that_are_not_positive
           sample.platform
           (sample.process ["gemini"; "hello"]
              (inr {| main.APIKey := "test-key-123";
                      main.Model := "gemini-3-pro-preview";
                      main.MaxTokens := 0;
                      main.Temperature := 1%float;
                      main.Timeout := 30 * 1000000000;
                      main.GoogleSearch := false;
                      main.LogLevel := "error" |}))
           _ eq_refl).
  - simpl. lia.
  - reflexivity.
  - simpl. lia.
Defined.

Lemma lifted_call (e : gemini.Event) (calls : list gemini.Event) :
  In (main.client_does e) (map main.client_does calls) -> In e calls.
Proof.
  induction calls as [|x calls IH]; [intros []|].
  intros [E|I]; [left; now injection E | right; exact (IH I)].
Qed.

(** X19: Every request [main] hands to the executor is the one of its
    configuration: a POST to the default base URL and the configured model,
    with the configured API key, whose body is the serialized request of the
    joined arguments with the configured max tokens and temperature, and the
    search tool exactly when the configuration enables it. It is sent only
    with arguments, a key that is not blank, positive max tokens and a
    temperature that is not negative. *)
Theorem main_sends_the_request_of_its_configuration :
  forall (P : gemini.Platform) (p : main.Process) (cfg : main.Config)
         (req : http.Request),
    main.MustLoad p = inr cfg ->
    In (main.client_does (gemini.doer_Do req)) (fst (main.main P p)) ->
    (exists body,
        gemini.Marshal (gemini.FormatFloat P)
                       (spec.request_of (shape.configured cfg)
                                        (strings.Join (tl (main.Args p)) " "))
        = inr body
        /\ req = spec.post (shape.configured_client p cfg) body)
    /\ (2 <= List.length (main.Args p))%nat
    /\ spec.all_whitespace (main.APIKey cfg) = false
    /\ 0 < main.MaxTokens cfg
    /\ PrimFloat.ltb (main.Temperature cfg) 0%float = false.
Proof.
  intros P p cfg req Loaded Sent.
  destruct (Nat.ltb_spec (List.length (main.Args p)) 2) as [Few|Some_args].
  { apply Nat.ltb_lt in Few. unfold main.main in Sent.
    rewrite Loaded, Few in Sent. destruct Sent as [E|[E|[]]]; discriminate E. }
  destruct (spec.all_whitespace (main.APIKey cfg)) eqn:Key.
  { rewrite (main_with_arguments P p cfg Loaded Some_args) in Sent.
    cbv zeta in Sent. rewrite New_in_main, Key in Sent.
    destruct Sent as [E|[E|[E|[E|[]]]]]; discriminate E. }
  rewrite (main_with_a_key P p cfg Loaded Some_args Key) in Sent.
  cbv zeta in Sent.
  assert (Call : In (gemini.doer_Do req)
                    (fst (gemini.Generate P (shape.configured_client p cfg)
                            (strings.Join (tl (main.Args p)) " ")
                            (spec.generate_options cfg)))).
  { destruct (snd (gemini.Generate P _ _ _)) as [err|resp];
      [|destruct (main.MarshalIndent p resp)];
      cbn [fst app In] in Sent;
      (destruct Sent as [E|[E|[E|[E|I]]]]; try discriminate E);
      (apply in_app_or in I; destruct I as [I|[E|[]]];
       [exact (lifted_call _ _ I) | discriminate E]). }
  apply Generate_sent in Call. rewrite resolve_in_main in Call.
  destruct Call as [body [Doc [Req [Tokens [Temp _]]]]].
  split; [exists body; split; assumption|].
  split; [exact Some_args|]. split; [reflexivity|].
  split; [apply Z.leb_gt; exact Tokens | exact Temp].
Qed.

Lemma main_of_the_defaults_sends_the_request_of_its_configuration :
  let p := sample.process ["gemini"; "hello"] (inr sample.config) in
  let req := spec.post (shape.configured_client p sample.config)
                       (sample.body_of "hello"
                          (spec.generate_options sample.config)) in
  (exists body,
      gemini.Marshal (gemini.FormatFloat sample.platform)
                     (spec.request_of (shape.configured sample.config)
                                      (strings.Join (tl (main.Args p)) " "))
      = inr body
      /\ req = spec.post (shape.configured_client p sample.config) body)
  /\ (2 <= List.length (main.Args p))%nat
  /\ spec.all_whitespace (main.APIKey sample.config) = false
  /\ 0 < main.MaxTokens sample.config
  /\ PrimFloat.ltb (main.Temperature sample.config) 0%float = false.
Proof.
  cbv zeta.
  apply (main_sends_the_request_of_its_configuration
           sample.platform
           (sample.process ["gemini"; "hello"] (inr sample.config))
           sample.config _ eq_refl).
  vm_compute. do 5 right. left. reflexivity.
Defined.

(** * Properties of the earlier revision *)

(** ** New *)

(** The options do the same to two clients that differ in the executor they
    start from, up to the executor; and that one is the same too once an
    option sets it. *)
Lemma options_from_another_doer (opts : list gemini.Option) (c : gemini.Client)
      (d : gemini.Doer) :
  let start := {| gemini.apiKey := gemini.apiKey c; gemini.model := gemini.model c;
                  gemini.baseURL := gemini.baseURL c; gemini.doer := d |} in
  let made := fold_left (fun c o => gemini.apply_Option o c) opts c in
  fold_left (fun c o => gemini.apply_Option o c) opts start
  = {| gemini.apiKey := gemini.apiKey made; gemini.model := gemini.model made;
       gemini.baseURL := gemini.baseURL made;
       gemini.doer := shape.last_doer opts d |}.
Proof.
  revert c d. induction opts as [|o opts IH]; intros c d; cbv zeta.
  - reflexivity.
  - destruct o as [m|d'|u]; cbn [fold_left shape.last_doer].
    + exact (IH (gemini.apply_Option (gemini.WithModel m) c) d).
    + exact (IH (gemini.apply_Option (gemini.WithDoer d') c) d').
    + exact (IH (gemini.apply_Option (gemini.WithBaseURL u) c) d).
Qed.

Lemma last_doer_of_an_option (opts : list gemini.Option) (d d0 d1 : gemini.Doer) :
  In (gemini.WithDoer d) opts ->
  shape.last_doer opts d0 = shape.last_doer opts d1.
Proof.
  revert d0 d1. induction opts as [|o opts IH]; intros d0 d1; [intros []|].
  intros [E|I].
  - subst o. reflexivity.
  - destruct o; cbn [shape.last_doer]; auto.
Qed.

(** X20: Where [New] of the later revision returns a client, [New] of the earlier
    one returns the same key, model and base URL, with the executor of the
    last [WithDoer], and [http.DefaultClient], which has no timeout, where
    the later one has a client with a timeout of 30 s. With a [WithDoer]
    among the options the two clients are equal. *)
Theorem earlier_New_differs_in_the_default_executor_only :
  forall (key : string) (opts : list gemini.Option) (c : gemini.Client),
    snd (gemini.New key opts) = inr c ->
    earlier.New key opts
    = {| gemini.apiKey := gemini.apiKey c; gemini.model := gemini.model c;
         gemini.baseURL := gemini.baseURL c;
         gemini.doer := shape.last_doer opts (gemini.http_Client 0) |}
    /\ gemini.doer c = shape.last_doer opts (gemini.http_Client gemini.defaultTimeout)
    /\ ((exists d, In (gemini.WithDoer d) opts) -> earlier.New key opts = c).
Proof.
  intros key opts c Made.
  destruct (New_made key opts c Made) as [_ [_ E]].
  assert (Old : earlier.New key opts
                = {| gemini.apiKey := gemini.apiKey c; gemini.model := gemini.model c;
                     gemini.baseURL := gemini.baseURL c;
                     gemini.doer := shape.last_doer opts (gemini.http_Client 0) |}).
  { rewrite E. unfold earlier.New.
    exact (options_from_another_doer opts
             {| gemini.apiKey := key; gemini.model := gemini.defaultModel;
                gemini.baseURL := gemini.defaultBaseURL;
                gemini.doer := gemini.http_Client gemini.defaultTimeout |}
             (gemini.http_Client 0)). }
  assert (D : gemini.doer c
              = shape.last_doer opts (gemini.http_Client gemini.defaultTimeout))
    by (rewrite E; apply options_set_doer).
  split; [exact Old|]. split; [exact D|].
  intros [d I]. rewrite Old.
  rewrite (last_doer_of_an_option opts d _ (gemini.http_Client gemini.defaultTimeout) I).
  rewrite <- D. now destruct c.
Qed.

Lemma earlier_New_with_a_doer_is_the_client_of_New :
  let opts := [gemini.WithModel "custom-model";
               gemini.WithDoer (sample.answers 200 "{}")] in
  let c := {| gemini.apiKey := "key"; gemini.model := "custom-model";
              gemini.baseURL := gemini.defaultBaseURL;
              gemini.doer := sample.answers 200 "{}" |} in
  earlier.New "key" opts
  = {| gemini.apiKey := gemini.apiKey c; gemini.model := gemini.model c;
       gemini.baseURL := gemini.baseURL c;
       gemini.doer := shape.last_doer opts (gemini.http_Client 0) |}
  /\ gemini.doer c = shape.last_doer opts (gemini.http_Client gemini.defaultTimeout)
  /\ ((exists d, In (gemini.WithDoer d) opts) -> earlier.New "key" opts = c).
Proof.
  cbv zeta.
  apply (earlier_New_differs_in_the_default_executor_only
           "key"
           [gemini.WithModel "custom-model";
            gemini.WithDoer (sample.answers 200 "{}")]).
  reflexivity.
Defined.

(** ** Generate *)

(** [Generate] of the earlier revision, by the request it builds. *)
Lemma earlier_Generate_flat (P : gemini.Platform) (c : gemini.Client)
      (prompt : string) (opts : list gemini.GenerateOption) :
  earlier.Generate P c prompt opts
  = let r := earlier.request_of (gemini.resolve opts) prompt in
    match earlier.Marshal (gemini.FormatFloat P) r with
    | inl cause => ([earlier.json_Marshal r], inl (gemini.marshal_request cause))
    | inr body =>
      match gemini.NewRequest_error P "POST" (http.URL (spec.post c body)) with
      | Some cause => ([earlier.json_Marshal r], inl (gemini.create_request cause))
      | None =>
        match gemini.Do P (gemini.doer c) (spec.post c body) with
        | http.Failed cause =>
          ([earlier.json_Marshal r; earlier.doer_Do (spec.post c body)],
           inl (gemini.do_request cause))
        | http.Responded resp =>
          let content := http.content (http.Response_Body resp) in
          ([earlier.json_Marshal r; earlier.doer_Do (spec.post c body);
            earlier.body_Read (len content); earlier.body_Close],
           match http.failure (http.Response_Body resp) with
           | Some cause => inl (gemini.read_response cause)
           | None =>
             if 400 <=? http.StatusCode resp
             then inl (gemini.HTTP_status (http.StatusCode resp) content)
             else inr content
           end)
        end
      end
    end.
Proof.
  unfold earlier.Generate. cbv zeta.
  replace (if gemini.googleSearch (gemini.resolve opts) then _ else _)
    with (earlier.request_of (gemini.resolve opts) prompt)
    by (unfold earlier.request_of;
        now destruct (gemini.googleSearch (gemini.resolve opts))).
  destruct (earlier.Marshal _ _) as [cause|body]; [reflexivity|].
  change (gemini.baseURL c ++ "/" ++ gemini.model c ++ ":generateContent")
    with (http.URL (spec.post c body)).
  destruct (gemini.NewRequest_error P "POST" _); [reflexivity|].
  change (gemini.Do P (gemini.doer c) _)
    with (gemini.Do P (gemini.doer c) (spec.post c body)).
  destruct (gemini.Do P (gemini.doer c) (spec.post c body)) as [cause|resp];
    [reflexivity|].
  unfold earlier.ReadAll.
  destruct (http.failure (http.Response_Body resp)); reflexivity.
Qed.

(** The document of the earlier request always has both generation
    parameters. *)
Lemma earlier_Marshal_request_of (f : float -> string)
      (cfg : gemini.generateConfig) (prompt : string) :
  earlier.Marshal f (earlier.request_of cfg prompt)
  = if json.unsupported (gemini.temperature cfg)
    then inl ("json: unsupported value: "
              ++ json.unsupported_text (gemini.temperature cfg))
    else
      inr (json.JObject
             ([("contents",
                json.JArray
                  [json.JObject
                     [("parts",
                       json.JArray
                         [json.JObject
                            [("text", json.JString (json.coerce prompt))]])]]);
               ("generationConfig",
                json.JObject
                  [("maxOutputTokens",
                    json.JNumber (strconv.Itoa (gemini.maxTokens cfg)));
                   ("temperature", json.JNumber (f (gemini.temperature cfg)))])]
              ++ if gemini.googleSearch cfg
                 then [("tools",
                        json.JArray
                          [json.JObject [("googleSearch", json.JObject [])]])]
                 else [])%list).
Proof.
  unfold earlier.Marshal, earlier.Marshal_GenerationConfig, earlier.request_of.
  cbn [earlier.Request_GenerationConfig earlier.Temperature
       earlier.MaxOutputTokens earlier.Contents earlier.Tools].
  destruct (json.unsupported (gemini.temperature cfg)); [reflexivity|].
  destruct (gemini.googleSearch cfg); reflexivity.
Qed.

(** X21: The earlier [Generate] validates nothing: whatever max tokens and
    temperature the options give, zero and negative ones too, a request whose
    temperature the encoder can write is handed to the executor when its URL
    parses, and its body spells both parameters as they are. *)
Theorem earlier_Generate_sends_parameters_unvalidated :
  forall (P : gemini.Platform) (c : gemini.Client) (prompt : string)
         (opts : list gemini.GenerateOption),
    let cfg := gemini.resolve opts in
    let body :=
      json.JObject
        ([("contents",
           json.JArray
             [json.JObject
                [("parts",
                  json.JArray
                    [json.JObject
                       [("text", json.JString (json.coerce prompt))]])]]);
          ("generationConfig",
           json.JObject
             [("maxOutputTokens",
               json.JNumber (strconv.Itoa (gemini.maxTokens cfg)));
              ("temperature",
               json.JNumber (gemini.FormatFloat P (gemini.temperature cfg)))])]
         ++ if gemini.googleSearch cfg
            then [("tools",
                   json.JArray
                     [json.JObject [("googleSearch", json.JObject [])]])]
            else [])%list in
    json.unsupported (gemini.temperature cfg) = false ->
    gemini.NewRequest_error P "POST" (http.URL (spec.post c body)) = None ->
    filter earlier.is_Do (fst (earlier.Generate P c prompt opts))
    = [earlier.doer_Do (spec.post c body)].
Proof.
  intros P c prompt opts cfg body Finite Url.
  rewrite earlier_Generate_flat. cbv zeta.
  rewrite earlier_Marshal_request_of. fold cfg. rewrite Finite.
  fold body. rewrite Url.
  destruct (gemini.Do P (gemini.doer c) (spec.post c body)); reflexivity.
Qed.

Lemma earlier_Generate_sends_zero_max_tokens_and_a_negative_temperature :
  filter earlier.is_Do
         (fst (earlier.Generate sample.platform
                 (sample.client (sample.answers 200 "{}")) "hello"
                 [gemini.WithMaxTokens 0; gemini.WithTemperature (-1)%float]))
  = [earlier.doer_Do
       (spec.post (sample.client (sample.answers 200 "{}"))
          (json.JObject
             [("contents",
               json.JArray
                 [json.JObject
                    [("parts",
                      json.JArray
                        [json.JObject
                           [("text", json.JString (json.coerce "hello"))]])]]);
              ("generationConfig",
               json.JObject
                 [("maxOutputTokens", json.JNumber (strconv.Itoa 0));
                  ("temperature",
                   json.JNumber (sample.format_b (-1)%float))])]))].
Proof.
  apply (earlier_Generate_sends_parameters_unvalidated
           sample.platform (sample.client (sample.answers 200 "{}")) "hello"
           [gemini.WithMaxTokens 0; gemini.WithTemperature (-1)%float]);
    reflexivity.
Defined.

(** ** The two revisions of Generate *)

(** With max tokens that are not zero the two revisions serialize the same
    document. *)
Lemma revisions_serialize_alike (f : float -> string)
      (cfg : gemini.generateConfig) (prompt : string) :
  gemini.maxTokens cfg <> 0 ->
  gemini.Marshal f (spec.request_of cfg prompt)
  = earlier.Marshal f (earlier.request_of cfg prompt).
Proof.
  intros Tokens. apply Z.eqb_neq in Tokens.
  rewrite earlier_Marshal_request_of.
  unfold gemini.Marshal, gemini.Marshal_GenerationConfig, spec.request_of.
  cbn [gemini.Request_GenerationConfig gemini.Temperature
       gemini.MaxOutputTokens gemini.Contents gemini.Tools].
  rewrite Tokens.
  destruct (json.unsupported (gemini.temperature cfg)); [reflexivity|].
  destruct (gemini.googleSearch cfg); reflexivity.
Qed.

(** X22: On parameters that are valid the two revisions hand the same requests
    to the executor. What the earlier one returns as raw bytes the later one
    decodes, unless the bytes exceed 10 MiB, which the earlier one returns
    all the same; a response the later one returns is the decoding of the
    bytes the earlier one returns; and an HTTP error of the earlier one,
    which carries the whole body, is the same error with the excerpt of the
    body in the later one, or a size limit error. *)
Theorem revisions_send_alike_and_the_later_decodes_and_bounds :
  forall (P : gemini.Platform) (c : gemini.Client) (prompt : string)
         (opts : list gemini.GenerateOption),
    spec.valid (gemini.resolve opts) ->
    (forall req,
        In (earlier.doer_Do req) (fst (earlier.Generate P c prompt opts))
        <-> In (gemini.doer_Do req) (fst (gemini.Generate P c prompt opts)))
    /\ (forall body,
           snd (earlier.Generate P c prompt opts) = inr body ->
           snd (gemini.Generate P c prompt opts)
           = if gemini.maxResponseBytes <? len body
             then inl gemini.response_exceeds_limit
             else match gemini.Unmarshal_Response P body with
                  | inl cause => inl (gemini.unmarshal_response cause)
                  | inr r => inr r
                  end)
    /\ (forall r,
           snd (gemini.Generate P c prompt opts) = inr r ->
           exists body,
             snd (earlier.Generate P c prompt opts) = inr body
             /\ gemini.Unmarshal_Response P body = inr r)
    /\ (forall code body,
           snd (earlier.Generate P c prompt opts)
           = inl (gemini.HTTP_status code body) ->
           snd (gemini.Generate P c prompt opts)
           = if gemini.maxResponseBytes <? len body
             then inl gemini.response_exceeds_limit
             else inl (gemini.HTTP_status code (spec.excerpt body))).
Proof.
  intros P c prompt opts Valid.
  destruct (valid_passes_validation _ Valid) as [Tokens Temp].
  rewrite Generate_round_trip, earlier_Generate_flat.
  unfold spec.round_trip. cbv zeta. rewrite Tokens, Temp.
  rewrite (revisions_serialize_alike (gemini.FormatFloat P)
             (gemini.resolve opts) prompt)
    by (destruct Valid as [Positive _]; lia).
  destruct (earlier.Marshal _ _) as [cause|doc].
  { cbn [fst snd]. repeat split; try discriminate.
    - intros [E|[]]; discriminate E.
    - intros [E|[]]; discriminate E. }
  destruct (gemini.NewRequest_error P "POST" _) as [cause|].
  { cbn [fst snd]. repeat split; try discriminate.
    - intros [E|[]]; discriminate E.
    - intros [E|[]]; discriminate E. }
  destruct (gemini.Do P (gemini.doer c) (spec.post c doc)) as [cause|resp].
  { cbn [fst snd]. repeat split; try discriminate.
    - intros [E|[E|[]]]; [discriminate E | injection E as <-].
      right. left. reflexivity.
    - intros [E|[E|[]]]; [discriminate E | injection E as <-].
      right. left. reflexivity. }
  cbn [fst snd].
  assert (Quiet : forall req, ~ In (gemini.doer_Do req) (fst (spec.received P resp))).
  { intros req. unfold spec.received. cbv zeta.
    destruct (gemini.maxResponseBytes <? _);
      [|destruct (http.failure _); [|destruct (400 <=? _)]];
      cbn [fst In]; intuition discriminate. }
  split; [|split; [|split]].
  - intros req. split.
    + intros [E|[E|[E|[E|[]]]]]; try discriminate E. injection E as <-.
      right. left. reflexivity.
    + intros [E|[E|I]]; [discriminate E | injection E as <- |].
      * right. left. reflexivity.
      * destruct (Quiet req I).
  - intros body. unfold spec.received. cbv zeta.
    destruct (http.failure (http.Response_Body resp)); [discriminate|].
    destruct (400 <=? http.StatusCode resp); [discriminate|].
    intros [= <-].
    destruct (gemini.maxResponseBytes <? _); reflexivity.
  - intros r. unfold spec.received. cbv zeta.
    destruct (gemini.maxResponseBytes <? _); [discriminate|].
    destruct (http.failure (http.Response_Body resp)); [discriminate|].
    destruct (400 <=? http.StatusCode resp); [discriminate|].
    cbn [snd]. intros Decoded.
    exists (http.content (http.Response_Body resp)). split; [reflexivity|].
    destruct (gemini.Unmarshal_Response P _); [discriminate|].
    now injection Decoded as <-.
  - intros code body. unfold spec.received. cbv zeta.
    destruct (http.failure (http.Response_Body resp)); [discriminate|].
    destruct (400 <=? http.StatusCode resp); [|discriminate].
    intros [= <- <-].
    destruct (gemini.maxResponseBytes <? _); reflexivity.
Qed.

Lemma revisions_agree_on_the_request_of_the_test :
  let c := sample.client (sample.answers 200 "{}") in
  let opts := [gemini.WithMaxTokens 100; gemini.WithGoogleSearch] in
  (forall req,
      In (earlier.doer_Do req)
         (fst (earlier.Generate sample.platform c "hello" opts))
      <-> In (gemini.doer_Do req)
             (fst (gemini.Generate sample.platform c "hello" opts)))
  /\ (forall body,
         snd (earlier.Generate sample.platform c "hello" opts) = inr body ->
         snd (gemini.Generate sample.platform c "hello" opts)
         = if gemini.maxResponseBytes <? len body
           then inl gemini.response_exceeds_limit
           else match gemini.Unmarshal_Response sample.platform body with
                | inl cause => inl (gemini.unmarshal_response cause)
                | inr r => inr r
                end)
  /\ (forall r,
         snd (gemini.Generate sample.platform c "hello" opts) = inr r ->
         exists body,
           snd (earlier.Generate sample.platform c "hello" opts) = inr body
           /\ gemini.Unmarshal_Response sample.platform body = inr r)
  /\ (forall code body,
         snd (earlier.Generate sample.platform c "hello" opts)
         = inl (gemini.HTTP_status code body) ->
         snd (gemini.Generate sample.platform c "hello" opts)
         = if gemini.maxResponseBytes <? len body
           then inl gemini.response_exceeds_limit
           else inl (gemini.HTTP_status code (spec.excerpt body))).
Proof.
  cbv zeta.
  apply (revisions_send_alike_and_the_later_decodes_and_bounds
           sample.platform (sample.client (sample.answers 200 "{}")) "hello"
           [gemini.WithMaxTokens 100; gemini.WithGoogleSearch]).
  split; [simpl; lia | reflexivity].
Defined.

(** ** The earlier command line *)

Lemma earlier_lifted_calls (a : earlier_main.Action) (calls : list earlier.Event) :
  In a (map earlier_main.client_does calls) ->
  exists e, a = earlier_main.client_does e.
Proof.
  induction calls as [|x calls IH]; [intros []|].
  intros [E|I]; [exists x; now rewrite E | exact (IH I)].
Qed.

(** X23: The earlier [main] asks for its arguments before it loads the
    configuration: with fewer than two it prints its usage line on standard
    error and exits with status 1 whatever the environment holds. Of more
    arguments it takes the first as the prompt and ignores the others, and
    every call of [Generate] it makes enables the search tool. *)
Theorem earlier_main_wants_one_argument_and_ignores_the_others :
  forall (P : gemini.Platform) (p : earlier_main.Process),
    ((List.length (earlier_main.Args p) < 2)%nat ->
     earlier_main.main P p
     = ([earlier_main.to_stderr ("Usage: gemini <prompt>" ++ main.newline)], 1))
    /\ (forall a b rest,
           earlier_main.Args p = a :: b :: rest ->
           earlier_main.main P p
           = earlier_main.main P {| earlier_main.Args := [a; b];
                                    earlier_main.MustLoad := earlier_main.MustLoad p;
                                    earlier_main.call_New := earlier_main.call_New p;
                                    earlier_main.Indent := earlier_main.Indent p |}
           /\ forall c prompt opts,
               In (earlier_main.calls_Generate c prompt opts)
                  (fst (earlier_main.main P p)) ->
               prompt = b /\ gemini.googleSearch (gemini.resolve opts) = true).
Proof.
  intros P p. split.
  - intros Few. apply Nat.ltb_lt in Few. unfold earlier_main.main.
    now rewrite Few.
  - intros a b rest Given. split.
    + unfold earlier_main.main. rewrite Given. reflexivity.
    + intros c prompt opts. unfold earlier_main.main. rewrite Given.
      cbn [List.length Nat.ltb Nat.leb nth].
      destruct (earlier_main.MustLoad p) as [v|cfg].
      { intros [E|[]]; discriminate E. }
      cbv zeta.
      set (generated := earlier.Generate P _ b _).
      assert (Lifted : forall last,
                 In (earlier_main.calls_Generate c prompt opts)
                    (map earlier_main.client_does (fst generated) ++ [last]) ->
                 (forall c' p' o', last <> earlier_main.calls_Generate c' p' o') ->
                 False).
      { intros last I Other. apply in_app_or in I. destruct I as [I|[E|[]]].
        - apply earlier_lifted_calls in I. destruct I as [e E]. discriminate E.
        - exact (Other _ _ _ E). }
      destruct (snd generated) as [err|body];
        [|destruct (earlier_main.Indent p body)];
        cbn [fst app In];
        (intros [E|[E|[E|I]]]; try discriminate E;
         [injection E as _ <- <-; split; reflexivity
         |exfalso; apply (Lifted _ I); discriminate]).
Qed.

Lemma earlier_main_drops_the_second_word :
  let p := earlier_main.process ["gemini"; "hello"; "world"]
                                (inr earlier_main.config) in
  ((List.length (earlier_main.Args p) < 2)%nat ->
   earlier_main.main sample.platform p
   = ([earlier_main.to_stderr ("Usage: gemini <prompt>" ++ main.newline)], 1))
  /\ (forall a b rest,
         earlier_main.Args p = a :: b :: rest ->
         earlier_main.main sample.platform p
         = earlier_main.main sample.platform
             {| earlier_main.Args := [a; b];
                earlier_main.MustLoad := earlier_main.MustLoad p;
                earlier_main.call_New := earlier_main.call_New p;
                earlier_main.Indent := earlier_main.Indent p |}
         /\ forall c prompt opts,
             In (earlier_main.calls_Generate c prompt opts)
                (fst (earlier_main.main sample.platform p)) ->
             prompt = b /\ gemini.googleSearch (gemini.resolve opts) = true).
Proof.
  exact (earlier_main_wants_one_argument_and_ignores_the_others
           sample.platform
           (earlier_main.process ["gemini"; "hello"; "world"]
                                 (inr earlier_main.config))).
Defined.



